(** * ABCD detector: the assessment pipeline of [main.py] and
    [helpers/generic_helpers.py], embedded in Rocq.

    The pipeline discovers a brand's videos in a bucket, creates a
    5-second preview clip for each, runs the feature detectors over every
    video, scores the result and renders it.

    What the two files take from outside is modelled as follows.
    - The bucket is the list of its objects (name and size), in the order
      of their names, which is the order the store lists them in.  Names
      are distinct in a real bucket; the properties that need it say so.
    - Requests to the store do not fail, except for the upload guarded
      by [if_generation_match=0], which raises when the object exists.
      Each download and upload leaves an event in a trace.
    - Writing a downloaded video to the local disk and cutting a clip
      with the video library can fail.  What they do with a local path is
      a parameter (class [Config]): the write gives nothing or raises,
      the library gives the size of the clip it wrote or raises.  The
      model does not follow the contents of local files, so the outcome
      is a function of the paths.
    - The detectors, the annotation download and the constants of
      [input_parameters] are parameters (type classes [Detectors] and
      [Config]).
    - A float is the exact rational it approximates: [a / b] is the
      quotient and [round(x, 2)] the nearest multiple of 1/100, ties to
      even.  Python agrees unless the quotient is closer than the float
      precision to a threshold or to a tie.
    - Strings are byte strings; the printed texts are constructors, and
      the pictograms in front of the bands are left out. *)

From Stdlib Require Import ZArith QArith Qround Ascii String.
From stdpp Require Import gmap strings list sorting.

Local Open Scope Z_scope.

(** ** Python primitives used by the two files *)

Module Py.

(** [s.split(sep)] for a one-character separator: never empty, and two
    adjacent separators give an empty part. *)
Fixpoint split (sep : ascii) (s : string) : list string :=
  match s with
  | EmptyString => [EmptyString]
  | String c s' =>
      if Ascii.eqb c sep then EmptyString :: split sep s'
      else match split sep s' with
           | [] => [String c EmptyString]
           | w :: ws => String c w :: ws
           end
  end.

(** [needle in hay] on strings. *)
Fixpoint contains (needle hay : string) : bool :=
  String.prefix needle hay
  || match hay with
     | EmptyString => false
     | String _ hay' => contains needle hay'
     end.

(** [s.replace(old, new)] for a one-character [old]. *)
Fixpoint replace (old : ascii) (new : string) (s : string) : string :=
  match s with
  | EmptyString => EmptyString
  | String c s' =>
      if Ascii.eqb c old then new +:+ replace old new s'
      else String c (replace old new s')
  end.

(** The exceptions the two files can raise. *)
Inductive exn : Type :=
| ValueError          (* unpacking a value of the wrong length *)
| ZeroDivisionError
| AttributeError      (* an attribute of [None] *)
| PreconditionFailed  (* a generation-guarded upload onto an existing object *)
| SystemExit          (* [exit()] *)
| IsADirectoryError   (* [open(path, "wb")] on a directory *)
| OSError.            (* any other failure of the disk or of the video library *)

Inductive result (A : Type) : Type :=
| Ok (a : A)
| Raise (e : exn).
Arguments Ok {A} a.
Arguments Raise {A} e.

(** A value that is either a pair of strings or a single string: what
    [get_file_name_from_gcs_url] returns. *)
Inductive value : Type :=
| VPair (a b : string)
| VStr (s : string).

(** [a, b = v]: a pair unpacks into its components; a string unpacks
    into its characters and so must have exactly two of them. *)
Definition unpack2 (v : value) : result (string * string) :=
  match v with
  | VPair a b => Ok (a, b)
  | VStr (String c1 (String c2 EmptyString)) =>
      Ok (String c1 EmptyString, String c2 EmptyString)
  | VStr _ => Raise ValueError
  end.

(** [a / b] on integers.  A Python float is the binary64 number nearest
    to the quotient; the model keeps the exact rational. *)
Definition truediv (a b : Z) : result Q :=
  if Z.eqb b 0 then Raise ZeroDivisionError
  else Ok (inject_Z a / inject_Z b)%Q.

(** Nearest integer to [q], ties to the even one. *)
Definition round_half_even (q : Q) : Z :=
  let n := Qnum q in
  let d := Z.pos (Qden q) in
  let fl := n / d in
  let r := n mod d in
  match 2 * r ?= d with
  | Lt => fl
  | Gt => fl + 1
  | Eq => if Z.even fl then fl else fl + 1
  end.

(** [a < b] on numbers. *)
Definition lt (a b : Q) : bool := negb (Qle_bool b a).

(** [round(x, 2)]: the multiple of 1/100 nearest to the exact value of
    [x], ties to even. *)
Definition round2 (x : Q) : Q :=
  Qmake (round_half_even (x * 100)) 100.

End Py.

Export Py(exn(..), result(..), value(..)).

(** ** Data model *)

(** An object of the bucket: its name (the path inside the bucket) and
    its size in bytes. *)
Record blob : Type := Blob { name : string; size : Z }.

(** The [llm_details] entry of a feature result: absent, a list of
    dictionaries, one dictionary, or a value of another type. *)
Inductive llm_details_t : Type :=
| LlmAbsent
| LlmList (l : list (gmap string string))
| LlmDict (d : gmap string string)
| LlmOther.

(** One feature result, the dictionary a detector returns. *)
Record feature_result : Type := Feature {
  feature : string;
  feature_detected : bool;
  llm_details : llm_details_t
}.

(** The dictionary built for one video at [main.py] lines 274-280. *)
Record video_assessment : Type := VideoAssessment {
  video_name : string;
  video_uri : string;
  features : list feature_result;
  passed_features_count : Z;
  score : Q
}.

(** The dictionary [{"brand_name": ..., "video_assessments": [...]}]. *)
Record brand_assessment : Type := BrandAssessment {
  brand_name : string;
  video_assessments : list video_assessment
}.

(** The classification band shown with a video's score. *)
Inductive band : Type :=
| Excellent
| MightImprove
| NeedsReview.

Definition band_text (b : band) : string :=
  match b with
  | Excellent => "Excellent"
  | MightImprove => "Might Improve"
  | NeedsReview => "Needs Review"
  end.

(** ** The world: bucket and observable effects *)

(** What the code prints; the constructor stands for the message text. *)
Inductive message : Type :=
| MsgAlreadyTrimmed (video : string)   (* Video .. has already been trimmed. Skipping... *)
| MsgDownloaded (video_uri : string)   (* Video .. downloaded and saved! *)
| MsgUploaded (new_video_name gcs_output_path : string) (* File .. uploaded to .. *)
| MsgNotResolved (video : string)      (* Video name not resolved for ..... Skipping execution *)
| MsgTooLarge (video : string)         (* The size of video .. is greater than .. MB. Skipping execution. *)
| MsgProcessing (video : string)       (* Processing ABCD Assessment for video ..... *)
| MsgNoVideos                          (* There are no videos to display. *)
| MsgHeading (brand : string)          (* *****  ABCD Assessment for brand ..  ***** *)
| MsgPlayer (video_url : string)       (* the url printed by player *)
| MsgAssetName (video : string)        (* Asset name: .. *)
| MsgVideoScore (rounded : Q) (passed total : Z) (* Video score: ..%, adherence (../..) *)
| MsgAssetResult (b : band)            (* Asset result: .. *)
| MsgEvaluatedFeatures                 (* Evaluated Features: *)
| MsgFeature (detected : bool) (feature_name : string). (* a check mark or a cross, then the name *)

Inductive event : Type :=
| Print (m : message)
| Download (video_uri local_path : string)   (* the object is fetched, to be written at the path *)
| WriteClip (local_video_path new_video_name_path : string) (trim_start trim_end : Z)
                                             (* the video library is asked for the clip *)
| Upload (gcs_path local_path : string)
| GenerateAnnotations (brand : string)
| StoreLocally (brand : string) (a : video_assessment).

Record world : Type := World {
  bucket : list blob;
  trace : list event   (* oldest first *)
}.

(** Computations that read and change the world and may raise. *)
Definition M (A : Type) : Type := world -> result A * world.

Definition ret {A} (a : A) : M A := fun w => (Ok a, w).

Definition bind {A B} (m : M A) (k : A -> M B) : M B :=
  fun w => match m w with
           | (Ok a, w') => k a w'
           | (Raise e, w') => (Raise e, w')
           end.

Definition raise {A} (e : exn) : M A := fun w => (Raise e, w).

Definition lift {A} (r : result A) : M A := fun w => (r, w).

Notation "x <- m ;; k" := (bind m (fun x => k))
  (at level 100, m at next level, right associativity).
Notation "m ;;; k" := (bind m (fun _ => k))
  (at level 100, right associativity).

Definition emit (e : event) : M unit :=
  fun w => (Ok tt, World (bucket w) (trace w ++ [e])).

Definition print (m : message) : M unit := emit (Print m).

(** [for x in l: acc = body x acc]; an exception in the body ends the loop. *)
Fixpoint for_fold {A S} (l : list A) (body : A -> S -> M S) (acc : S) : M S :=
  match l with
  | [] => ret acc
  | x :: l' => acc' <- body x acc ;; for_fold l' body acc'
  end.

Definition for_each {A} (l : list A) (body : A -> M unit) : M unit :=
  for_fold l (fun x _ => body x) tt.

(** *** The bucket operations used by the code *)

(** [bucket.list_blobs(prefix=p)]: the objects whose name starts with [p],
    as they are when the listing is requested. *)
Definition list_blobs (prefix : string) : M (list blob) :=
  fun w => (Ok (List.filter (fun b => String.prefix prefix (name b)) (bucket w)), w).

(** [bucket.get_blob(path)]: the object's metadata, or [None]. *)
Definition lookup_blob (path : string) (bs : list blob) : option blob :=
  List.find (fun b => String.eqb (name b) path) bs.

Definition get_blob (path : string) : M (option blob) :=
  fun w => (Ok (lookup_blob path (bucket w)), w).

(** The store lists its objects in the order of their names; a new
    object takes its place in that order. *)
Fixpoint insert_blob (b : blob) (bs : list blob) : list blob :=
  match bs with
  | [] => [b]
  | x :: bs' =>
      if String.leb (name b) (name x) then b :: x :: bs'
      else x :: insert_blob b bs'
  end.

(** [blob.upload_from_filename(local, if_generation_match=0)]: creates the
    object only when none exists at [path], and raises otherwise. *)
Definition upload_if_absent (path local_path : string) (sz : Z) : M unit :=
  fun w => match lookup_blob path (bucket w) with
           | Some _ => (Raise PreconditionFailed, w)
           | None => (Ok tt, World (insert_blob (Blob path sz) (bucket w))
                                   (trace w ++ [Upload path local_path]))
           end.

(** ** Configuration and external collaborators *)

(** The constants of [input_parameters], which is not part of the two
    files, and what the local disk and the video library do. *)
Class Config : Type := {
  VERBOSE : bool;
  BUCKET_NAME : string;
  VIDEO_SIZE_LIMIT_MB : Q;
  STORE_ASSESSMENT_RESULTS_LOCALLY : bool;
  (** [with open(path, "wb") as f: f.write(video)] *)
  write_local_file : string -> result unit;
  (** [VideoFileClip(source).subclip(trim_start, trim_end).write_videofile(clip)]:
      the size in bytes of the clip written *)
  write_subclip : string -> string -> Z -> Z -> result Z
}.

(** ** [helpers/generic_helpers.py] *)

Definition get_file_name_from_gcs_url (gcs_url : string) : value :=
  let url_parts := Py.split "/" gcs_url in
  match url_parts with
  | [_; _; part2] =>
      let file_name := hd EmptyString (Py.split "." part2) in
      let file_name_with_format := part2 in
      VPair file_name file_name_with_format
  | _ => VStr EmptyString
  end.

Definition get_video_format (video_location : string) : string :=
  let gcs_parts := Py.split "." video_location in
  match gcs_parts with
  | [_; part1] => part1
  | _ => EmptyString
  end.

Section Helpers.
Context `{Config}.

Definition download_and_save_video
    (output_path video_name_with_format video_uri : string) : M unit :=
  emit (Download video_uri (output_path +:+ "/" +:+ video_name_with_format)) ;;;
  lift (write_local_file (output_path +:+ "/" +:+ video_name_with_format)) ;;;
  if VERBOSE then print (MsgDownloaded video_uri) else ret tt.

Definition trim_and_push_video_to_gcs
    (local_videos_path gcs_output_path video_name_with_format new_video_name : string)
    (trim_start trim_end : Z) : M unit :=
  let local_video_path := local_videos_path +:+ "/" +:+ video_name_with_format in
  let new_video_name_path := local_videos_path +:+ "/" +:+ new_video_name in
  emit (WriteClip local_video_path new_video_name_path trim_start trim_end) ;;;
  clip_size <-
    lift (write_subclip local_video_path new_video_name_path trim_start trim_end) ;;
  upload_if_absent (gcs_output_path +:+ "/" +:+ new_video_name)
                   new_video_name_path clip_size ;;;
  if VERBOSE then print (MsgUploaded new_video_name gcs_output_path) else ret tt.

(** The folder marker and the preview clips are not candidates
    ([generic_helpers.py] line 173, [main.py] line 107). *)
Definition skipped (brand_videos_folder : string) (video : blob) : bool :=
  String.eqb (name video) (brand_videos_folder +:+ "/")
  || Py.contains "1st_5_secs" (name video).

(** The part of the loop body of [trim_videos] after the existence
    check, lines 185-202. *)
Definition trim_unless_present
    (local_videos_path brand_videos_folder : string) (video : blob)
    (video_name_with_format video_name_1st_5_secs : string)
    (video_1st_5_secs_metadata : option blob) : M unit :=
  match video_1st_5_secs_metadata with
  | None =>
      download_and_save_video local_videos_path video_name_with_format (name video) ;;;
      trim_and_push_video_to_gcs local_videos_path brand_videos_folder
        video_name_with_format video_name_1st_5_secs 0 5
  | Some _ => print (MsgAlreadyTrimmed (name video))
  end.

(** The path of the preview clip of a video, lines 177-182. *)
Definition video_name_1st_5_secs_of (video_name video_name_with_format : string) : string :=
  video_name +:+ "_1st_5_secs." +:+ get_video_format video_name_with_format.

Definition trim_videos_body
    (local_videos_path brand_videos_folder : string) (video : blob) : M unit :=
  if skipped brand_videos_folder video then ret tt
  else
    names <- lift (Py.unpack2 (get_file_name_from_gcs_url (name video))) ;;
    let '(video_name, video_name_with_format) := names in
    let video_name_1st_5_secs :=
      video_name_1st_5_secs_of video_name video_name_with_format in
    let video_name_1st_5_secs_parent_folder :=
      brand_videos_folder +:+ "/" +:+ video_name_1st_5_secs in
    video_1st_5_secs_metadata <- get_blob video_name_1st_5_secs_parent_folder ;;
    trim_unless_present local_videos_path brand_videos_folder video
      video_name_with_format video_name_1st_5_secs video_1st_5_secs_metadata.

Definition trim_videos (brand_name : string) : M unit :=
  let local_videos_path := "abcd_videos" in
  let brand_videos_folder := brand_name +:+ "/videos" in
  blobs <- list_blobs brand_videos_folder ;;
  for_each blobs (trim_videos_body local_videos_path brand_videos_folder).

End Helpers.

(** ** [main.py] *)

(** The annotation download and the detectors, modules of the repository
    outside the two files.  Each detector is a function of its arguments;
    the number of results it returns is the one its call site unpacks. *)
Class Detectors : Type := {
  annotations : Type;
  (** the empty dictionary used when annotations are off *)
  no_annotations : annotations;
  download_video_annotations :
    string -> string ->
    annotations * annotations * annotations * annotations
    * annotations * annotations * annotations;
  detect_quick_pacing : annotations -> string -> feature_result * feature_result;
  detect_dynamic_start : annotations -> string -> feature_result;
  detect_supers : annotations -> string -> feature_result;
  detect_supers_with_audio : annotations -> annotations -> string -> feature_result;
  detect_brand_visuals :
    annotations -> annotations -> string -> string -> list string ->
    feature_result * feature_result * feature_result;
  detect_brand_mention_speech :
    annotations -> string -> string -> list string -> feature_result * feature_result;
  detect_product_visuals :
    annotations -> string -> list string -> list string -> feature_result * feature_result;
  detect_product_mention_text :
    annotations -> string -> list string -> list string -> feature_result * feature_result;
  detect_product_mention_speech :
    annotations -> string -> list string -> list string -> feature_result * feature_result;
  detect_visible_face : annotations -> string -> feature_result * feature_result;
  detect_presence_of_people : annotations -> string -> feature_result * feature_result;
  detect_audio_speech_early : annotations -> string -> feature_result;
  detect_overall_pacing : annotations -> string -> feature_result;
  detect_call_to_action_speech : annotations -> string -> list string -> feature_result;
  detect_call_to_action_text : annotations -> string -> list string -> feature_result
}.

(** The brand criteria passed through the pipeline. *)
Record criteria : Type := Criteria {
  brand_variations : list string;
  branded_products : list string;
  branded_products_categories : list string;
  branded_call_to_actions : list string
}.

(** Lines 266-280: count the detected features and build the video's
    dictionary. *)
Definition count_passed (features : list feature_result) : Z :=
  fold_left (fun passed_features_count feature =>
               if feature_detected feature then passed_features_count + 1
               else passed_features_count)
            features 0.

Definition score_video (video_name_with_format video_uri : string)
    (features : list feature_result) : result video_assessment :=
  let total_features := Z.of_nat (length features) in
  let passed_features_count := count_passed features in
  match Py.truediv (passed_features_count * 100) total_features with
  | Raise e => Raise e
  | Ok score =>
      Ok (VideoAssessment video_name_with_format video_uri features
                          passed_features_count score)
  end.

(** [assessments.get("video_assessments").append(video_assessment)]. *)
Definition append_video_assessment (assessments : brand_assessment)
    (va : video_assessment) : brand_assessment :=
  BrandAssessment (brand_name assessments) (video_assessments assessments ++ [va]).

Section Main.
Context `{Config} `{Detectors}.

(** Lines 125-143: the seven annotation channels of a video. *)
Definition annotations_for (use_annotations : bool) (brand_name video_name : string) :=
  if use_annotations then download_video_annotations brand_name video_name
  else (no_annotations, no_annotations, no_annotations, no_annotations,
        no_annotations, no_annotations, no_annotations).

(** Lines 148-264: the detectors run in order, each result appended to
    [features]. *)
Definition detect_features (use_annotations : bool) (brand_name : string)
    (c : criteria) (video_name video_uri : string) : list feature_result :=
  let '(label_annotation_results, face_annotation_results,
        people_annotation_results, shot_annotation_results,
        text_annotation_results, logo_annotation_results,
        speech_annotation_results) :=
    annotations_for use_annotations brand_name video_name in
  let features := [] in
  let '(quick_pacing, quick_pacing_1st_5_secs) :=
    detect_quick_pacing shot_annotation_results video_uri in
  let features := features ++ [quick_pacing] in
  let features := features ++ [quick_pacing_1st_5_secs] in
  let dynamic_start := detect_dynamic_start shot_annotation_results video_uri in
  let features := features ++ [dynamic_start] in
  let supers := detect_supers text_annotation_results video_uri in
  let supers_with_audio :=
    detect_supers_with_audio text_annotation_results speech_annotation_results
      video_uri in
  let features := features ++ [supers] in
  let features := features ++ [supers_with_audio] in
  let '(brand_visuals, brand_visuals_1st_5_secs, brand_visuals_logo_big_1st_5_secs) :=
    detect_brand_visuals text_annotation_results logo_annotation_results video_uri
      brand_name (brand_variations c) in
  let features := features ++ [brand_visuals] in
  let features := features ++ [brand_visuals_1st_5_secs] in
  let '(brand_mention_speech, brand_mention_speech_1st_5_secs) :=
    detect_brand_mention_speech speech_annotation_results video_uri brand_name
      (brand_variations c) in
  let features := features ++ [brand_mention_speech] in
  let features := features ++ [brand_mention_speech_1st_5_secs] in
  let '(product_visuals, product_visuals_1st_5_secs) :=
    detect_product_visuals label_annotation_results video_uri
      (branded_products c) (branded_products_categories c) in
  let features := features ++ [product_visuals] in
  let features := features ++ [product_visuals_1st_5_secs] in
  let '(product_mention_text, product_mention_text_1st_5_secs) :=
    detect_product_mention_text text_annotation_results video_uri
      (branded_products c) (branded_products_categories c) in
  let features := features ++ [product_mention_text] in
  let features := features ++ [product_mention_text_1st_5_secs] in
  let '(product_mention_speech, product_mention_speech_1st_5_secs) :=
    detect_product_mention_speech speech_annotation_results video_uri
      (branded_products c) (branded_products_categories c) in
  let features := features ++ [product_mention_speech] in
  let features := features ++ [product_mention_speech_1st_5_secs] in
  let '(visible_face_1st_5_secs, visible_face_close_up) :=
    detect_visible_face face_annotation_results video_uri in
  let features := features ++ [visible_face_1st_5_secs] in
  let features := features ++ [visible_face_close_up] in
  let '(presence_of_people, presence_of_people_1st_5_secs) :=
    detect_presence_of_people people_annotation_results video_uri in
  let features := features ++ [presence_of_people] in
  let features := features ++ [presence_of_people_1st_5_secs] in
  let audio_speech_early :=
    detect_audio_speech_early speech_annotation_results video_uri in
  let features := features ++ [audio_speech_early] in
  let overall_pacing := detect_overall_pacing shot_annotation_results video_uri in
  let features := features ++ [overall_pacing] in
  let call_to_action_speech :=
    detect_call_to_action_speech speech_annotation_results video_uri
      (branded_call_to_actions c) in
  let features := features ++ [call_to_action_speech] in
  let call_to_action_text :=
    detect_call_to_action_text text_annotation_results video_uri
      (branded_call_to_actions c) in
  let features := features ++ [call_to_action_text] in
  features.

(** Lines 123-285: the assessment of one video that passed the gates. *)
Definition assess_video (use_annotations : bool) (brand_name : string)
    (c : criteria) (video : blob) (video_name video_name_with_format : string)
    (assessments : brand_assessment) : M brand_assessment :=
  print (MsgProcessing (name video)) ;;;
  let video_uri := "gs://" +:+ BUCKET_NAME +:+ "/" +:+ name video in
  let features := detect_features use_annotations brand_name c video_name video_uri in
  video_assessment <- lift (score_video video_name_with_format video_uri features) ;;
  let assessments := append_video_assessment assessments video_assessment in
  (if STORE_ASSESSMENT_RESULTS_LOCALLY
   then emit (StoreLocally brand_name video_assessment) else ret tt) ;;;
  ret assessments.

(** [size_mb > VIDEO_SIZE_LIMIT_MB] with [size_mb = size / 1e6]. *)
Definition over_size_limit (size_bytes : Z) : bool :=
  negb (Qle_bool (inject_Z size_bytes / 1000000) VIDEO_SIZE_LIMIT_MB).

(** Lines 107-285: the loop body of [execute_abcd_assessment_for_videos]. *)
Definition assessment_body (use_annotations use_llms : bool) (brand_name : string)
    (c : criteria) (brand_videos_folder : string)
    (video : blob) (assessments : brand_assessment) : M brand_assessment :=
  if skipped brand_videos_folder video then ret assessments
  else
    names <- lift (Py.unpack2 (get_file_name_from_gcs_url (name video))) ;;
    let '(video_name, video_name_with_format) := names in
    if String.eqb video_name "" || String.eqb video_name_with_format ""
    then print (MsgNotResolved (name video)) ;;; ret assessments
    else
      video_metadata <- get_blob (name video) ;;
      match video_metadata with
      | None => raise AttributeError
      | Some video_metadata =>
          if use_llms && over_size_limit (size video_metadata)
          then print (MsgTooLarge (name video)) ;;; ret assessments
          else assess_video use_annotations brand_name c video
                            video_name video_name_with_format assessments
      end.

Definition execute_abcd_assessment_for_videos (brand_name : string) (c : criteria)
    (use_annotations use_llms : bool) : M brand_assessment :=
  let assessments := BrandAssessment brand_name [] in
  let brand_videos_folder := brand_name +:+ "/videos" in
  blobs <- list_blobs brand_videos_folder ;;
  for_fold blobs
    (assessment_body use_annotations use_llms brand_name c brand_videos_folder)
    assessments.

End Main.

(** ** The renderers of [helpers/generic_helpers.py] *)

(** *** [format_assessment_results]: the Markdown digest *)

(** The digest is a string; each constructor stands for one line of it. *)
Inductive digest_line : Type :=
| DHeading (brand : string)          (* ## ABCD Assessment for brand **..** *)
| DAssetName (video : string)        (* ### Asset Name: .. *)
| DVideoScore (rounded : Q) (passed total : Z) (* **Video Score**: ..%, adherence (../..) *)
| DAssetResult (b : band)            (* **Asset Result**: .. *)
| DEvaluatedFeatures                 (* **Evaluated Features:** *)
| DFeature (detected : bool) (feature_name : string).

(** Lines 307 and 314-319: [score] is rebound to its rounded value, and
    the band is chosen from that. *)
Definition format_assessment_results_band (video_assessment : video_assessment) : band :=
  let score := Py.round2 (score video_assessment) in
  if Qle_bool 80 score then Excellent
  else if Qle_bool 65 score && Py.lt score 80 then MightImprove
  else NeedsReview.

Definition format_video_assessment (video_assessment : video_assessment)
    : list digest_line :=
  let video_name := video_name video_assessment in
  let score := Py.round2 (score video_assessment) in
  let passed_features := passed_features_count video_assessment in
  let total_features := Z.of_nat (length (features video_assessment)) in
  [DAssetName video_name; DVideoScore score passed_features total_features;
   DAssetResult (format_assessment_results_band video_assessment);
   DEvaluatedFeatures]
  ++ map (fun f => DFeature (feature_detected f) (feature f))
         (features video_assessment).

Definition format_assessment_results (abcd_assessment : brand_assessment)
    : list digest_line :=
  DHeading (brand_name abcd_assessment)
  :: concat (map format_video_assessment (video_assessments abcd_assessment)).

(** *** [print_abcd_assetssments]: the console printer *)

(** Lines 349-354: the band is chosen from the stored score. *)
Definition print_abcd_assetssments_band (video_assessment : video_assessment) : band :=
  if Qle_bool 80 (score video_assessment) then Excellent
  else if Qle_bool 65 (score video_assessment) && Py.lt (score video_assessment) 80
       then MightImprove
  else NeedsReview.

Section Printer.
Context `{Config}.

Definition print_video_assessment (brand : string)
    (video_assessment : video_assessment) : M unit :=
  let video_url :=
    "/content/" +:+ BUCKET_NAME +:+ "/" +:+ brand +:+ "/videos/"
    +:+ video_name video_assessment in
  print (MsgPlayer video_url) ;;;
  print (MsgAssetName (video_name video_assessment)) ;;;
  let passed_features_count := passed_features_count video_assessment in
  let total_features := Z.of_nat (length (features video_assessment)) in
  print (MsgVideoScore (Py.round2 (score video_assessment))
                       passed_features_count total_features) ;;;
  print (MsgAssetResult (print_abcd_assetssments_band video_assessment)) ;;;
  print MsgEvaluatedFeatures ;;;
  for_each (features video_assessment)
    (fun f => print (MsgFeature (feature_detected f) (feature f))).

Definition print_abcd_assetssments (abcd_assessment : brand_assessment)
    (brand : string) : M unit :=
  print (MsgHeading (brand_name abcd_assessment)) ;;;
  for_each (video_assessments abcd_assessment) (print_video_assessment brand).

End Printer.

(** *** [generate_csv_assessment_results]: the CSV matrix *)

(** A value handed to the CSV writer. *)
Inductive cell : Type :=
| CStr (s : string)
| CInt (z : Z)
| CNum (q : Q).

(** Lines 371-376: the set of the feature names of all videos. *)
Definition collect_features_set (abcd_assessment : brand_assessment) : gset string :=
  fold_left
    (fun features_set video_assessment =>
       fold_left (fun features_set f => features_set ∪ {[ feature f ]})
                 (features video_assessment) features_set)
    (video_assessments abcd_assessment) ∅.

(** Line 378: [sorted(features_set)]; strings compare character by
    character. *)
Definition sorted_features (features_set : gset string) : list string :=
  merge_sort String.le (elements features_set).

(** Lines 404-416: the explanation text of a feature result. *)
Definition llm_explanation_of (llm_details : llm_details_t) : string :=
  match llm_details with
  | LlmList (first :: _) => default EmptyString (first !! "llm_explanation")
  | LlmDict d => default EmptyString (d !! "llm_explanation")
  | _ => EmptyString
  end.

(** Lines 398-417: the two dictionaries of a video, later entries
    replacing earlier ones of the same name. *)
Definition add_feature_entries (dicts : gmap string bool * gmap string string)
    (f : feature_result) : gmap string bool * gmap string string :=
  let feature_name := feature f in
  (<[feature_name := feature_detected f]> (fst dicts),
   <[feature_name := llm_explanation_of (llm_details f)]> (snd dicts)).

Definition feature_dictionaries (features : list feature_result)
    : gmap string bool * gmap string string :=
  fold_left add_feature_entries features (∅, ∅).

Definition double_quote : ascii := "034"%char.
Definition newline : ascii := "010"%char.

(** Line 431: newlines become spaces and quote characters are doubled. *)
Definition clean_explanation (explanation : string) : string :=
  Py.replace double_quote (String double_quote (String double_quote EmptyString))
    (Py.replace newline " " explanation).

(** Lines 389-433: the row of one video. *)
Definition csv_row (features_list : list string) (video_assessment : video_assessment)
    : list cell :=
  let row :=
    [CStr (video_name video_assessment);
     CStr (video_uri video_assessment);
     CNum (Py.round2 (score video_assessment));
     CInt (passed_features_count video_assessment);
     CInt (Z.of_nat (length (features video_assessment)))] in
  let '(feature_detection, feature_explanation) :=
    feature_dictionaries (features video_assessment) in
  let row :=
    row ++ map (fun feature_name =>
                  let detected := default false (feature_detection !! feature_name) in
                  CStr (if detected then "Yes" else "No")) features_list in
  let row :=
    row ++ map (fun feature_name =>
                  let detected := default false (feature_detection !! feature_name) in
                  CInt (if detected then 1 else 0)) features_list in
  let row :=
    row ++ map (fun feature_name =>
                  let explanation :=
                    default EmptyString (feature_explanation !! feature_name) in
                  CStr (clean_explanation explanation)) features_list in
  row.

(** Lines 370-382: the header row. *)
Definition csv_header (features_list : list string) : list cell :=
  let header :=
    [CStr "Video Name"; CStr "Video URI"; CStr "Overall Score";
     CStr "Passed Features"; CStr "Total Features"] in
  let header := header ++ map (fun feature => CStr (feature +:+ " - Detected")) features_list in
  let header := header ++ map (fun feature => CStr (feature +:+ " - Score")) features_list in
  let header := header ++ map (fun feature => CStr (feature +:+ " - Explanation")) features_list in
  header.

(** The rows written to the CSV file, header first. *)
Definition generate_csv_assessment_results (abcd_assessment : brand_assessment)
    : list (list cell) :=
  let features_list := sorted_features (collect_features_set abcd_assessment) in
  csv_header features_list
  :: map (csv_row features_list) (video_assessments abcd_assessment).

(** ** [execute_abcd_detector] of [main.py] *)

Section Detector.
Context `{Config} `{Detectors}.

Definition execute_abcd_detector (brand_name : string) (c : criteria)
    (use_annotations use_llms : bool) : M brand_assessment :=
  (if use_annotations then emit (GenerateAnnotations brand_name) else ret tt) ;;;
  trim_videos brand_name ;;;
  abcd_assessments <-
    execute_abcd_assessment_for_videos brand_name c use_annotations use_llms ;;
  if Nat.eqb (length (video_assessments abcd_assessments)) 0
  then print MsgNoVideos ;;; raise SystemExit
  else print_abcd_assetssments abcd_assessments brand_name ;;;
       ret abcd_assessments.

End Detector.

(** ** More of [helpers/generic_helpers.py] *)

(** What [get_n_secs_video_uri_from_uri] gives: a string, or the error of
    reading [n_secs_video_uri] when no branch has assigned it. *)
Inductive uri_result : Type :=
| Uri (s : string)
| UnboundLocalError.

Definition get_n_secs_video_uri_from_uri (video_uri new_name_part : string)
    : uri_result :=
  let gcs_parts := Py.split "." video_uri in
  match gcs_parts with
  | [part0; video_format] =>
      let long_video_name_parts := Py.split "/" part0 in
      match long_video_name_parts with
      | [gcs; _; bucket_name; brand; videos_folder; last_part] =>
          let video_name :=
            last_part +:+ "_" +:+ new_name_part +:+ "." +:+ video_format in
          Uri (gcs +:+ "//" +:+ bucket_name +:+ "/" +:+ brand +:+ "/"
               +:+ videos_folder +:+ "/" +:+ video_name)
      | _ => UnboundLocalError
      end
  | _ => Uri EmptyString
  end.

(** [blob.upload_from_filename(local)] without a precondition: the object
    at [path] is created, or replaced when there is one. *)
Definition upload (path local_path : string) (sz : Z) : M unit :=
  fun w =>
    (Ok tt,
     World (match lookup_blob path (bucket w) with
            | Some _ =>
                map (fun b => if String.eqb (name b) path then Blob path sz else b)
                    (bucket w)
            | None => insert_blob (Blob path sz) (bucket w)
            end)
           (trace w ++ [Upload path local_path])).

(** [os.path.basename]: what follows the last slash. *)
Definition basename (file_path : string) : string :=
  List.last (Py.split "/" file_path) EmptyString.

(** The local files handed to [upload_file_to_bucket]: the size in bytes
    of the file at a path.  The file is there, so the upload does not
    fail and the handler of lines 281-282 is not entered. *)
Class LocalFiles : Type := {
  file_size : string -> Z
}.

Section Uploads.
Context `{LocalFiles}.

(** Lines 261-282; [destination_folder] is the folder [videos] when left out. *)
Definition upload_file_to_bucket (file_path brand_name destination_folder : string)
    : M unit :=
  let brand_folder := brand_name +:+ "/" +:+ destination_folder +:+ "/" in
  let file_name := basename file_path in
  upload (brand_folder +:+ file_name) file_path (file_size file_path) ;;;
  print (MsgUploaded file_name brand_folder).

End Uploads.

(** ** More of [main.py] *)

(** Lines 348-351 of [abcd_detector]: a field of comma-separated entries,
    each stripped; [strip] is Python's [str.strip]. *)
Definition split_and_strip (strip : string -> string) (field : string) : list string :=
  map strip (Py.split "," field).

Section Endpoint.
Context `{Config} `{Detectors} `{LocalFiles}.
Variable strip : string -> string.

(** Lines 334-358 of [abcd_detector], for files given as paths: the files
    are uploaded, the four fields are split and the detector is run.  The
    rest of the function works on the report returned here. *)
Definition upload_and_detect
    (brand_name brand_variations_str branded_products_str
       branded_products_categories_str branded_call_to_actions_str : string)
    (use_annotations use_llms : bool) (files : list string) : M brand_assessment :=
  for_each files (fun file => upload_file_to_bucket file brand_name "videos") ;;;
  let brand_variations := split_and_strip strip brand_variations_str in
  let branded_products := split_and_strip strip branded_products_str in
  let branded_products_categories :=
    split_and_strip strip branded_products_categories_str in
  let branded_call_to_actions := split_and_strip strip branded_call_to_actions_str in
  execute_abcd_detector brand_name
    (Criteria brand_variations branded_products branded_products_categories
       branded_call_to_actions)
    use_annotations use_llms.

End Endpoint.

(** ** Sample configuration, detectors and buckets *)

Module Sample.

(** A disk on which a path that ends in a slash, a dot or two dots is a
    directory. *)
Definition disk (path : string) : result unit :=
  let file_name := List.last (Py.split "/" path) EmptyString in
  if String.eqb file_name "" || String.eqb file_name "." || String.eqb file_name ".."
  then Raise IsADirectoryError
  else Ok tt.

(** A video library that knows the codec of five extensions, reads
    every source but [short.mp4], which ends before the fifth second, and
    writes clips of 350 kB. *)
Definition video_library (source clip : string) (trim_start trim_end : Z)
    : result Z :=
  let extension := List.last (Py.split "." clip) EmptyString in
  if existsb (String.eqb extension) ["mp4"; "ogv"; "webm"; "avi"; "mov"]
  then if Py.contains "short.mp4" source then Raise OSError else Ok 350000
  else Raise ValueError.

Definition config : Config := {|
  VERBOSE := false;
  BUCKET_NAME := "abcd-assets";
  VIDEO_SIZE_LIMIT_MB := 7;
  STORE_ASSESSMENT_RESULTS_LOCALLY := false;
  write_local_file := disk;
  write_subclip := video_library
|}.

Definition yes (feature_name : string) : feature_result :=
  Feature feature_name true LlmAbsent.
Definition no (feature_name : string) : feature_result :=
  Feature feature_name false LlmAbsent.

(** Detectors that ignore their input: every overall variant is
    detected, every first-seconds variant is not. *)
Definition detectors : Detectors := {|
  annotations := unit;
  no_annotations := tt;
  download_video_annotations := fun _ _ => (tt, tt, tt, tt, tt, tt, tt);
  detect_quick_pacing := fun _ _ =>
    (yes "Quick Pacing", no "Quick Pacing (First 5 seconds)");
  detect_dynamic_start := fun _ _ => yes "Dynamic Start";
  detect_supers := fun _ _ => yes "Supers";
  detect_supers_with_audio := fun _ _ _ => no "Supers with Audio";
  detect_brand_visuals := fun _ _ _ _ _ =>
    (yes "Brand Visuals", no "Brand Visuals (First 5 seconds)",
     yes "Brand Visuals Logo Big (First 5 seconds)");
  detect_brand_mention_speech := fun _ _ _ _ =>
    (yes "Brand Mention (Speech)", no "Brand Mention (Speech) (First 5 seconds)");
  detect_product_visuals := fun _ _ _ _ =>
    (yes "Product Visuals", no "Product Visuals (First 5 seconds)");
  detect_product_mention_text := fun _ _ _ _ =>
    (yes "Product Mention (Text)", no "Product Mention (Text) (First 5 seconds)");
  detect_product_mention_speech := fun _ _ _ _ =>
    (yes "Product Mention (Speech)", no "Product Mention (Speech) (First 5 seconds)");
  detect_visible_face := fun _ _ =>
    (no "Visible Face (First 5 seconds)", yes "Visible Face (Close Up)");
  detect_presence_of_people := fun _ _ =>
    (yes "Presence of People", no "Presence of People (First 5 seconds)");
  detect_audio_speech_early := fun _ _ => no "Audio Early (First 5 seconds)";
  detect_overall_pacing := fun _ _ => yes "Overall Pacing";
  detect_call_to_action_speech := fun _ _ _ => no "Call To Action (Speech)";
  detect_call_to_action_text := fun _ _ _ => yes "Call To Action (Text)"
|}.

Definition acme : criteria :=
  Criteria ["Acme Corp"] ["Rocket Skates"] ["Footwear"] ["Buy now"].

Definition world_of (objects : list blob) : world := World objects [].

(** One well-formed video of 4 MB. *)
Definition small_bucket : list blob :=
  [Blob "Acme/videos/" 0; Blob "Acme/videos/ad.mp4" 4000000].


(** A 4 MB and a 9 MB video. *)
Definition mixed_bucket : list blob :=
  [Blob "Acme/videos/" 0; Blob "Acme/videos/ad.mp4" 4000000;
   Blob "Acme/videos/long.mp4" 9000000].

(** The features of a (made-up) video with 4004 results, 3203 detected. *)
Definition crowded_features : list feature_result :=
  repeat (yes "Supers") 3203 ++ repeat (no "Supers") 801.


(** A well-formed video and a video of three seconds. *)
Definition short_bucket : list blob :=
  [Blob "Acme/videos/" 0; Blob "Acme/videos/ad.mp4" 4000000;
   Blob "Acme/videos/short.mp4" 1000000].

(** A video whose file name has two dots. *)
Definition dotted_bucket : list blob :=
  [Blob "Acme/videos/" 0; Blob "Acme/videos/spot.de.mp4" 3000000].

(** A video in a sub-folder, followed by a well-formed one. *)
Definition nested_bucket : list blob :=
  [Blob "Acme/videos/" 0; Blob "Acme/videos/2024/teaser.mp4" 2000000;
   Blob "Acme/videos/ad.mp4" 4000000].

End Sample.

(** * The vocabulary of the properties *)

(** The properties of a scored video. *)
Definition well_scored (va : video_assessment) : Prop :=
  let total := Z.of_nat (length (features va)) in
  passed_features_count va
    = Z.of_nat (length (List.filter feature_detected (features va)))
  /\ passed_features_count va <= total
  /\ 0 < total
  /\ (score va == 100 * inject_Z (passed_features_count va) / inject_Z total)%Q.

(** The two names of a video whose name has three parts. *)
Definition resolve (video : blob) : option (string * string) :=
  match get_file_name_from_gcs_url (name video) with
  | VPair file_name file_name_with_format => Some (file_name, file_name_with_format)
  | VStr _ => None
  end.

(** The objects [list_blobs] gives for a brand. *)
Definition listing (brand : string) (objects : list blob) : list blob :=
  List.filter (fun b => String.prefix (brand +:+ "/videos") (name b)) objects.

(** The videos the two passes look at: the listing without the folder
    marker and the preview clips. *)
Definition candidates (brand : string) (objects : list blob) : list blob :=
  List.filter (fun video => negb (skipped (brand +:+ "/videos") video))
    (listing brand objects).

(** The events that cost a transcoding: fetching the source, writing the
    clip, uploading it. *)
Definition is_transform (e : event) : bool :=
  match e with
  | Download _ _ | WriteClip _ _ _ _ | Upload _ _ => true
  | _ => false
  end.

(** A trace without transcoding work. *)
Definition quiet (tr : list event) : Prop :=
  List.filter is_transform tr = [].

(** An object whose name marks it as a preview clip. *)
Definition is_preview (b : blob) : Prop :=
  Py.contains "1st_5_secs" (name b) = true.

(** The path in the bucket of the preview clip of a video. *)
Definition preview_path (folder : string) (video : blob) : option string :=
  match resolve video with
  | Some (file_name, file_name_with_format) =>
      Some (folder +:+ "/"
            +:+ video_name_1st_5_secs_of file_name file_name_with_format)
  | None => None
  end.

(** The name of the preview clip of a video by its file name: the part
    before the first dot, the marker and the format. *)
Definition clip_name_of (file_name_with_format : string) : string :=
  video_name_1st_5_secs_of (hd EmptyString (Py.split "." file_name_with_format))
    file_name_with_format.

(** The world in which the trimming pass starts. *)
Definition after_annotations (use_annotations : bool) (brand : string) (w : world)
    : world :=
  if use_annotations
  then World (bucket w) (trace w ++ [GenerateAnnotations brand]) else w.

(** [b] is the band of the number [x]: at least 80 is excellent, from 65
    up to but excluding 80 might improve, anything else needs review. *)
Definition band_of (x : Q) (b : band) : Prop :=
  ((80 <= x)%Q -> b = Excellent)
  /\ ((65 <= x)%Q /\ (x < 80)%Q -> b = MightImprove)
  /\ ((x < 65)%Q -> b = NeedsReview).

(** A feature name some video of the run produced. *)
Definition observed (vas : list video_assessment) (feature_name : string) : Prop :=
  exists va f, In va vas /\ In f (features va) /\ feature f = feature_name.

(** The last feature result of a video with a given name: the one whose
    entries stay in the two dictionaries. *)
Definition last_named (feature_name : string) (fs : list feature_result)
    : option feature_result :=
  List.find (fun f => String.eqb (feature f) feature_name) (rev fs).

Definition detected_in (va : video_assessment) (feature_name : string) : bool :=
  match last_named feature_name (features va) with
  | Some f => feature_detected f
  | None => false
  end.

Definition explanation_in (va : video_assessment) (feature_name : string) : string :=
  match last_named feature_name (features va) with
  | Some f => llm_explanation_of (llm_details f)
  | None => EmptyString
  end.

(** The five leading cells of a row. *)
Definition leading_cells (va : video_assessment) : list cell :=
  [CStr (video_name va); CStr (video_uri va); CNum (Py.round2 (score va));
   CInt (passed_features_count va); CInt (Z.of_nat (length (features va)))].

(** The row as the specification words it: the leading cells, then for
    each sorted feature name its flag, its number and its explanation. *)
Definition csv_row_feature_by_feature (features_list : list string)
    (va : video_assessment) : list cell :=
  leading_cells va
  ++ concat (map (fun feature_name =>
                    [CStr (if detected_in va feature_name then "Yes" else "No");
                     CInt (if detected_in va feature_name then 1 else 0);
                     CStr (clean_explanation (explanation_in va feature_name))])
                 features_list).

Section Vocabulary.
Context `{Config}.

(** A candidate passes the gates of lines 111 and 117. *)
Definition passes_gates (use_llms : bool) (video : blob) : bool :=
  match resolve video with
  | Some (file_name, file_name_with_format) =>
      negb (String.eqb file_name "" || String.eqb file_name_with_format "")
      && negb (use_llms && over_size_limit (size video))
  | None => false
  end.

(** What a cache miss adds to the trace. *)
Definition creation_trace (lp folder : string) (video : blob)
    (file_name file_name_with_format : string) : list event :=
  let clip := video_name_1st_5_secs_of file_name file_name_with_format in
  [Download (name video) (lp +:+ "/" +:+ file_name_with_format)]
  ++ (if VERBOSE then [Print (MsgDownloaded (name video))] else [])
  ++ [WriteClip (lp +:+ "/" +:+ file_name_with_format) (lp +:+ "/" +:+ clip) 0 5;
      Upload (folder +:+ "/" +:+ clip) (lp +:+ "/" +:+ clip)]
  ++ (if VERBOSE then [Print (MsgUploaded clip folder)] else []).

(** The disk and the video library do their work on the two names of a
    video. *)
Definition library_works (lp file_name file_name_with_format : string) : bool :=
  match write_local_file (lp +:+ "/" +:+ file_name_with_format),
        write_subclip (lp +:+ "/" +:+ file_name_with_format)
          (lp +:+ "/"
           +:+ video_name_1st_5_secs_of file_name file_name_with_format) 0 5 with
  | Ok _, Ok _ => true
  | _, _ => false
  end.

(** The name of a video resolves, and the disk and the video library do
    their work on it. *)
Definition trims_well (lp : string) (video : blob) : bool :=
  match resolve video with
  | Some (file_name, file_name_with_format) =>
      library_works lp file_name file_name_with_format
  | None => false
  end.

(** What a cache miss adds to the trace when the local write fails, and
    when the video library fails. *)
Definition unsaved_trace (lp : string) (video : blob)
    (file_name_with_format : string) : list event :=
  [Download (name video) (lp +:+ "/" +:+ file_name_with_format)].

Definition uncut_trace (lp : string) (video : blob)
    (file_name file_name_with_format : string) : list event :=
  let clip := video_name_1st_5_secs_of file_name file_name_with_format in
  [Download (name video) (lp +:+ "/" +:+ file_name_with_format)]
  ++ (if VERBOSE then [Print (MsgDownloaded (name video))] else [])
  ++ [WriteClip (lp +:+ "/" +:+ file_name_with_format) (lp +:+ "/" +:+ clip) 0 5].

(** The six ways one turn of the trimming loop can go. *)
Inductive trim_step (lp folder : string) (video : blob) (w : world)
    : result unit * world -> Prop :=
| TrimSkipped :
    skipped folder video = true ->
    trim_step lp folder video w (Ok tt, w)
| TrimUnresolved :
    skipped folder video = false -> resolve video = None ->
    trim_step lp folder video w (Raise ValueError, w)
| TrimHit a b path md :
    skipped folder video = false -> resolve video = Some (a, b) ->
    preview_path folder video = Some path ->
    lookup_blob path (bucket w) = Some md ->
    trim_step lp folder video w
      (Ok tt, World (bucket w) (trace w ++ [Print (MsgAlreadyTrimmed (name video))]))
| TrimMiss a b path clip_size :
    skipped folder video = false -> resolve video = Some (a, b) ->
    preview_path folder video = Some path ->
    lookup_blob path (bucket w) = None ->
    write_local_file (lp +:+ "/" +:+ b) = Ok tt ->
    write_subclip (lp +:+ "/" +:+ b)
      (lp +:+ "/" +:+ video_name_1st_5_secs_of a b) 0 5 = Ok clip_size ->
    trim_step lp folder video w
      (Ok tt,
       World (insert_blob (Blob path clip_size) (bucket w))
             (trace w ++ creation_trace lp folder video a b))
| TrimUnsaved a b path e :
    skipped folder video = false -> resolve video = Some (a, b) ->
    preview_path folder video = Some path ->
    lookup_blob path (bucket w) = None ->
    write_local_file (lp +:+ "/" +:+ b) = Raise e ->
    trim_step lp folder video w
      (Raise e, World (bucket w) (trace w ++ unsaved_trace lp video b))
| TrimUncut a b path e :
    skipped folder video = false -> resolve video = Some (a, b) ->
    preview_path folder video = Some path ->
    lookup_blob path (bucket w) = None ->
    write_local_file (lp +:+ "/" +:+ b) = Ok tt ->
    write_subclip (lp +:+ "/" +:+ b)
      (lp +:+ "/" +:+ video_name_1st_5_secs_of a b) 0 5 = Raise e ->
    trim_step lp folder video w
      (Raise e, World (bucket w) (trace w ++ uncut_trace lp video a b)).

Definition trim_loop (lp folder : string) (l : list blob) : M unit :=
  for_each l (trim_videos_body lp folder).

End Vocabulary.

Section VocabularyOfAssessments.
Context `{Config} `{Detectors}.

(** [va] is the assessment the code builds for [video]. *)
Definition assessment_of (use_annotations : bool) (brand : string) (c : criteria)
    (video : blob) (va : video_assessment) : Prop :=
  exists file_name file_name_with_format,
    resolve video = Some (file_name, file_name_with_format)
    /\ let uri := "gs://" +:+ BUCKET_NAME +:+ "/" +:+ name video in
       score_video file_name_with_format uri
         (detect_features use_annotations brand c file_name uri) = Ok va.

End VocabularyOfAssessments.

(** How often a character occurs in a string. *)
Fixpoint occurrences (c : ascii) (s : string) : nat :=
  match s with
  | EmptyString => 0
  | String x s' => (if Ascii.eqb x c then 1 else 0) + occurrences c s'
  end.

(** The parts of a string put together again with the separator. *)
Fixpoint join_with (sep : ascii) (parts : list string) : string :=
  match parts with
  | [] => EmptyString
  | [p] => p
  | p :: ps => p +:+ String sep (join_with sep ps)
  end.

(** A cell that holds the flag of a detected feature. *)
Definition is_yes (c : cell) : bool :=
  match c with
  | CStr s => String.eqb s "Yes"
  | _ => false
  end.

(** The flags of a row of the matrix with [n] feature names: the [n]
    cells after the five leading ones. *)
Definition flag_cells (n : nat) (row : list cell) : list cell :=
  take n (drop 5 row).

(** The line of the digest that shows what a line of the console shows;
    the url printed by [player] has none. *)
Definition digest_line_of (e : event) : option digest_line :=
  match e with
  | Print (MsgHeading brand) => Some (DHeading brand)
  | Print (MsgAssetName video) => Some (DAssetName video)
  | Print (MsgVideoScore rounded passed total) => Some (DVideoScore rounded passed total)
  | Print (MsgAssetResult b) => Some (DAssetResult b)
  | Print MsgEvaluatedFeatures => Some DEvaluatedFeatures
  | Print (MsgFeature detected feature_name) => Some (DFeature detected feature_name)
  | _ => None
  end.

Section ConsoleTrace.
Context `{Config}.

(** What [print_abcd_assetssments] prints for one video. *)
Definition video_console_trace (brand : string) (va : video_assessment) : list event :=
  [Print (MsgPlayer ("/content/" +:+ BUCKET_NAME +:+ "/" +:+ brand +:+ "/videos/"
                     +:+ video_name va));
   Print (MsgAssetName (video_name va));
   Print (MsgVideoScore (Py.round2 (score va)) (passed_features_count va)
                        (Z.of_nat (length (features va))));
   Print (MsgAssetResult (print_abcd_assetssments_band va));
   Print MsgEvaluatedFeatures]
  ++ map (fun f => Print (MsgFeature (feature_detected f) (feature f))) (features va).

(** What [print_abcd_assetssments] prints. *)
Definition console_trace (a : brand_assessment) (brand : string) : list event :=
  Print (MsgHeading (brand_name a))
  :: concat (map (video_console_trace brand) (video_assessments a)).

End ConsoleTrace.


(** Local files of 4 MB each, for the examples of uploads. *)
Definition files_of_4mb : LocalFiles := {| file_size := fun _ => 4000000 |}.

Ltac absurd_order :=
  exfalso;
  match goal with
  | H1 : (?a < ?b)%Q, H2 : (?b <= ?a)%Q |- _ => exact (Qlt_not_le a b H1 H2)
  end.

(** * Properties *)

(** ** The definitions on small inputs *)

Example split_three_parts :
  Py.split "/" "Acme/videos/ad.mp4" = ["Acme"; "videos"; "ad.mp4"].
Proof. reflexivity. Qed.

Example split_folder_marker : Py.split "/" "Acme/videos/" = ["Acme"; "videos"; ""].
Proof. reflexivity. Qed.

Example split_empty : Py.split "/" "" = [""].
Proof. reflexivity. Qed.

Example contains_marker :
  Py.contains "1st_5_secs" "Acme/videos/ad_1st_5_secs.mp4" = true.
Proof. reflexivity. Qed.

Example replace_quotes :
  clean_explanation (String "a" (String newline (String double_quote "b")))
  = String "a" (String " " (String double_quote (String double_quote "b"))).
Proof. reflexivity. Qed.

Example round2_down : Py.round2 (1200 # 23) = 5217 # 100.
Proof. reflexivity. Qed.

Example round2_up : Py.round2 (79996 # 1000) = 8000 # 100.
Proof. reflexivity. Qed.

Example round2_tie_to_even : Py.round2 (1 # 8) = 12 # 100.
Proof. reflexivity. Qed.

Example file_name_of_video :
  get_file_name_from_gcs_url "Acme/videos/ad.mp4" = VPair "ad" "ad.mp4".
Proof. reflexivity. Qed.

Example file_name_of_nested_video :
  get_file_name_from_gcs_url "Acme/videos/2024/teaser.mp4" = VStr "".
Proof. reflexivity. Qed.

Example file_name_with_two_dots :
  get_file_name_from_gcs_url "Acme/videos/my.ad.mp4" = VPair "my" "my.ad.mp4"
  /\ get_video_format "my.ad.mp4" = ""
  /\ video_name_1st_5_secs_of "my" "my.ad.mp4" = "my_1st_5_secs.".
Proof. by vm_compute. Qed.

Example unpack_empty_string : Py.unpack2 (VStr "") = Raise ValueError.
Proof. reflexivity. Qed.

Example trim_small_bucket :
  @trim_videos Sample.config "Acme" (Sample.world_of Sample.small_bucket)
  = (Ok tt,
     World [Blob "Acme/videos/" 0; Blob "Acme/videos/ad.mp4" 4000000;
            Blob "Acme/videos/ad_1st_5_secs.mp4" 350000]
           [Download "Acme/videos/ad.mp4" "abcd_videos/ad.mp4";
            WriteClip "abcd_videos/ad.mp4" "abcd_videos/ad_1st_5_secs.mp4" 0 5;
            Upload "Acme/videos/ad_1st_5_secs.mp4" "abcd_videos/ad_1st_5_secs.mp4"]).
Proof. by vm_compute. Qed.

(** ** Scoring *)

Lemma count_passed_from (features : list feature_result) (start : Z) :
  fold_left (fun passed_features_count feature =>
               if feature_detected feature then passed_features_count + 1
               else passed_features_count) features start
  = start + Z.of_nat (length (List.filter feature_detected features)).
Proof.
  revert start. induction features as [|f fs IH]; intros start; simpl.
  - lia.
  - rewrite IH. destruct (feature_detected f); simpl; lia.
Qed.

Lemma count_passed_filter features :
  count_passed features = Z.of_nat (length (List.filter feature_detected features)).
Proof. unfold count_passed. rewrite count_passed_from. lia. Qed.

Lemma count_passed_bounds features :
  0 <= count_passed features <= Z.of_nat (length features).
Proof.
  rewrite count_passed_filter. pose proof (List.filter_length_le feature_detected features).
  lia.
Qed.

Lemma score_video_ok n u fs :
  fs <> [] -> exists va, score_video n u fs = Ok va /\ features va = fs
                         /\ video_name va = n /\ video_uri va = u.
Proof.
  intros Hne. unfold score_video, Py.truediv.
  destruct (Z.eqb_spec (Z.of_nat (length fs)) 0) as [E|E].
  - destruct fs; [done | simpl in E; lia].
  - eexists. split; [reflexivity|]. simpl. auto.
Qed.

Lemma score_video_well_scored n u fs va :
  score_video n u fs = Ok va -> well_scored va.
Proof.
  unfold score_video, Py.truediv.
  destruct (Z.eqb_spec (Z.of_nat (length fs)) 0) as [E|E]; [discriminate|].
  intros [= <-]. unfold well_scored; simpl.
  pose proof (count_passed_bounds fs).
  repeat split.
  - apply count_passed_filter.
  - lia.
  - lia.
  - rewrite inject_Z_mult. 
    change (inject_Z 100) with 100%Q.
    field. intros Hz. apply E.
    unfold Qeq in Hz; simpl in Hz. lia.
Qed.

(** ** Loops and the world *)

Lemma for_fold_app {A S} (l1 l2 : list A) (body : A -> S -> M S) acc w :
  for_fold (l1 ++ l2) body acc w
  = match for_fold l1 body acc w with
    | (Ok acc', w') => for_fold l2 body acc' w'
    | (Raise e, w') => (Raise e, w')
    end.
Proof.
  revert acc w. induction l1 as [|x l1 IH]; intros acc w; simpl; [done|].
  unfold bind. destruct (body x acc w) as [[acc'|e] w']; [apply IH | done].
Qed.

(** A property of the accumulator kept by every normal turn of the body
    holds when the loop ends normally. *)
Lemma for_fold_invariant {A S} (P : S -> Prop) (l : list A) (body : A -> S -> M S) :
  (forall x acc w acc' w', In x l -> P acc -> body x acc w = (Ok acc', w') -> P acc') ->
  forall acc w acc' w', P acc -> for_fold l body acc w = (Ok acc', w') -> P acc'.
Proof.
  induction l as [|x l IH]; intros Hbody acc w acc' w' HP Hrun; simpl in Hrun.
  - unfold ret in Hrun. by inversion Hrun; subst.
  - unfold bind in Hrun. destruct (body x acc w) as [[acc1|e] w1] eqn:E; [|discriminate].
    eapply IH; [| |exact Hrun].
    + intros; eapply Hbody; eauto. by right.
    + eapply Hbody; eauto. by left.
Qed.

(** One turn that raises ends the loop with an exception. *)
Lemma for_fold_raises {A S} (l : list A) (body : A -> S -> M S) (x : A) :
  In x l ->
  (forall acc w, exists e w', body x acc w = (Raise e, w')) ->
  forall acc w, exists e w', for_fold l body acc w = (Raise e, w').
Proof.
  induction l as [|y l IH]; intros Hin Hx acc w; [destruct Hin|].
  simpl. unfold bind. destruct (body y acc w) as [[acc1|e] w1] eqn:E.
  - destruct Hin as [->|Hin].
    + destruct (Hx acc w) as (e & w' & He). congruence.
    + by apply IH.
  - eauto.
Qed.

Lemma lookup_blob_Some path bs b :
  lookup_blob path bs = Some b -> In b bs /\ name b = path.
Proof.
  unfold lookup_blob. intros Hf. apply List.find_some in Hf as [Hin Heq].
  split; [done|]. by apply String.eqb_eq.
Qed.

Lemma lookup_blob_None path bs :
  lookup_blob path bs = None <-> ~ In path (map name bs).
Proof.
  unfold lookup_blob. induction bs as [|b bs IH]; simpl; [tauto|].
  destruct (String.eqb_spec (name b) path) as [E|E].
  - split; [discriminate | intros Hn; exfalso; apply Hn; by left].
  - rewrite IH. tauto.
Qed.

Lemma insert_blob_split (b : blob) (bs : list blob) :
  exists l1 l2, bs = l1 ++ l2 /\ insert_blob b bs = l1 ++ b :: l2.
Proof.
  induction bs as [|x bs IH]; simpl.
  - by exists [], [].
  - destruct (String.leb (name b) (name x)).
    + by exists [], (x :: bs).
    + destruct IH as (l1 & l2 & -> & ->). by exists (x :: l1), l2.
Qed.

Lemma insert_blob_names (b : blob) (bs : list blob) (p : string) :
  In p (map name (insert_blob b bs)) <-> p = name b \/ In p (map name bs).
Proof.
  destruct (insert_blob_split b bs) as (l1 & l2 & -> & ->).
  rewrite !map_app. simpl. rewrite !in_app_iff. simpl. intuition.
Qed.

Lemma insert_blob_filter (q : blob -> bool) (b : blob) (bs : list blob) :
  q b = false -> List.filter q (insert_blob b bs) = List.filter q bs.
Proof.
  intros Hq. destruct (insert_blob_split b bs) as (l1 & l2 & -> & ->).
  rewrite !List.filter_app. simpl. by rewrite Hq.
Qed.

Lemma insert_blob_nodup (b : blob) (bs : list blob) :
  ~ In (name b) (map name bs) -> NoDup (map name bs) ->
  NoDup (map name (insert_blob b bs)).
Proof.
  destruct (insert_blob_split b bs) as (l1 & l2 & -> & ->).
  rewrite !map_app. simpl. rewrite in_app_iff. intros Hnot Hnd.
  apply NoDup_app in Hnd as (Hnd1 & Hdisj & Hnd2).
  apply NoDup_app. split; [done|]. split.
  - intros x Hx [->|Hx2]%elem_of_cons.
    + apply Hnot. left. by apply list_elem_of_In.
    + by apply (Hdisj x).
  - apply NoDup_cons. split; [|done].
    intros Hin. apply Hnot. right. by apply list_elem_of_In.
Qed.

(** In a bucket whose names are distinct, looking up the name of an
    object gives that object. *)
Lemma lookup_blob_own bs b :
  NoDup (map name bs) -> In b bs -> lookup_blob (name b) bs = Some b.
Proof.
  unfold lookup_blob. induction bs as [|b0 bs IH]; simpl; intros Hnd Hin; [done|].
  apply NoDup_cons in Hnd as [Hnotin Hnd].
  destruct (String.eqb_spec (name b0) (name b)) as [E|E].
  - destruct Hin as [->|Hin]; [done|].
    exfalso. apply Hnotin. rewrite E. apply list_elem_of_In. by apply in_map.
  - destruct Hin as [->|Hin]; [done|]. by apply IH.
Qed.

(** ** The assessment pass, video by video *)

Section AssessmentPass.
Context `{Config} `{Detectors}.

Lemma detect_features_length ua brand c vn uri :
  length (detect_features ua brand c vn uri) = 23%nat.
Proof.
  unfold detect_features.
  destruct (annotations_for ua brand vn) as [[[[[[a1 a2] a3] a4] a5] a6] a7].
  destruct (detect_quick_pacing a4 uri), (detect_brand_visuals a5 a6 uri brand _)
    as [[? ?] ?], (detect_brand_mention_speech a7 uri brand _),
    (detect_product_visuals a1 uri _ _), (detect_product_mention_text a5 uri _ _),
    (detect_product_mention_speech a7 uri _ _), (detect_visible_face a2 uri),
    (detect_presence_of_people a3 uri).
  reflexivity.
Qed.

Lemma score_detected_ok ua brand c vn vnf uri :
  exists va, score_video vnf uri (detect_features ua brand c vn uri) = Ok va
             /\ features va = detect_features ua brand c vn uri
             /\ video_name va = vnf /\ video_uri va = uri.
Proof.
  apply score_video_ok. intros E.
  pose proof (detect_features_length ua brand c vn uri) as Hl.
  rewrite E in Hl. discriminate.
Qed.

(** One turn of the loop on a candidate with a three-part name that is
    its own entry in the bucket: it never raises, leaves the bucket as
    it is, and appends the video's assessment exactly when the video
    passes the gates. *)
Lemma assessment_body_spec ua ul brand c (video : blob) acc w :
  skipped (brand +:+ "/videos") video = false ->
  is_Some (resolve video) ->
  lookup_blob (name video) (bucket w) = Some video ->
  exists acc' w',
    assessment_body ua ul brand c (brand +:+ "/videos") video acc w = (Ok acc', w')
    /\ bucket w' = bucket w
    /\ brand_name acc' = brand_name acc
    /\ if passes_gates ul video
       then exists va, assessment_of ua brand c video va
                       /\ video_assessments acc' = video_assessments acc ++ [va]
       else video_assessments acc' = video_assessments acc.
Proof.
  intros Hskip [[fn fnf] Hres] Hlook.
  unfold assessment_body, passes_gates, assessment_of. rewrite Hskip, Hres.
  unfold resolve in Hres.
  destruct (get_file_name_from_gcs_url (name video)) as [a b|s]; [|discriminate].
  injection Hres as -> ->. unfold bind at 1, lift at 1. simpl.
  destruct (String.eqb fn "" || String.eqb fnf "") eqn:Hempty; simpl.
  { unfold bind, print, emit, ret; simpl. eauto 10. }
  unfold bind at 1, get_blob at 1. simpl. rewrite Hlook.
  destruct (ul && over_size_limit (size video)) eqn:Hgate; simpl.
  { unfold bind, print, emit, ret; simpl. eauto 10. }
  unfold assess_video.
  destruct (score_detected_ok ua brand c fn fnf
              ("gs://" +:+ BUCKET_NAME +:+ "/" +:+ name video)) as (va & Hva & _).
  unfold bind, print, emit, lift, ret; simpl. rewrite Hva.
  destruct STORE_ASSESSMENT_RESULTS_LOCALLY; simpl;
    (do 2 eexists; split; [reflexivity|]; repeat split; eauto 10).
Qed.

(** The loop over a listing all of whose candidates have three-part
    names: the assessments of the accepted candidates are appended in
    listing order. *)
Lemma assessment_loop_spec ua ul brand c (l : list blob) :
  forall acc w,
    (forall video, In video l -> skipped (brand +:+ "/videos") video = false ->
                   is_Some (resolve video)) ->
    (forall video, In video l -> lookup_blob (name video) (bucket w) = Some video) ->
    exists vas w',
      for_fold l (assessment_body ua ul brand c (brand +:+ "/videos")) acc w
      = (Ok (BrandAssessment (brand_name acc) (video_assessments acc ++ vas)), w')
      /\ bucket w' = bucket w
      /\ Forall2 (assessment_of ua brand c)
           (List.filter (passes_gates ul)
              (List.filter (fun v => negb (skipped (brand +:+ "/videos") v)) l))
           vas.
Proof.
  induction l as [|video l IH]; intros acc w Hres Hlook; simpl.
  - exists [], w. rewrite app_nil_r. destruct acc; simpl. repeat split. constructor.
  - unfold bind.
    destruct (skipped (brand +:+ "/videos") video) eqn:Hskip; simpl.
    + unfold assessment_body at 1. rewrite Hskip. unfold ret at 1.
      apply IH; intros; [apply Hres | apply Hlook]; simpl; auto.
    + destruct (assessment_body_spec ua ul brand c video acc w Hskip)
        as (acc' & w' & Hrun & Hb & Hn & Hvas);
        [apply Hres; simpl; auto | apply Hlook; simpl; auto |].
      rewrite Hrun.
      destruct (IH acc' w') as (vas & w'' & Hloop & Hb' & Hall).
      { intros; apply Hres; simpl; auto. }
      { intros; rewrite Hb; apply Hlook; simpl; auto. }
      rewrite Hloop, Hn.
      destruct (passes_gates ul video).
      * destruct Hvas as (va & Hva & ->). exists (va :: vas), w''.
        rewrite <- app_assoc. simpl. repeat split; [congruence|]. by constructor.
      * rewrite Hvas. exists vas, w''. repeat split; [congruence | done].
Qed.

End AssessmentPass.

(** ** Strings *)

Lemma string_app_cons (x : ascii) (a b : string) :
  String x a +:+ b = String x (a +:+ b).
Proof. reflexivity. Qed.

Lemma string_app_nil (b : string) : EmptyString +:+ b = b.
Proof. reflexivity. Qed.

Lemma string_app_assoc (a b c : string) : (a +:+ b) +:+ c = a +:+ b +:+ c.
Proof.
  induction a as [|x a IH]; [done|].
  by rewrite !string_app_cons, IH.
Qed.

Lemma prefix_app (p s : string) : String.prefix p (p +:+ s) = true.
Proof.
  induction p as [|x p IH].
  - rewrite string_app_nil. by destruct s.
  - rewrite string_app_cons. simpl.
    destruct (ascii_dec x x) as [_|Hne]; [exact IH | by destruct Hne].
Qed.

Lemma contains_prefix (needle hay : string) :
  String.prefix needle hay = true -> Py.contains needle hay = true.
Proof. intros Hp. destruct hay; cbn [Py.contains]; by rewrite Hp. Qed.

Lemma contains_app (needle a b : string) :
  Py.contains needle (a +:+ needle +:+ b) = true.
Proof.
  induction a as [|x a IH].
  - rewrite string_app_nil. apply contains_prefix, prefix_app.
  - rewrite string_app_cons. cbn [Py.contains]. rewrite IH. apply orb_true_r.
Qed.

(** The name of every preview clip marks it as one. *)
Lemma preview_path_marked (folder video_name video_name_with_format : string) :
  Py.contains "1st_5_secs"
    (folder +:+ "/" +:+ video_name_1st_5_secs_of video_name video_name_with_format)
  = true.
Proof.
  unfold video_name_1st_5_secs_of.
  change ("_1st_5_secs." +:+ get_video_format video_name_with_format)
    with ("_" +:+ "1st_5_secs" +:+ "." +:+ get_video_format video_name_with_format).
  rewrite <- (string_app_assoc video_name "_").
  rewrite <- (string_app_assoc "/" (video_name +:+ "_")).
  rewrite <- (string_app_assoc folder ("/" +:+ video_name +:+ "_")).
  apply contains_app.
Qed.

Lemma preview_path_skipped (folder : string) (b : blob) vn vnf :
  name b = folder +:+ "/" +:+ video_name_1st_5_secs_of vn vnf ->
  skipped folder b = true.
Proof.
  intros E. unfold skipped. rewrite E, preview_path_marked. apply orb_true_r.
Qed.

(** ** The trimming pass, video by video *)

Lemma get_file_name_cases (gcs_url : string) :
  (exists a b, get_file_name_from_gcs_url gcs_url = VPair a b)
  \/ get_file_name_from_gcs_url gcs_url = VStr "".
Proof.
  unfold get_file_name_from_gcs_url.
  destruct (Py.split "/" gcs_url) as [|p0 [|p1 [|p2 [|p3 ps]]]]; eauto.
Qed.

Lemma unpack_unresolved (video : blob) :
  resolve video = None ->
  Py.unpack2 (get_file_name_from_gcs_url (name video)) = Raise ValueError.
Proof.
  unfold resolve.
  destruct (get_file_name_cases (name video)) as [(a & b & ->)| ->]; [discriminate | done].
Qed.

Lemma unpack_resolved (video : blob) a b :
  resolve video = Some (a, b) ->
  Py.unpack2 (get_file_name_from_gcs_url (name video)) = Ok (a, b).
Proof.
  unfold resolve.
  destruct (get_file_name_from_gcs_url (name video)); [|discriminate].
  by intros [= -> ->].
Qed.

Section TrimPass.
Context `{Config}.

Lemma trim_body_skipped lp folder video w :
  skipped folder video = true ->
  trim_videos_body lp folder video w = (Ok tt, w).
Proof. intros E. unfold trim_videos_body. by rewrite E. Qed.

Lemma trim_body_unresolved lp folder video w :
  skipped folder video = false -> resolve video = None ->
  trim_videos_body lp folder video w = (Raise ValueError, w).
Proof.
  intros E Hres. unfold trim_videos_body. rewrite E.
  unfold bind, lift. by rewrite (unpack_unresolved _ Hres).
Qed.

(** A turn on a candidate whose name resolves is the lookup of its
    preview path followed by [trim_unless_present]. *)
Lemma trim_body_resolved lp folder video a b w :
  skipped folder video = false -> resolve video = Some (a, b) ->
  trim_videos_body lp folder video w
  = trim_unless_present lp folder video b (video_name_1st_5_secs_of a b)
      (lookup_blob (folder +:+ "/" +:+ video_name_1st_5_secs_of a b) (bucket w)) w.
Proof.
  intros E Hres. unfold trim_videos_body. rewrite E.
  unfold bind, lift, get_blob. by rewrite (unpack_resolved _ _ _ Hres).
Qed.

Lemma trim_body_hit lp folder video a b path md w :
  skipped folder video = false -> resolve video = Some (a, b) ->
  preview_path folder video = Some path ->
  lookup_blob path (bucket w) = Some md ->
  trim_videos_body lp folder video w
  = (Ok tt, World (bucket w) (trace w ++ [Print (MsgAlreadyTrimmed (name video))])).
Proof.
  intros E Hres Hpath Hlook.
  unfold preview_path in Hpath. rewrite Hres in Hpath. injection Hpath as <-.
  rewrite (trim_body_resolved _ _ _ _ _ _ E Hres). by rewrite Hlook.
Qed.

(** A cache miss on which the disk and the video library do their work. *)
Lemma trim_creates lp folder video a b clip_size w :
  lookup_blob (folder +:+ "/" +:+ video_name_1st_5_secs_of a b) (bucket w) = None ->
  write_local_file (lp +:+ "/" +:+ b) = Ok tt ->
  write_subclip (lp +:+ "/" +:+ b)
    (lp +:+ "/" +:+ video_name_1st_5_secs_of a b) 0 5 = Ok clip_size ->
  trim_unless_present lp folder video b (video_name_1st_5_secs_of a b) None w
  = (Ok tt,
     World (insert_blob
              (Blob (folder +:+ "/" +:+ video_name_1st_5_secs_of a b) clip_size)
              (bucket w))
           (trace w ++ creation_trace lp folder video a b)).
Proof.
  intros Hlook Hsave Hcut.
  unfold trim_unless_present, download_and_save_video, trim_and_push_video_to_gcs,
    creation_trace, upload_if_absent, bind, emit, print, emit, lift, ret.
  rewrite Hsave.
  destruct VERBOSE; simpl; rewrite Hcut; simpl; rewrite Hlook; simpl;
    repeat rewrite <- app_assoc; reflexivity.
Qed.

(** A cache miss on which the local write fails: nothing is cut and
    nothing is uploaded. *)
Lemma trim_unsaved lp folder video b clip e w :
  write_local_file (lp +:+ "/" +:+ b) = Raise e ->
  trim_unless_present lp folder video b clip None w
  = (Raise e, World (bucket w) (trace w ++ unsaved_trace lp video b)).
Proof.
  intros Hsave.
  unfold trim_unless_present, download_and_save_video, unsaved_trace,
    bind, emit, lift.
  by rewrite Hsave.
Qed.

(** A cache miss on which the video library fails: nothing is uploaded. *)
Lemma trim_uncut lp folder video a b e w :
  write_local_file (lp +:+ "/" +:+ b) = Ok tt ->
  write_subclip (lp +:+ "/" +:+ b)
    (lp +:+ "/" +:+ video_name_1st_5_secs_of a b) 0 5 = Raise e ->
  trim_unless_present lp folder video b (video_name_1st_5_secs_of a b) None w
  = (Raise e, World (bucket w) (trace w ++ uncut_trace lp video a b)).
Proof.
  intros Hsave Hcut.
  unfold trim_unless_present, download_and_save_video, trim_and_push_video_to_gcs,
    uncut_trace, bind, emit, print, emit, lift, ret.
  rewrite Hsave.
  destruct VERBOSE; simpl; rewrite Hcut; simpl;
    repeat rewrite <- app_assoc; reflexivity.
Qed.

Lemma trim_body_miss lp folder video a b path clip_size w :
  skipped folder video = false -> resolve video = Some (a, b) ->
  preview_path folder video = Some path ->
  lookup_blob path (bucket w) = None ->
  write_local_file (lp +:+ "/" +:+ b) = Ok tt ->
  write_subclip (lp +:+ "/" +:+ b)
    (lp +:+ "/" +:+ video_name_1st_5_secs_of a b) 0 5 = Ok clip_size ->
  trim_videos_body lp folder video w
  = (Ok tt,
     World (insert_blob (Blob path clip_size) (bucket w))
           (trace w ++ creation_trace lp folder video a b)).
Proof.
  intros E Hres Hpath Hlook Hsave Hcut.
  unfold preview_path in Hpath. rewrite Hres in Hpath. injection Hpath as <-.
  rewrite (trim_body_resolved _ _ _ _ _ _ E Hres), Hlook.
  by apply trim_creates.
Qed.

(** The second worker of a race: its check found no preview, and by the
    time it uploads the first worker's clip is there. *)
Lemma trim_after_lost_race lp folder video a b md clip_size w :
  lookup_blob (folder +:+ "/" +:+ video_name_1st_5_secs_of a b) (bucket w) = Some md ->
  write_local_file (lp +:+ "/" +:+ b) = Ok tt ->
  write_subclip (lp +:+ "/" +:+ b)
    (lp +:+ "/" +:+ video_name_1st_5_secs_of a b) 0 5 = Ok clip_size ->
  trim_unless_present lp folder video b (video_name_1st_5_secs_of a b) None w
  = (Raise PreconditionFailed,
     World (bucket w) (trace w ++ uncut_trace lp video a b)).
Proof.
  intros Hlook Hsave Hcut.
  unfold trim_unless_present, download_and_save_video, trim_and_push_video_to_gcs,
    uncut_trace, upload_if_absent, bind, emit, print, emit, lift, ret.
  rewrite Hsave.
  destruct VERBOSE; simpl; rewrite Hcut; simpl; rewrite Hlook; simpl;
    repeat rewrite <- app_assoc; reflexivity.
Qed.

End TrimPass.

Section TrimLoop.
Context `{Config}.
Variables lp folder : string.

Lemma trim_body_step video w :
  trim_step lp folder video w (trim_videos_body lp folder video w).
Proof.
  destruct (skipped folder video) eqn:Hs.
  { rewrite trim_body_skipped by done. by constructor. }
  destruct (resolve video) as [[a b]|] eqn:Hr.
  2:{ rewrite trim_body_unresolved by done. by constructor. }
  assert (preview_path folder video
          = Some (folder +:+ "/" +:+ video_name_1st_5_secs_of a b)) as Hp.
  { unfold preview_path. by rewrite Hr. }
  destruct (lookup_blob (folder +:+ "/" +:+ video_name_1st_5_secs_of a b) (bucket w))
    as [md|] eqn:Hl.
  { erewrite trim_body_hit by eauto. by econstructor. }
  rewrite (trim_body_resolved _ _ _ _ _ _ Hs Hr), Hl.
  destruct (write_local_file (lp +:+ "/" +:+ b)) as [[]|e] eqn:Hsave.
  2:{ rewrite (trim_unsaved _ _ _ _ _ e) by done. by econstructor. }
  destruct (write_subclip (lp +:+ "/" +:+ b)
              (lp +:+ "/" +:+ video_name_1st_5_secs_of a b) 0 5)
    as [clip_size|e] eqn:Hcut.
  - rewrite (trim_creates _ _ _ _ _ clip_size) by done. by econstructor.
  - rewrite (trim_uncut _ _ _ _ _ e) by done. by econstructor.
Qed.

Lemma preview_path_is_preview video path :
  preview_path folder video = Some path -> Py.contains "1st_5_secs" path = true.
Proof.
  unfold preview_path. destruct (resolve video) as [[a b]|]; [|discriminate].
  intros [= <-]. apply preview_path_marked.
Qed.

Lemma creation_trace_not_quiet video a b :
  List.filter is_transform (creation_trace lp folder video a b)
  = [Download (name video) (lp +:+ "/" +:+ b);
     WriteClip (lp +:+ "/" +:+ b) (lp +:+ "/" +:+ video_name_1st_5_secs_of a b) 0 5;
     Upload (folder +:+ "/" +:+ video_name_1st_5_secs_of a b)
            (lp +:+ "/" +:+ video_name_1st_5_secs_of a b)].
Proof. unfold creation_trace. by destruct VERBOSE. Qed.

Lemma uncut_trace_not_quiet video a b :
  List.filter is_transform (uncut_trace lp video a b)
  = [Download (name video) (lp +:+ "/" +:+ b);
     WriteClip (lp +:+ "/" +:+ b) (lp +:+ "/" +:+ video_name_1st_5_secs_of a b) 0 5].
Proof. unfold uncut_trace. by destruct VERBOSE. Qed.

Lemma trim_loop_nil w : trim_loop lp folder [] w = (Ok tt, w).
Proof. reflexivity. Qed.

Lemma trim_loop_cons video l w :
  trim_loop lp folder (video :: l) w
  = match trim_videos_body lp folder video w with
    | (Ok _, w') => trim_loop lp folder l w'
    | (Raise e, w') => (Raise e, w')
    end.
Proof.
  unfold trim_loop, for_each. simpl. unfold bind.
  by destruct (trim_videos_body lp folder video w) as [[[]|e] w'].
Qed.

(** The pass only adds objects, all of them preview clips, and keeps
    the names distinct: the names it found are still there, and a filter
    that lets no preview clip through selects what it selected before. *)
Lemma trim_loop_grows (l : list blob) :
  forall w r w',
    trim_loop lp folder l w = (r, w') ->
    (forall p, In p (map name (bucket w)) -> In p (map name (bucket w')))
    /\ (forall q : blob -> bool,
          (forall b, is_preview b -> q b = false) ->
          List.filter q (bucket w') = List.filter q (bucket w))
    /\ (NoDup (map name (bucket w)) -> NoDup (map name (bucket w'))).
Proof.
  induction l as [|video l IH]; intros w r w' Hrun.
  - rewrite trim_loop_nil in Hrun. by injection Hrun as <- <-.
  - rewrite trim_loop_cons in Hrun.
    destruct (trim_body_step video w)
      as [Hs|Hs Hr|a b path md Hs Hr Hp Hl|a b path sz Hs Hr Hp Hl Hsave Hcut
         |a b path e Hs Hr Hp Hl Hsave|a b path e Hs Hr Hp Hl Hsave Hcut].
    + by apply IH in Hrun.
    + by injection Hrun as <- <-.
    + by apply IH in Hrun.
    + apply IH in Hrun as (Hsub & Hfilter & Hnd). simpl in *.
      split; [|split].
      * intros p Hp'. apply Hsub, insert_blob_names. by right.
      * intros q Hq. rewrite (Hfilter q Hq). apply insert_blob_filter, Hq.
        unfold is_preview. simpl. by eapply preview_path_is_preview.
      * intros Hnd0. apply Hnd, insert_blob_nodup; [|done].
        simpl. by apply lookup_blob_None.
    + by injection Hrun as <- <-.
    + by injection Hrun as <- <-.
Qed.

(** A loop that ends normally met no candidate whose name does not
    resolve. *)
Lemma trim_loop_normal_resolves (l : list blob) :
  forall w w', trim_loop lp folder l w = (Ok tt, w') ->
  forall video, In video l -> skipped folder video = false -> is_Some (resolve video).
Proof.
  induction l as [|x l IH]; intros w w' Hrun video Hin Hsv; [destruct Hin|].
  rewrite trim_loop_cons in Hrun.
  destruct (trim_body_step x w)
    as [Hs|Hs Hr|a b path md Hs Hr Hp Hl|a b path sz Hs Hr Hp Hl Hsave Hcut
       |a b path e Hs Hr Hp Hl Hsave|a b path e Hs Hr Hp Hl Hsave Hcut];
    try discriminate;
    (destruct Hin as [->|Hin]; [|by eapply IH]); [congruence|by rewrite Hr..].
Qed.

(** Running the loop again over the same listing, on any bucket that
    holds at least the names a first run that ended normally left, does
    no transcoding work, leaves that bucket as it is and ends
    normally. *)
Lemma trim_loop_rerun (l : list blob) :
  forall w w',
    trim_loop lp folder l w = (Ok tt, w') ->
    forall w2,
      (forall p, In p (map name (bucket w')) -> In p (map name (bucket w2))) ->
      exists tr,
        trim_loop lp folder l w2 = (Ok tt, World (bucket w2) (trace w2 ++ tr))
        /\ quiet tr.
Proof.
  induction l as [|video l IH]; intros w w' Hrun w2 Hsub.
  - exists []. rewrite trim_loop_nil, app_nil_r. by destruct w2.
  - rewrite trim_loop_cons in Hrun |- *.
    assert (forall w1 path,
              trim_loop lp folder l w1 = (Ok tt, w') ->
              skipped folder video = false ->
              preview_path folder video = Some path ->
              In path (map name (bucket w1)) ->
              exists tr,
                match trim_videos_body lp folder video w2 with
                | (Ok _, w3) => trim_loop lp folder l w3
                | (Raise e, w3) => (Raise e, w3)
                end = (Ok tt, World (bucket w2) (trace w2 ++ tr)) /\ quiet tr)
      as Hhit.
    { intros w1 path Hrun1 Hs Hp Hin1.
      assert (In path (map name (bucket w2))) as Hin.
      { apply Hsub. destruct (trim_loop_grows l _ _ _ Hrun1) as (Hgrow & _).
        by apply Hgrow. }
      destruct (lookup_blob path (bucket w2)) as [md2|] eqn:Hl2.
      2:{ by apply lookup_blob_None in Hl2. }
      unfold preview_path in Hp.
      destruct (resolve video) as [[a b]|] eqn:Hr; [|discriminate].
      erewrite trim_body_hit; eauto; [|unfold preview_path; by rewrite Hr].
      edestruct (IH _ _ Hrun1) as (tr & Hrun2 & Hq); [|rewrite Hrun2].
      { simpl. exact Hsub. }
      simpl. exists (Print (MsgAlreadyTrimmed (name video)) :: tr).
      rewrite <- app_assoc. split; [done|]. unfold quiet in *. simpl. done. }
    destruct (trim_body_step video w)
      as [Hs|Hs Hr|a b path md Hs Hr Hp Hl|a b path sz Hs Hr Hp Hl Hsave Hcut
         |a b path e Hs Hr Hp Hl Hsave|a b path e Hs Hr Hp Hl Hsave Hcut];
      try discriminate.
    + rewrite trim_body_skipped by done. eapply IH; eauto.
    + eapply Hhit; eauto. simpl.
      apply lookup_blob_Some in Hl as [Hin <-]. by apply in_map.
    + eapply Hhit; eauto. simpl. apply insert_blob_names. by left.
Qed.

(** Running the loop again on a bucket with the names that a first run
    that raised left: the second run raises the same exception and leaves
    the bucket as it is.  It has done no transcoding work only when the
    exception is the [ValueError] of a name that does not resolve: what
    failed on the disk or in the video library is downloaded again. *)
Lemma trim_loop_rerun_failed (l : list blob) :
  forall w e w',
    trim_loop lp folder l w = (Raise e, w') ->
    forall w2,
      (forall p, In p (map name (bucket w')) <-> In p (map name (bucket w2))) ->
      exists tr,
        trim_loop lp folder l w2 = (Raise e, World (bucket w2) (trace w2 ++ tr))
        /\ (quiet tr ->
            e = ValueError
            /\ exists video, In video l /\ skipped folder video = false
                             /\ resolve video = None).
Proof.
  induction l as [|video l IH]; intros w e w' Hrun w2 Hsame.
  - rewrite trim_loop_nil in Hrun. discriminate.
  - rewrite trim_loop_cons in Hrun |- *.
    assert (forall w1 path,
              trim_loop lp folder l w1 = (Raise e, w') ->
              skipped folder video = false ->
              preview_path folder video = Some path ->
              In path (map name (bucket w1)) ->
              exists tr,
                match trim_videos_body lp folder video w2 with
                | (Ok _, w3) => trim_loop lp folder l w3
                | (Raise e, w3) => (Raise e, w3)
                end = (Raise e, World (bucket w2) (trace w2 ++ tr))
                /\ (quiet tr ->
                    e = ValueError
                    /\ exists v, In v (video :: l) /\ skipped folder v = false
                                 /\ resolve v = None)) as Hhit.
    { intros w1 path Hrun1 Hs Hp Hin1.
      assert (In path (map name (bucket w2))) as Hin.
      { apply Hsame. destruct (trim_loop_grows l _ _ _ Hrun1) as (Hgrow & _).
        by apply Hgrow. }
      destruct (lookup_blob path (bucket w2)) as [md2|] eqn:Hl2.
      2:{ by apply lookup_blob_None in Hl2. }
      unfold preview_path in Hp.
      destruct (resolve video) as [[a b]|] eqn:Hr; [|discriminate].
      erewrite trim_body_hit; eauto; [|unfold preview_path; by rewrite Hr].
      edestruct (IH _ _ _ Hrun1) as (tr & Hrun2 & Hq); [|rewrite Hrun2].
      { simpl. exact Hsame. }
      simpl. exists (Print (MsgAlreadyTrimmed (name video)) :: tr).
      rewrite <- app_assoc. split; [done|]. intros Hquiet.
      destruct (Hq Hquiet) as (He & v & Hv & Hrest).
      split; [done|]. exists v. split; [by right | done]. }
    assert (forall path, lookup_blob path (bucket w') = None ->
                         lookup_blob path (bucket w2) = None) as Hnone.
    { intros path Hl. apply lookup_blob_None. apply lookup_blob_None in Hl.
      intros Hin. by apply Hl, Hsame. }
    destruct (trim_body_step video w)
      as [Hs|Hs Hr|a b path md Hs Hr Hp Hl|a b path sz Hs Hr Hp Hl Hsave Hcut
         |a b path e' Hs Hr Hp Hl Hsave|a b path e' Hs Hr Hp Hl Hsave Hcut].
    + rewrite trim_body_skipped by done.
      destruct (IH _ _ _ Hrun w2 Hsame) as (tr & Hrun2 & Hq).
      exists tr. split; [done|]. intros Hquiet.
      destruct (Hq Hquiet) as (He & v & Hv & Hrest).
      split; [done|]. exists v. split; [by right | done].
    + injection Hrun as <- <-. rewrite trim_body_unresolved by done.
      exists []. rewrite app_nil_r. split; [by destruct w2|].
      intros _. split; [done|]. exists video. split; [by left | done].
    + eapply Hhit; eauto. simpl.
      apply lookup_blob_Some in Hl as [Hin <-]. by apply in_map.
    + eapply Hhit; eauto. simpl. apply insert_blob_names. by left.
    + injection Hrun as <- <-. simpl in Hnone.
      unfold preview_path in Hp. rewrite Hr in Hp. injection Hp as <-.
      rewrite (trim_body_resolved _ _ _ _ _ _ Hs Hr), (Hnone _ Hl).
      erewrite trim_unsaved; [|exact Hsave].
      eexists. split; [reflexivity|]. intros Hquiet. discriminate Hquiet.
    + injection Hrun as <- <-. simpl in Hnone.
      unfold preview_path in Hp. rewrite Hr in Hp. injection Hp as <-.
      rewrite (trim_body_resolved _ _ _ _ _ _ Hs Hr), (Hnone _ Hl).
      erewrite trim_uncut; [|exact Hsave|exact Hcut].
      eexists. split; [reflexivity|]. intros Hquiet.
      unfold quiet in Hquiet. rewrite uncut_trace_not_quiet in Hquiet.
      discriminate Hquiet.
Qed.

(** The objects the loop skips can be left out of the listing. *)
Lemma trim_loop_candidates (l : list blob) w :
  trim_loop lp folder l w
  = trim_loop lp folder (List.filter (fun v => negb (skipped folder v)) l) w.
Proof.
  revert w. induction l as [|video l IH]; intros w; [done|]. simpl.
  destruct (skipped folder video) eqn:Hs; simpl.
  - rewrite trim_loop_cons, trim_body_skipped by done. apply IH.
  - rewrite !trim_loop_cons.
    destruct (trim_videos_body lp folder video w) as [[[]|e] w1]; [apply IH | done].
Qed.

(** A loop that raises: the exception is the [ValueError] of a name that
    does not resolve, or what the disk or the video library raised on a
    video without a preview clip.  Nothing has been uploaded for that
    video, and the guarded upload is never what raises. *)
Lemma trim_loop_raises (l : list blob) :
  forall w e w',
    trim_loop lp folder l w = (Raise e, w') ->
    exists video,
      In video l /\ skipped folder video = false
      /\ ((resolve video = None /\ e = ValueError)
          \/ exists a b,
               resolve video = Some (a, b)
               /\ lookup_blob (folder +:+ "/" +:+ video_name_1st_5_secs_of a b)
                    (bucket w') = None
               /\ (write_local_file (lp +:+ "/" +:+ b) = Raise e
                   \/ write_subclip (lp +:+ "/" +:+ b)
                        (lp +:+ "/" +:+ video_name_1st_5_secs_of a b) 0 5
                      = Raise e)).
Proof.
  induction l as [|x l IH]; intros w e w' Hrun.
  - rewrite trim_loop_nil in Hrun. discriminate.
  - rewrite trim_loop_cons in Hrun.
    assert (forall w1, trim_loop lp folder l w1 = (Raise e, w') ->
              exists video,
                In video (x :: l) /\ skipped folder video = false
                /\ ((resolve video = None /\ e = ValueError)
                    \/ exists a b,
                         resolve video = Some (a, b)
                         /\ lookup_blob
                              (folder +:+ "/" +:+ video_name_1st_5_secs_of a b)
                              (bucket w') = None
                         /\ (write_local_file (lp +:+ "/" +:+ b) = Raise e
                             \/ write_subclip (lp +:+ "/" +:+ b)
                                  (lp +:+ "/" +:+ video_name_1st_5_secs_of a b) 0 5
                                = Raise e))) as Hrest.
    { intros w1 Hrun1. destruct (IH _ _ _ Hrun1) as (v & Hv & Hrestv).
      exists v. split; [by right | done]. }
    destruct (trim_body_step x w)
      as [Hs|Hs Hr|a b path md Hs Hr Hp Hl|a b path sz Hs Hr Hp Hl Hsave Hcut
         |a b path e' Hs Hr Hp Hl Hsave|a b path e' Hs Hr Hp Hl Hsave Hcut];
      try (by eapply Hrest).
    + injection Hrun as <- <-. exists x. split; [by left|]. split; [done|]. by left.
    + injection Hrun as <- <-. exists x. split; [by left|]. split; [done|].
      right. exists a, b. unfold preview_path in Hp. rewrite Hr in Hp.
      injection Hp as <-. simpl. auto.
    + injection Hrun as <- <-. exists x. split; [by left|]. split; [done|].
      right. exists a, b. unfold preview_path in Hp. rewrite Hr in Hp.
      injection Hp as <-. simpl. auto.
Qed.

(** The loop ends normally when every video that is not skipped trims
    well. *)
Lemma trim_loop_ok (l : list blob) :
  (forall video, In video l -> skipped folder video = false ->
                 trims_well lp video = true) ->
  forall w, exists w', trim_loop lp folder l w = (Ok tt, w').
Proof.
  induction l as [|video l IH]; intros Hres w.
  - by exists w.
  - rewrite trim_loop_cons.
    destruct (trim_body_step video w)
      as [Hs|Hs Hr|a b path md Hs Hr Hp Hl|a b path sz Hs Hr Hp Hl Hsave Hcut
         |a b path e Hs Hr Hp Hl Hsave|a b path e Hs Hr Hp Hl Hsave Hcut];
      try (apply IH; intros; apply Hres; simpl; auto);
      exfalso; specialize (Hres video (or_introl eq_refl) Hs);
      unfold trims_well, library_works in Hres; rewrite Hr in Hres;
      try rewrite Hsave in Hres; try rewrite Hcut in Hres; discriminate.
Qed.

End TrimLoop.

Section TrimVideos.
Context `{Config}.

Lemma trim_videos_loop brand w :
  trim_videos brand w
  = trim_loop "abcd_videos" (brand +:+ "/videos") (listing brand (bucket w)) w.
Proof. reflexivity. Qed.

Lemma preview_not_candidate brand (b : blob) :
  is_preview b ->
  String.prefix (brand +:+ "/videos") (name b)
  && negb (skipped (brand +:+ "/videos") b) = false.
Proof.
  intros Hb. unfold skipped. rewrite Hb, orb_true_r. apply andb_false_r.
Qed.

Lemma candidates_filter brand (bs : list blob) :
  candidates brand bs
  = List.filter (fun b => String.prefix (brand +:+ "/videos") (name b)
                          && negb (skipped (brand +:+ "/videos") b)) bs.
Proof.
  unfold candidates. induction bs as [|b bs IH]; simpl; [done|].
  destruct (String.prefix _ (name b)); simpl; [|exact IH].
  destruct (skipped _ b); simpl; by rewrite IH.
Qed.

Lemma candidate_not_skipped brand (bs : list blob) (video : blob) :
  In video (candidates brand bs) ->
  In video (listing brand bs) /\ skipped (brand +:+ "/videos") video = false.
Proof.
  unfold candidates. intros [Hin Hs]%List.filter_In.
  split; [done | by apply negb_true_iff in Hs].
Qed.

Lemma not_skipped_candidate brand (bs : list blob) (video : blob) :
  In video (listing brand bs) -> skipped (brand +:+ "/videos") video = false ->
  In video (candidates brand bs).
Proof.
  intros Hin Hs. unfold candidates. apply List.filter_In. by rewrite Hs.
Qed.

(** The trimming pass leaves the candidates as it found them. *)
Lemma trim_videos_candidates brand w r w' :
  trim_videos brand w = (r, w') ->
  candidates brand (bucket w') = candidates brand (bucket w)
  /\ (NoDup (map name (bucket w)) -> NoDup (map name (bucket w'))).
Proof.
  rewrite trim_videos_loop. intros Hrun.
  apply trim_loop_grows in Hrun as (_ & Hfilter & Hnd).
  split; [|done]. rewrite !candidates_filter. apply Hfilter.
  intros b Hb. by apply preview_not_candidate.
Qed.

(** The pass ends normally when every candidate trims well. *)
Lemma trim_videos_ok brand w :
  (forall video, In video (candidates brand (bucket w)) ->
                 trims_well "abcd_videos" video = true) ->
  exists w', trim_videos brand w = (Ok tt, w').
Proof.
  intros Hres. rewrite trim_videos_loop. apply trim_loop_ok.
  intros video Hin Hs. by apply Hres, not_skipped_candidate.
Qed.

(** After a pass that ended normally the name of every candidate
    resolves. *)
Lemma trim_videos_normal_resolves brand w w' :
  trim_videos brand w = (Ok tt, w') ->
  forall video, In video (candidates brand (bucket w)) -> is_Some (resolve video).
Proof.
  rewrite trim_videos_loop. intros Hrun video [Hin Hs]%candidate_not_skipped.
  by eapply trim_loop_normal_resolves.
Qed.

(** The pass is the loop over the candidates. *)
Lemma trim_videos_over_candidates brand w :
  trim_videos brand w
  = trim_loop "abcd_videos" (brand +:+ "/videos") (candidates brand (bucket w)) w.
Proof. rewrite trim_videos_loop. apply trim_loop_candidates. Qed.

(** A second run of the pass on the world that a first run that ended
    normally left. *)
Lemma trim_videos_rerun brand w w' :
  trim_videos brand w = (Ok tt, w') ->
  exists tr,
    trim_videos brand w' = (Ok tt, World (bucket w') (trace w' ++ tr)) /\ quiet tr.
Proof.
  intros Hrun.
  destruct (trim_videos_candidates _ _ _ _ Hrun) as [Hc _].
  rewrite trim_videos_over_candidates in Hrun |- *. rewrite Hc.
  by apply (trim_loop_rerun _ _ _ _ _ Hrun w').
Qed.

(** A second run of the pass on the world that a first run that raised
    left. *)
Lemma trim_videos_rerun_failed brand w e w' :
  trim_videos brand w = (Raise e, w') ->
  exists tr,
    trim_videos brand w' = (Raise e, World (bucket w') (trace w' ++ tr))
    /\ (quiet tr ->
        e = ValueError
        /\ exists video, In video (candidates brand (bucket w))
                         /\ resolve video = None).
Proof.
  intros Hrun.
  destruct (trim_videos_candidates _ _ _ _ Hrun) as [Hc _].
  rewrite trim_videos_over_candidates in Hrun |- *. rewrite Hc.
  destruct (trim_loop_rerun_failed _ _ _ _ _ _ Hrun w') as (tr & Hrun2 & Hq);
    [done|].
  exists tr. split; [done|]. intros Hquiet.
  destruct (Hq Hquiet) as (He & v & Hv & _ & Hr). eauto.
Qed.

End TrimVideos.

(** ** Preview clips are created once (C3) *)

(** C3, as the code has it.  Run in sequence, preview creation is
    idempotent: (1) a video whose preview clip is in the bucket costs one
    lookup and a message, no download, clip or upload; (2) a second run of
    [trim_videos] on the world that a first run that ended normally left
    does no transcoding work, leaves the bucket as it is and ends
    normally.  (3) A first run that raised has uploaded nothing for the
    video it failed on; the second run raises the same exception, and
    unless that is the [ValueError] of a name that does not resolve it
    has downloaded the video again.  (4) Two workers racing on the same
    missing preview both download and cut the clip: the worker whose
    check found nothing but whose upload comes second has done the work
    again, and its guarded upload raises and leaves the first worker's
    object in place. *)
Theorem C3_trim_idempotent_in_sequence `{Config} (brand : string) (w : world)
    (r : result unit) (w' : world) :
  trim_videos brand w = (r, w') ->
  (forall video a b path md,
      skipped (brand +:+ "/videos") video = false ->
      resolve video = Some (a, b) ->
      preview_path (brand +:+ "/videos") video = Some path ->
      lookup_blob path (bucket w) = Some md ->
      exists tr,
        trim_videos_body "abcd_videos" (brand +:+ "/videos") video w
        = (Ok tt, World (bucket w) (trace w ++ tr))
        /\ quiet tr)
  /\ (r = Ok tt ->
      exists tr,
        trim_videos brand w' = (Ok tt, World (bucket w') (trace w' ++ tr))
        /\ quiet tr)
  /\ (forall e, r = Raise e ->
      exists tr,
        trim_videos brand w' = (Raise e, World (bucket w') (trace w' ++ tr))
        /\ (quiet tr ->
            e = ValueError
            /\ exists video, In video (candidates brand (bucket w))
                             /\ resolve video = None))
  /\ (forall video a b md clip_size,
        lookup_blob ((brand +:+ "/videos") +:+ "/" +:+ video_name_1st_5_secs_of a b)
                    (bucket w') = Some md ->
        write_local_file ("abcd_videos" +:+ "/" +:+ b) = Ok tt ->
        write_subclip ("abcd_videos" +:+ "/" +:+ b)
          ("abcd_videos" +:+ "/" +:+ video_name_1st_5_secs_of a b) 0 5
        = Ok clip_size ->
        exists tr,
          trim_unless_present "abcd_videos" (brand +:+ "/videos") video b
            (video_name_1st_5_secs_of a b) None w'
          = (Raise PreconditionFailed, World (bucket w') (trace w' ++ tr))
          /\ List.filter is_transform tr
             = [Download (name video) ("abcd_videos" +:+ "/" +:+ b);
                WriteClip ("abcd_videos" +:+ "/" +:+ b)
                  ("abcd_videos" +:+ "/" +:+ video_name_1st_5_secs_of a b) 0 5]).
Proof.
  intros Hrun. split; [|split; [|split]].
  - intros video a b path md Hs Hr Hp Hl.
    eexists. split; [eapply trim_body_hit; eauto | done].
  - intros ->. by eapply trim_videos_rerun.
  - intros e ->. by eapply trim_videos_rerun_failed.
  - intros video a b md clip_size Hl Hsave Hcut.
    eexists. split; [eapply trim_after_lost_race; eauto|].
    apply uncut_trace_not_quiet.
Qed.

(** The second run over the sample bucket finds the clip of [ad.mp4];
    the second run over the bucket with the three-second video downloads
    that video again. *)
Lemma C3_trim_idempotent_witness :
  let w := Sample.world_of Sample.small_bucket in
  let w' := snd (@trim_videos Sample.config "Acme" w) in
  let v := Sample.world_of Sample.short_bucket in
  let v' := snd (@trim_videos Sample.config "Acme" v) in
  (@trim_videos Sample.config "Acme" w = (Ok tt, w')
   /\ exists tr,
        @trim_videos Sample.config "Acme" w' = (Ok tt, World (bucket w') (trace w' ++ tr))
        /\ quiet tr)
  /\ (@trim_videos Sample.config "Acme" v = (Raise OSError, v')
      /\ exists tr,
           @trim_videos Sample.config "Acme" v'
           = (Raise OSError, World (bucket v') (trace v' ++ tr))
           /\ ~ quiet tr).
Proof.
  split.
  - split; [reflexivity|].
    exact (proj1 (proj2 (@C3_trim_idempotent_in_sequence Sample.config "Acme"
                           (Sample.world_of Sample.small_bucket) (Ok tt) _ eq_refl))
             eq_refl).
  - split; [reflexivity|].
    destruct (proj1 (proj2 (proj2 (@C3_trim_idempotent_in_sequence Sample.config
                                     "Acme" (Sample.world_of Sample.short_bucket)
                                     (Raise OSError) _ eq_refl)))
                OSError eq_refl) as (tr & Hrun & Hq).
    exists tr. split; [exact Hrun|]. intros Hquiet.
    destruct (Hq Hquiet) as [He _]. discriminate He.
Defined.

(** C3 as stated fails under a race.  Both workers look for the preview of
    [ad.mp4] in the same bucket and find none; the first creates it; the
    second then downloads the source and cuts the clip again before its
    upload is refused. *)
Lemma C3_race_transcodes_twice :
  let video := Blob "Acme/videos/ad.mp4" 4000000 in
  let w0 := Sample.world_of Sample.small_bucket in
  let check := lookup_blob "Acme/videos/ad_1st_5_secs.mp4" (bucket w0) in
  let first :=
    @trim_unless_present Sample.config "abcd_videos" "Acme/videos" video
      "ad.mp4" "ad_1st_5_secs.mp4" check w0 in
  let second :=
    @trim_unless_present Sample.config "abcd_videos" "Acme/videos" video
      "ad.mp4" "ad_1st_5_secs.mp4" check (snd first) in
  check = None
  /\ fst first = Ok tt
  /\ fst second = Raise PreconditionFailed
  /\ bucket (snd second) = bucket (snd first)
  /\ ~ quiet (drop (length (trace (snd first))) (trace (snd second))).
Proof. vm_compute. repeat split. discriminate. Qed.

(** ** Runs of the assessment pass *)

Lemma lookup_blob_In bs b : In b bs -> is_Some (lookup_blob (name b) bs).
Proof.
  intros Hin. destruct (lookup_blob (name b) bs) eqn:E; [done|].
  apply lookup_blob_None in E. exfalso. apply E. by apply in_map.
Qed.

Section AssessmentRuns.
Context `{Config} `{Detectors}.

(** A turn of the loop that ends normally leaves the assessments as
    they were or appends one scored video. *)
Lemma assessment_body_appends ua ul brand c folder video acc w acc' w' :
  assessment_body ua ul brand c folder video acc w = (Ok acc', w') ->
  video_assessments acc' = video_assessments acc
  \/ exists va, well_scored va
                /\ video_assessments acc' = video_assessments acc ++ [va].
Proof.
  unfold assessment_body.
  destruct (skipped folder video); [intros [= <- _]; by left|].
  unfold bind at 1, lift at 1.
  destruct (Py.unpack2 _) as [[fn fnf]|e]; [|discriminate].
  destruct (String.eqb fn "" || String.eqb fnf "").
  { unfold bind, print, emit, ret. intros [= <- _]. by left. }
  unfold bind at 1, get_blob at 1.
  destruct (lookup_blob (name video) (bucket w)) as [md|]; [|discriminate].
  destruct (ul && over_size_limit (size md)).
  { unfold bind, print, emit, ret. intros [= <- _]. by left. }
  unfold assess_video, bind, print, emit, lift, ret. simpl.
  destruct (score_video _ _ _) as [va|e] eqn:Hva; [|discriminate].
  apply score_video_well_scored in Hva.
  destruct STORE_ASSESSMENT_RESULTS_LOCALLY; simpl; intros [= <- _];
    right; by exists va.
Qed.

(** A turn of the loop on an object of the bucket either ends normally
    with the bucket unchanged or raises [ValueError] because the name
    does not resolve. *)
Lemma assessment_body_outcome ua ul brand c folder video acc w :
  is_Some (lookup_blob (name video) (bucket w)) ->
  (exists acc' w',
      assessment_body ua ul brand c folder video acc w = (Ok acc', w')
      /\ bucket w' = bucket w)
  \/ (assessment_body ua ul brand c folder video acc w = (Raise ValueError, w)
      /\ skipped folder video = false /\ resolve video = None).
Proof.
  intros [md Hmd]. unfold assessment_body.
  destruct (skipped folder video) eqn:Hs; [left; by exists acc, w|].
  destruct (resolve video) as [[fn fnf]|] eqn:Hr.
  2:{ right. unfold bind, lift. by rewrite (unpack_unresolved _ Hr). }
  left. unfold bind at 1, lift at 1. rewrite (unpack_resolved _ _ _ Hr).
  destruct (String.eqb fn "" || String.eqb fnf "").
  { unfold bind, print, emit, ret. simpl. eauto. }
  unfold bind at 1, get_blob at 1. rewrite Hmd.
  destruct (ul && over_size_limit (size md)).
  { unfold bind, print, emit, ret. simpl. eauto. }
  unfold assess_video.
  destruct (score_detected_ok ua brand c fn fnf
              ("gs://" +:+ BUCKET_NAME +:+ "/" +:+ name video)) as (va & Hva & _).
  unfold bind, print, emit, lift, ret; simpl. rewrite Hva.
  destruct STORE_ASSESSMENT_RESULTS_LOCALLY; simpl; eauto.
Qed.

(** A listing of objects of the bucket with a candidate whose name does
    not resolve: the loop ends with [ValueError]. *)
Lemma assessment_loop_unresolved ua ul brand c folder (l : list blob) video :
  In video l -> skipped folder video = false -> resolve video = None ->
  forall acc w,
    (forall b, In b l -> In b (bucket w)) ->
    exists w',
      for_fold l (assessment_body ua ul brand c folder) acc w = (Raise ValueError, w').
Proof.
  induction l as [|x l IH]; intros Hin Hs Hr acc w Hsub; [destruct Hin|].
  simpl. unfold bind.
  destruct (assessment_body_outcome ua ul brand c folder x acc w)
    as [(acc' & w' & Hok & Hb)|[Hraise _]].
  - apply lookup_blob_In, Hsub. by left.
  - destruct Hin as [->|Hin].
    + unfold assessment_body in Hok. rewrite Hs in Hok.
      unfold bind, lift in Hok. rewrite (unpack_unresolved _ Hr) in Hok.
      discriminate.
    + rewrite Hok. apply IH; auto.
      intros b Hb'. rewrite Hb. apply Hsub. by right.
  - rewrite Hraise. eauto.
Qed.

Lemma execute_assessment_loop brand c ua ul w :
  execute_abcd_assessment_for_videos brand c ua ul w
  = for_fold (listing brand (bucket w))
      (assessment_body ua ul brand c (brand +:+ "/videos"))
      (BrandAssessment brand []) w.
Proof. reflexivity. Qed.

(** The pass over a bucket with distinct names all of whose candidates
    resolve: it ends normally with the assessments of the accepted
    candidates, in listing order. *)
Lemma assessment_run_spec ua ul brand c w :
  NoDup (map name (bucket w)) ->
  (forall video, In video (candidates brand (bucket w)) -> is_Some (resolve video)) ->
  exists vas w',
    execute_abcd_assessment_for_videos brand c ua ul w
    = (Ok (BrandAssessment brand vas), w')
    /\ bucket w' = bucket w
    /\ Forall2 (assessment_of ua brand c)
         (List.filter (passes_gates ul) (candidates brand (bucket w))) vas.
Proof.
  intros Hnd Hres. rewrite execute_assessment_loop.
  destruct (assessment_loop_spec ua ul brand c (listing brand (bucket w))
              (BrandAssessment brand []) w) as (vas & w' & Hrun & Hb & Hall).
  - intros video Hin Hs. apply Hres. unfold candidates.
    apply List.filter_In. split; [exact Hin | by rewrite Hs].
  - intros video Hin. apply lookup_blob_own; [done|].
    by apply List.filter_In in Hin as [Hin _].
  - exists vas, w'. by rewrite Hrun.
Qed.

End AssessmentRuns.

(** ** Runs of the whole detector *)

Lemma for_each_ok {A} (l : list A) (body : A -> M unit) :
  (forall x w, exists w', body x w = (Ok tt, w') /\ bucket w' = bucket w) ->
  forall w, exists w', for_each l body w = (Ok tt, w') /\ bucket w' = bucket w.
Proof.
  intros Hbody. unfold for_each.
  induction l as [|x l IH]; intros w; simpl; [by exists w|].
  unfold bind. destruct (Hbody x w) as (w1 & -> & Hb1).
  destruct (IH w1) as (w2 & -> & Hb2). exists w2. split; [done | congruence].
Qed.

Section DetectorRuns.
Context `{Config} `{Detectors}.

Lemma print_abcd_assetssments_ok a brand w :
  exists w', print_abcd_assetssments a brand w = (Ok tt, w') /\ bucket w' = bucket w.
Proof.
  assert (forall va w, exists w',
             print_video_assessment brand va w = (Ok tt, w')
             /\ bucket w' = bucket w) as Hvideo.
  { intros va w0. unfold print_video_assessment, bind, print, emit. simpl.
    edestruct (for_each_ok (features va)
                 (fun f => print (MsgFeature (feature_detected f) (feature f))))
      as (w' & Hrun & Hb); [|exists w'; split; [exact Hrun | exact Hb]].
    intros f w1. unfold print, emit. simpl. eauto. }
  unfold print_abcd_assetssments, bind, print, emit. simpl.
  edestruct (for_each_ok (video_assessments a) (print_video_assessment brand) Hvideo)
    as (w' & Hrun & Hb).
  exists w'. split; [exact Hrun | exact Hb].
Qed.

(** The trimming loop over a listing with a candidate whose name does
    not resolve never ends normally.  What it raises is [ValueError],
    unless the disk or the video library failed on an earlier video. *)
Lemma trim_loop_unresolved lp folder (l : list blob) video :
  In video l -> skipped folder video = false -> resolve video = None ->
  forall w,
    exists e w',
      trim_loop lp folder l w = (Raise e, w')
      /\ ((forall v, In v l -> skipped folder v = false -> is_Some (resolve v) ->
                     trims_well lp v = true) ->
          e = ValueError).
Proof.
  induction l as [|x l IH]; intros Hin Hs Hr w; [destruct Hin|].
  rewrite trim_loop_cons.
  assert (forall w1, x <> video ->
            exists e w',
              trim_loop lp folder l w1 = (Raise e, w')
              /\ ((forall v, In v (x :: l) -> skipped folder v = false ->
                             is_Some (resolve v) -> trims_well lp v = true) ->
                  e = ValueError)) as Hrest.
  { intros w1 Hne. destruct Hin as [->|Hin]; [done|].
    destruct (IH Hin Hs Hr w1) as (e & w' & Hrun & He).
    exists e, w'. split; [done|]. intros Hall. apply He.
    intros v Hv. apply Hall. by right. }
  destruct (trim_body_step lp folder x w)
    as [Hs'|Hs' Hr'|a b path md Hs' Hr' Hp Hl|a b path sz Hs' Hr' Hp Hl Hsave Hcut
       |a b path e Hs' Hr' Hp Hl Hsave|a b path e Hs' Hr' Hp Hl Hsave Hcut].
  - apply Hrest. congruence.
  - eauto.
  - apply Hrest. congruence.
  - apply Hrest. congruence.
  - eexists _, _. split; [reflexivity|]. intros Hall. exfalso.
    specialize (Hall x (or_introl eq_refl) Hs'). rewrite Hr' in Hall.
    specialize (Hall (ltac:(done))).
    unfold trims_well, library_works in Hall. rewrite Hr', Hsave in Hall.
    discriminate.
  - eexists _, _. split; [reflexivity|]. intros Hall. exfalso.
    specialize (Hall x (or_introl eq_refl) Hs'). rewrite Hr' in Hall.
    specialize (Hall (ltac:(done))).
    unfold trims_well, library_works in Hall. rewrite Hr', Hsave, Hcut in Hall.
    discriminate.
Qed.

Lemma execute_abcd_detector_steps brand c ua ul w :
  execute_abcd_detector brand c ua ul w
  = match trim_videos brand (after_annotations ua brand w) with
    | (Raise e, w1) => (Raise e, w1)
    | (Ok _, w1) =>
        match execute_abcd_assessment_for_videos brand c ua ul w1 with
        | (Raise e, w2) => (Raise e, w2)
        | (Ok a, w2) =>
            if Nat.eqb (length (video_assessments a)) 0
            then (Raise SystemExit, World (bucket w2) (trace w2 ++ [Print MsgNoVideos]))
            else match print_abcd_assetssments a brand w2 with
                 | (Ok _, w3) => (Ok a, w3)
                 | (Raise e, w3) => (Raise e, w3)
                 end
        end
    end.
Proof.
  unfold execute_abcd_detector, after_annotations, bind at 1.
  destruct ua; unfold emit, ret; simpl; unfold bind at 1;
    (destruct (trim_videos _ _) as [[[]|e] w1]; [|done]);
    unfold bind at 1;
    (destruct (execute_abcd_assessment_for_videos _ _ _ _ _) as [[a|e] w2]; [|done]);
    (destruct (Nat.eqb _ 0); [reflexivity|]);
    unfold bind, ret; by destruct (print_abcd_assetssments _ _ _) as [[[]|e] w3].
Qed.


(** The detector on a bucket with distinct names on which the trimming
    pass ends normally. *)
Lemma detector_run_spec ua ul brand c w w1 :
  NoDup (map name (bucket w)) ->
  trim_videos brand (after_annotations ua brand w) = (Ok tt, w1) ->
  exists vas w',
    Forall2 (assessment_of ua brand c)
      (List.filter (passes_gates ul) (candidates brand (bucket w))) vas
    /\ execute_abcd_detector brand c ua ul w
       = (match vas with
          | [] => Raise SystemExit
          | _ :: _ => Ok (BrandAssessment brand vas)
          end, w')
    /\ (vas = [] -> last (trace w') = Some (Print MsgNoVideos)).
Proof.
  intros Hnd Htrim. rewrite execute_abcd_detector_steps.
  assert (bucket (after_annotations ua brand w) = bucket w) as Hb0.
  { unfold after_annotations. by destruct ua. }
  rewrite Htrim.
  pose proof (trim_videos_normal_resolves _ _ _ Htrim) as Hres.
  destruct (trim_videos_candidates _ _ _ _ Htrim) as [Hc Hnd1].
  rewrite Hb0 in Hc, Hnd1, Hres.
  destruct (assessment_run_spec ua ul brand c w1) as (vas & w2 & Hrun & Hb2 & Hall).
  { by apply Hnd1. }
  { by rewrite Hc. }
  rewrite Hrun, Hc in *. simpl.
  destruct vas as [|va vas]; simpl.
  - eexists [], _. repeat split; [done|]. intros _. simpl. apply last_snoc.
  - destruct (print_abcd_assetssments_ok (BrandAssessment brand (va :: vas)) brand w2)
      as (w3 & -> & _).
    exists (va :: vas), w3. repeat split; [done|]. discriminate.
Qed.

End DetectorRuns.

(** ** The score of an assessed video (C1) *)

(** C1: every video assessment in the result of
    [execute_abcd_assessment_for_videos] has [passed_features_count] equal
    to the number of its features whose [feature_detected] is true, at
    most the number of features, a positive number of features, and
    [score] equal to [100 * passed / total], unrounded.  Scoring the
    features the detectors return never divides by zero. *)
Theorem C1_score_of_assessed_videos `{Config} `{Detectors}
    (brand : string) (c : criteria) (ua ul : bool) :
  (forall w a w',
      execute_abcd_assessment_for_videos brand c ua ul w = (Ok a, w') ->
      Forall well_scored (video_assessments a))
  /\ (forall vn vnf uri,
        exists va,
          score_video vnf uri (detect_features ua brand c vn uri) = Ok va
          /\ well_scored va).
Proof.
  split.
  - intros w a w' Hrun. rewrite execute_assessment_loop in Hrun.
    eapply (for_fold_invariant (fun acc => Forall well_scored (video_assessments acc)));
      [| |exact Hrun].
    + intros video acc w0 acc' w0' _ Hacc Hbody.
      apply assessment_body_appends in Hbody as [->|(va & Hva & ->)]; [done|].
      apply Forall_app. split; [done|]. by constructor.
    + constructor.
  - intros vn vnf uri.
    destruct (score_detected_ok ua brand c vn vnf uri) as (va & Hva & _).
    exists va. split; [done|]. by eapply score_video_well_scored.
Qed.

(** The 4 MB video of the sample bucket: 12 of 23 features detected. *)
Lemma C1_score_witness :
  exists a w',
    @execute_abcd_assessment_for_videos Sample.config Sample.detectors
      "Acme" Sample.acme false true (Sample.world_of Sample.small_bucket) = (Ok a, w')
    /\ map passed_features_count (video_assessments a) = [12]
    /\ map (fun va => length (features va)) (video_assessments a) = [23%nat]
    /\ Forall well_scored (video_assessments a).
Proof.
  eexists _, _. split; [by vm_compute|].
  split; [reflexivity|]. split; [reflexivity|].
  eapply (proj1 (@C1_score_of_assessed_videos Sample.config Sample.detectors
                   "Acme" Sample.acme false true)
            (Sample.world_of Sample.small_bucket)).
  by vm_compute.
Defined.

(** ** Names that do not resolve (C4, C10) *)

(** C10: [get_file_name_from_gcs_url] returns a pair exactly when its
    argument has three parts, and the single empty string otherwise;
    unpacking that string into two variables raises.  Both callers, the
    loop bodies of [trim_videos] and of
    [execute_abcd_assessment_for_videos], raise [ValueError] on a
    candidate whose name does not have three parts and leave the world as
    it was. *)
Theorem C10_single_string_breaks_unpacking `{Config} `{Detectors} (gcs_url : string) :
  (get_file_name_from_gcs_url gcs_url
   = if Nat.eqb (length (Py.split "/" gcs_url)) 3
     then VPair (hd EmptyString (Py.split "." (nth 2 (Py.split "/" gcs_url) EmptyString)))
                (nth 2 (Py.split "/" gcs_url) EmptyString)
     else VStr EmptyString)
  /\ (length (Py.split "/" gcs_url) <> 3%nat ->
      Py.unpack2 (get_file_name_from_gcs_url gcs_url) = Raise ValueError
      /\ forall lp folder video w,
           name video = gcs_url -> skipped folder video = false ->
           trim_videos_body lp folder video w = (Raise ValueError, w)
           /\ forall ua ul brand c acc,
                assessment_body ua ul brand c folder video acc w
                = (Raise ValueError, w)).
Proof.
  assert (get_file_name_from_gcs_url gcs_url
          = if Nat.eqb (length (Py.split "/" gcs_url)) 3
            then VPair (hd EmptyString
                          (Py.split "." (nth 2 (Py.split "/" gcs_url) EmptyString)))
                       (nth 2 (Py.split "/" gcs_url) EmptyString)
            else VStr EmptyString) as Hget.
  { unfold get_file_name_from_gcs_url.
    by destruct (Py.split "/" gcs_url) as [|p0 [|p1 [|p2 [|p3 ps]]]]. }
  split; [exact Hget|].
  intros Hlen.
  assert (get_file_name_from_gcs_url gcs_url = VStr EmptyString) as Hstr.
  { rewrite Hget. by destruct (Nat.eqb_spec (length (Py.split "/" gcs_url)) 3). }
  split; [by rewrite Hstr|].
  intros lp folder video w Hname Hs.
  assert (resolve video = None) as Hr.
  { unfold resolve. by rewrite Hname, Hstr. }
  split; [by apply trim_body_unresolved|].
  intros ua ul brand c acc. unfold assessment_body. rewrite Hs.
  unfold bind, lift. by rewrite (unpack_unresolved _ Hr).
Qed.

(** A video in a sub-folder has four parts. *)
Lemma C10_single_string_witness :
  let video := Blob "Acme/videos/2024/teaser.mp4" 2000000 in
  let w := Sample.world_of Sample.nested_bucket in
  length (Py.split "/" (name video)) <> 3%nat
  /\ get_file_name_from_gcs_url (name video) = VStr EmptyString
  /\ @trim_videos_body Sample.config "abcd_videos" "Acme/videos" video w
     = (Raise ValueError, w)
  /\ @assessment_body Sample.config Sample.detectors false true "Acme" Sample.acme
       "Acme/videos" video (BrandAssessment "Acme" []) w
     = (Raise ValueError, w).
Proof.
  intros video w.
  assert (length (Py.split "/" (name video)) <> 3%nat) as Hlen by (vm_compute; lia).
  pose proof (@C10_single_string_breaks_unpacking Sample.config Sample.detectors
                (name video)) as [Hget Hfail].
  destruct (Hfail Hlen) as [_ Hcallers].
  destruct (Hcallers "abcd_videos" "Acme/videos" video w eq_refl eq_refl)
    as [Htrim Hassess].
  split; [exact Hlen|]. split; [exact Hget|]. split; [exact Htrim|].
  apply Hassess.
Defined.

(** C4 on the code: a candidate whose name does not have three parts is
    fatal.  [trim_videos] and [execute_abcd_detector] raise and
    [execute_abcd_assessment_for_videos] ends with [ValueError], so the
    remaining videos are not assessed.  What the first two raise is
    [ValueError] as well when the disk and the video library do their
    work on the candidates whose names resolve; a failure of theirs on an
    earlier video ends the run there. *)
Theorem C4_unresolved_name_is_fatal `{Config} `{Detectors}
    (brand : string) (c : criteria) (ua ul : bool) (w : world) (video : blob) :
  In video (candidates brand (bucket w)) ->
  resolve video = None ->
  let resolved_videos_trim_well :=
    forall v, In v (candidates brand (bucket w)) -> is_Some (resolve v) ->
              trims_well "abcd_videos" v = true in
  (exists e w', trim_videos brand w = (Raise e, w')
                /\ (resolved_videos_trim_well -> e = ValueError))
  /\ (exists w',
        execute_abcd_assessment_for_videos brand c ua ul w = (Raise ValueError, w'))
  /\ (exists e w', execute_abcd_detector brand c ua ul w = (Raise e, w')
                   /\ (resolved_videos_trim_well -> e = ValueError)).
Proof.
  intros Hin Hr well. unfold candidates in Hin.
  apply List.filter_In in Hin as [Hin Hs]. apply negb_true_iff in Hs.
  split; [|split].
  - rewrite trim_videos_loop.
    destruct (trim_loop_unresolved "abcd_videos" (brand +:+ "/videos")
                (listing brand (bucket w)) video Hin Hs Hr w) as (e & w' & Hrun & He).
    exists e, w'. split; [done|]. intros Hwell. apply He.
    intros v Hv Hsv. by apply Hwell, not_skipped_candidate.
  - rewrite execute_assessment_loop.
    eapply assessment_loop_unresolved; eauto.
    intros b Hb. unfold listing in Hb. by apply List.filter_In in Hb as [Hb _].
  - rewrite execute_abcd_detector_steps.
    destruct (trim_loop_unresolved "abcd_videos" (brand +:+ "/videos")
                (listing brand (bucket w)) video Hin Hs Hr
                (after_annotations ua brand w)) as (e & w1 & Htrim & He).
    rewrite trim_videos_loop.
    replace (bucket (after_annotations ua brand w)) with (bucket w)
      by (unfold after_annotations; by destruct ua).
    rewrite Htrim. exists e, w1. split; [done|]. intros Hwell. apply He.
    intros v Hv Hsv. by apply Hwell, not_skipped_candidate.
Qed.

(** The sample bucket with a video in a sub-folder before [ad.mp4]. *)
Lemma C4_unresolved_name_witness :
  let w := Sample.world_of Sample.nested_bucket in
  let video := Blob "Acme/videos/2024/teaser.mp4" 2000000 in
  In video (candidates "Acme" (bucket w))
  /\ In (Blob "Acme/videos/ad.mp4" 4000000) (candidates "Acme" (bucket w))
  /\ fst (@trim_videos Sample.config "Acme" w) = Raise ValueError
  /\ fst (@execute_abcd_assessment_for_videos Sample.config Sample.detectors
            "Acme" Sample.acme false true w) = Raise ValueError
  /\ exists w',
       @execute_abcd_detector Sample.config Sample.detectors
         "Acme" Sample.acme false true w = (Raise ValueError, w').
Proof.
  intros w video.
  assert (In video (candidates "Acme" (bucket w))) as Hin by (vm_compute; auto).
  split; [exact Hin|]. split; [vm_compute; auto|].
  split; [reflexivity|]. split; [reflexivity|].
  destruct (proj2 (proj2 (@C4_unresolved_name_is_fatal Sample.config Sample.detectors
                            "Acme" Sample.acme false true w video Hin eq_refl)))
    as (e & w' & Hrun & He).
  exists w'. rewrite Hrun. f_equal. f_equal. apply He.
  intros v Hv [names Hnames]. vm_compute in Hv.
  destruct Hv as [<-|[<-|[]]]; [discriminate Hnames | reflexivity].
Defined.

(** ** The size gate (C6) *)

Lemma over_size_limit_spec `{Config} (size_bytes : Z) :
  over_size_limit size_bytes = false
  <-> (inject_Z size_bytes / 1000000 <= VIDEO_SIZE_LIMIT_MB)%Q.
Proof.
  unfold over_size_limit. rewrite negb_false_iff. apply Qle_bool_iff.
Qed.

(** C6: with [use_llms] on, over a bucket with distinct names all of
    whose candidates resolve, the assessment pass ends normally and its
    result holds, in listing order, exactly the assessments of the
    accepted candidates; a candidate with non-empty names is accepted
    exactly when its size in bytes divided by 1e6 is at most
    [VIDEO_SIZE_LIMIT_MB].  A video over the limit is skipped and the run
    goes on. *)
Theorem C6_size_gate `{Config} `{Detectors}
    (brand : string) (c : criteria) (ua : bool) (w : world) :
  NoDup (map name (bucket w)) ->
  (forall video, In video (candidates brand (bucket w)) -> is_Some (resolve video)) ->
  (exists vas w',
      execute_abcd_assessment_for_videos brand c ua true w
      = (Ok (BrandAssessment brand vas), w')
      /\ bucket w' = bucket w
      /\ Forall2 (assessment_of ua brand c)
           (List.filter (passes_gates true) (candidates brand (bucket w))) vas)
  /\ (forall video fn fnf,
        resolve video = Some (fn, fnf) -> fn <> EmptyString -> fnf <> EmptyString ->
        (passes_gates true video = true
         <-> (inject_Z (size video) / 1000000 <= VIDEO_SIZE_LIMIT_MB)%Q)).
Proof.
  intros Hnd Hres. split; [by apply assessment_run_spec|].
  intros video fn fnf Hr Hfn Hfnf. unfold passes_gates. rewrite Hr.
  apply String.eqb_neq in Hfn, Hfnf. rewrite Hfn, Hfnf. simpl.
  rewrite negb_true_iff. apply over_size_limit_spec.
Qed.

(** A 4 MB and a 9 MB video under a limit of 7 MB: the first is assessed,
    the second is not, and the run ends normally. *)
Lemma C6_size_gate_witness :
  let w := Sample.world_of Sample.mixed_bucket in
  let small := Blob "Acme/videos/ad.mp4" 4000000 in
  let big := Blob "Acme/videos/long.mp4" 9000000 in
  candidates "Acme" (bucket w) = [small; big]
  /\ List.filter (@passes_gates Sample.config true) (candidates "Acme" (bucket w)) = [small]
  /\ exists vas w',
       @execute_abcd_assessment_for_videos Sample.config Sample.detectors
         "Acme" Sample.acme false true w = (Ok (BrandAssessment "Acme" vas), w')
       /\ bucket w' = bucket w
       /\ Forall2 (@assessment_of Sample.config Sample.detectors false "Acme" Sample.acme)
            [small] vas.
Proof.
  intros w small big.
  split; [reflexivity|]. split; [reflexivity|].
  refine (proj1 (@C6_size_gate Sample.config Sample.detectors "Acme" Sample.acme
                   false w _ _)).
  - apply (bool_decide_unpack _). by vm_compute.
  - intros video Hin. vm_compute in Hin.
    destruct Hin as [<-|[<-|[]]]; vm_compute; eauto.
Defined.

(** ** The empty result (C5) *)




(** A file name with two dots and a video of three seconds: the run
    ends in the trimming pass with what the video library raises, and
    nothing is assessed. *)
Example detector_stops_where_trimming_fails :
  let run objects :=
    fst (@execute_abcd_detector Sample.config Sample.detectors
           "Acme" Sample.acme false true (Sample.world_of objects)) in
  run Sample.dotted_bucket = Raise ValueError
  /\ run Sample.short_bucket = Raise OSError.
Proof. by vm_compute. Qed.

(** ** The classification band (C2) *)

Lemma qle_bool_false (a b : Q) : Qle_bool a b = false -> (b < a)%Q.
Proof.
  intros E. apply Qnot_le_lt. intros Hle. apply Qle_bool_iff in Hle. congruence.
Qed.

Lemma py_lt_spec (a b : Q) : Py.lt a b = true <-> (a < b)%Q.
Proof.
  unfold Py.lt. rewrite negb_true_iff. split.
  - apply qle_bool_false.
  - intros Hlt. destruct (Qle_bool b a) eqn:E; [|done].
    apply Qle_bool_iff in E. absurd_order.
Qed.

Lemma band_of_thresholds (x : Q) :
  band_of x (if Qle_bool 80 x then Excellent
             else if Qle_bool 65 x && Py.lt x 80 then MightImprove
             else NeedsReview).
Proof.
  unfold band_of.
  destruct (Qle_bool 80 x) eqn:E80.
  - apply Qle_bool_iff in E80. split; [done|split].
    + intros [_ Hlt]. absurd_order.
    + intros Hlt. assert (65 <= x)%Q by (apply Qle_trans with 80%Q; done).
      absurd_order.
  - apply qle_bool_false in E80.
    destruct (Qle_bool 65 x) eqn:E65; simpl.
    + apply Qle_bool_iff in E65.
      apply py_lt_spec in E80 as Hlt. rewrite Hlt.
      split; [|split; [done|]]; intros; absurd_order.
    + apply qle_bool_false in E65.
      split; [|split; [|done]].
      * intros Hle. absurd_order.
      * intros [Hle _]. absurd_order.
Qed.

(** Rounding depends on the value of the number only. *)
Lemma round_half_even_comp (x y : Q) :
  (x == y)%Q -> Py.round_half_even x = Py.round_half_even y.
Proof.
  intros Heq. pose proof (Qfloor_comp x y Heq) as Hfl.
  destruct x as [a b], y as [c d]. unfold Py.round_half_even, Qeq in *. simpl in *.
  rewrite <- Hfl.
  assert ((2 * (a mod Z.pos b) ?= Z.pos b) = (2 * (c mod Z.pos d) ?= Z.pos d)) as ->.
  { rewrite !Z.mod_eq by lia. rewrite <- Hfl.
    rewrite <- (Zcompare_mult_compat d (2 * _) (Z.pos b)).
    rewrite <- (Zcompare_mult_compat b (2 * (c - _)) (Z.pos d)).
    f_equal; nia. }
  done.
Qed.

Lemma round2_comp (x y : Q) : (x == y)%Q -> Py.round2 x = Py.round2 y.
Proof.
  intros Heq. unfold Py.round2. f_equal. apply round_half_even_comp.
  by rewrite Heq.
Qed.

Lemma console_band_comp (va : video_assessment) (x : Q) :
  (score va == x)%Q ->
  print_abcd_assetssments_band va
  = if Qle_bool 80 x then Excellent
    else if Qle_bool 65 x && Py.lt x 80 then MightImprove else NeedsReview.
Proof.
  intros Heq. unfold print_abcd_assetssments_band, Py.lt.
  assert (Qle_bool 80 (score va) = Qle_bool 80 x) as -> by (by rewrite Heq).
  assert (Qle_bool 65 (score va) = Qle_bool 65 x) as -> by (by rewrite Heq).
  reflexivity.
Qed.

(** The features the detectors return are 23, so a score of the pipeline
    is a multiple of 100/23; none of them rounds across a threshold. *)
Lemma bands_agree_on_23 (va : video_assessment) (p : Z) :
  0 <= p <= 23 ->
  score va = (inject_Z (p * 100) / inject_Z 23)%Q ->
  format_assessment_results_band va = print_abcd_assetssments_band va.
Proof.
  intros Hp Hscore.
  unfold format_assessment_results_band, print_abcd_assetssments_band.
  rewrite Hscore.
  assert (p = 0 \/ p = 1 \/ p = 2 \/ p = 3 \/ p = 4 \/ p = 5 \/ p = 6 \/ p = 7
          \/ p = 8 \/ p = 9 \/ p = 10 \/ p = 11 \/ p = 12 \/ p = 13 \/ p = 14
          \/ p = 15 \/ p = 16 \/ p = 17 \/ p = 18 \/ p = 19 \/ p = 20 \/ p = 21
          \/ p = 22 \/ p = 23) as Hcases by lia.
  repeat (destruct Hcases as [->|Hcases]; [by vm_compute|]).
  subst p. by vm_compute.
Qed.

(** How the two renderers choose the band.  The console printer chooses
    it from the stored score; the digest chooses it from the score rounded
    to two decimals.  Scores of 80, 65, 79.99 and 64.99 are excellent,
    might improve, might improve and needs review in both, and both give
    the same band to every video the pipeline scores. *)
Lemma bands_of_both_renderers `{Config} `{Detectors} (va : video_assessment) :
  band_of (score va) (print_abcd_assetssments_band va)
  /\ band_of (Py.round2 (score va)) (format_assessment_results_band va)
  /\ ((score va == 80)%Q ->
      print_abcd_assetssments_band va = Excellent
      /\ format_assessment_results_band va = Excellent)
  /\ ((score va == 65)%Q ->
      print_abcd_assetssments_band va = MightImprove
      /\ format_assessment_results_band va = MightImprove)
  /\ ((score va == 7999 # 100)%Q ->
      print_abcd_assetssments_band va = MightImprove
      /\ format_assessment_results_band va = MightImprove)
  /\ ((score va == 6499 # 100)%Q ->
      print_abcd_assetssments_band va = NeedsReview
      /\ format_assessment_results_band va = NeedsReview)
  /\ (forall ua brand c vn vnf uri,
        exists scored,
          score_video vnf uri (detect_features ua brand c vn uri) = Ok scored
          /\ format_assessment_results_band scored
             = print_abcd_assetssments_band scored).
Proof.
  assert (forall x, (score va == x)%Q ->
            print_abcd_assetssments_band va
            = (if Qle_bool 80 x then Excellent
               else if Qle_bool 65 x && Py.lt x 80 then MightImprove else NeedsReview)
            /\ format_assessment_results_band va
               = (let r := Py.round2 x in
                  if Qle_bool 80 r then Excellent
                  else if Qle_bool 65 r && Py.lt r 80 then MightImprove
                  else NeedsReview)) as Hat.
  { intros x Heq. split; [by apply console_band_comp|].
    unfold format_assessment_results_band. by rewrite (round2_comp _ _ Heq). }
  split; [apply band_of_thresholds|].
  split; [apply band_of_thresholds|].
  split; [intros Heq; apply (Hat _ Heq)|].
  split; [intros Heq; apply (Hat _ Heq)|].
  split; [intros Heq; apply (Hat _ Heq)|].
  split; [intros Heq; apply (Hat _ Heq)|].
  intros ua brand c vn vnf uri.
  pose proof (detect_features_length ua brand c vn uri) as Hlen.
  pose proof (count_passed_bounds (detect_features ua brand c vn uri)) as Hp.
  rewrite Hlen in Hp.
  unfold score_video, Py.truediv. rewrite Hlen. simpl.
  eexists. split; [reflexivity|].
  by apply (bands_agree_on_23 _ (count_passed (detect_features ua brand c vn uri))).
Qed.

(** A video with every score of the boundary list, one at a time. *)
Example bands_at_the_boundaries :
  let va x := VideoAssessment "ad.mp4" "gs://abcd-assets/Acme/videos/ad.mp4" [] 0 x in
  (print_abcd_assetssments_band (va 80%Q) = Excellent
   /\ format_assessment_results_band (va 80%Q) = Excellent)
  /\ (print_abcd_assetssments_band (va 65%Q) = MightImprove
      /\ format_assessment_results_band (va 65%Q) = MightImprove)
  /\ (print_abcd_assetssments_band (va (7999 # 100)) = MightImprove
      /\ format_assessment_results_band (va (7999 # 100)) = MightImprove)
  /\ (print_abcd_assetssments_band (va (6499 # 100)) = NeedsReview
      /\ format_assessment_results_band (va (6499 # 100)) = NeedsReview).
Proof.
  intros va.
  pose proof (fun x => @bands_of_both_renderers Sample.config Sample.detectors (va x))
    as Hc.
  destruct (Hc 80%Q) as (_ & _ & H80 & _).
  destruct (Hc 65%Q) as (_ & _ & _ & H65 & _).
  destruct (Hc (7999 # 100)%Q) as (_ & _ & _ & _ & H7999 & _).
  destruct (Hc (6499 # 100)%Q) as (_ & _ & _ & _ & _ & H6499 & _).
  split; [apply H80; reflexivity|].
  split; [apply H65; reflexivity|].
  split; [apply H7999; reflexivity|].
  apply H6499; reflexivity.
Qed.

(** The digest chooses the band from the rounded score, so a made-up
    video with 4004 features of which 3203 are detected, whose score is
    100 * 3203 / 4004 = 79.995..., is excellent in the digest and might
    improve on the console.  No video of the pipeline has such a score. *)
Example bands_of_a_made_up_video :
  exists va,
    score_video "ad.mp4" "gs://abcd-assets/Acme/videos/ad.mp4"
      Sample.crowded_features = Ok va
    /\ length (features va) = 4004%nat
    /\ print_abcd_assetssments_band va = MightImprove
    /\ format_assessment_results_band va = Excellent.
Proof. eexists. split; [by vm_compute|]. by vm_compute. Qed.

Section RenderedVideos.
Context `{Config} `{Detectors}.




End RenderedVideos.



(** ** The results of the brand visuals detector (C9) *)

(** C9, as the code has it: [detect_brand_visuals] returns three results
    and the first two, the overall one and the one for the first five
    seconds, are appended to the features, at positions 5 and 6 of 23;
    the third, the large logo in the first five seconds, is bound to a
    variable and not appended.  The list of features is exactly the
    following, whatever the detectors return. *)
Theorem C9_brand_visuals_contributes_two `{Detectors}
    (ua : bool) (brand : string) (c : criteria) (vn uri : string) :
  let '(label, face, people, shot, text, logo, speech) :=
    annotations_for ua brand vn in
  let '(brand_visuals, brand_visuals_1st_5_secs, brand_visuals_logo_big_1st_5_secs) :=
    detect_brand_visuals text logo uri brand (brand_variations c) in
  detect_features ua brand c vn uri
  = [fst (detect_quick_pacing shot uri); snd (detect_quick_pacing shot uri);
     detect_dynamic_start shot uri;
     detect_supers text uri; detect_supers_with_audio text speech uri;
     brand_visuals; brand_visuals_1st_5_secs;
     fst (detect_brand_mention_speech speech uri brand (brand_variations c));
     snd (detect_brand_mention_speech speech uri brand (brand_variations c));
     fst (detect_product_visuals label uri (branded_products c)
            (branded_products_categories c));
     snd (detect_product_visuals label uri (branded_products c)
            (branded_products_categories c));
     fst (detect_product_mention_text text uri (branded_products c)
            (branded_products_categories c));
     snd (detect_product_mention_text text uri (branded_products c)
            (branded_products_categories c));
     fst (detect_product_mention_speech speech uri (branded_products c)
            (branded_products_categories c));
     snd (detect_product_mention_speech speech uri (branded_products c)
            (branded_products_categories c));
     fst (detect_visible_face face uri); snd (detect_visible_face face uri);
     fst (detect_presence_of_people people uri);
     snd (detect_presence_of_people people uri);
     detect_audio_speech_early speech uri;
     detect_overall_pacing shot uri;
     detect_call_to_action_speech speech uri (branded_call_to_actions c);
     detect_call_to_action_text text uri (branded_call_to_actions c)]
  /\ length (detect_features ua brand c vn uri) = 23%nat
  /\ detect_features ua brand c vn uri !! 5%nat = Some brand_visuals
  /\ detect_features ua brand c vn uri !! 6%nat = Some brand_visuals_1st_5_secs.
Proof.
  unfold detect_features.
  destruct (annotations_for ua brand vn) as [[[[[[a1 a2] a3] a4] a5] a6] a7].
  destruct (detect_quick_pacing a4 uri), (detect_brand_visuals a5 a6 uri brand _)
    as [[? ?] ?], (detect_brand_mention_speech a7 uri brand _),
    (detect_product_visuals a1 uri _ _), (detect_product_mention_text a5 uri _ _),
    (detect_product_mention_speech a7 uri _ _), (detect_visible_face a2 uri),
    (detect_presence_of_people a3 uri).
  by repeat split.
Qed.

(** C9 as stated fails: with the sample detectors the result for the
    large logo is detected, yet it is no entry of the features, which are
    23 with 12 detected. *)
Lemma C9_logo_result_not_counted :
  let fs :=
    @detect_features Sample.detectors false "Acme" Sample.acme "ad"
      "gs://abcd-assets/Acme/videos/ad.mp4" in
  let third :=
    snd (@detect_brand_visuals Sample.detectors tt tt
           "gs://abcd-assets/Acme/videos/ad.mp4" "Acme" ["Acme Corp"]) in
  third = Sample.yes "Brand Visuals Logo Big (First 5 seconds)"
  /\ ~ In third fs
  /\ length fs = 23%nat
  /\ count_passed fs = 12.
Proof.
  split; [reflexivity|]. split; [|split; reflexivity].
  vm_compute. intros Hin.
  repeat (destruct Hin as [Hin|Hin]; [discriminate Hin|]). exact Hin.
Qed.

(** ** The feature columns of the matrix (C8) *)

Lemma add_feature_names (fs : list feature_result) (start : gset string) (x : string) :
  x ∈ fold_left (fun features_set f => features_set ∪ {[ feature f ]}) fs start
  <-> x ∈ start \/ exists f, In f fs /\ feature f = x.
Proof.
  revert start. induction fs as [|f fs IH]; intros start; simpl.
  - split; [by left | intros [?|(f & [] & _)]; done].
  - rewrite IH, elem_of_union, elem_of_singleton. split.
    + intros [[Hx| ->]|(g & Hg & Hx)]; eauto.
    + intros [Hx|(g & [->|Hg] & Hx)]; eauto.
Qed.

Lemma collect_features_from (vas : list video_assessment) (start : gset string) x :
  x ∈ fold_left
        (fun features_set video_assessment =>
           fold_left (fun features_set f => features_set ∪ {[ feature f ]})
                     (features video_assessment) features_set)
        vas start
  <-> x ∈ start \/ observed vas x.
Proof.
  revert start. induction vas as [|va vas IH]; intros start; simpl.
  - split; [by left | intros [?|(va & f & [] & _)]; done].
  - rewrite IH, add_feature_names. unfold observed. split.
    + intros [[Hx|(f & Hf & Hx)]|(va' & f & Hva & Hf & Hx)]; [by left| |];
        right; [exists va, f | exists va', f]; simpl; auto.
    + intros [Hx|(va' & f & [->|Hva] & Hf & Hx)]; eauto 10.
Qed.

Lemma collect_features_set_spec (a : brand_assessment) (x : string) :
  x ∈ collect_features_set a <-> observed (video_assessments a) x.
Proof.
  unfold collect_features_set. rewrite collect_features_from.
  split; [intros [Hx|Hx]; [by apply not_elem_of_empty in Hx | done] | by right].
Qed.

Lemma observed_permutation (vas vas' : list video_assessment) x :
  vas ≡ₚ vas' -> observed vas x -> observed vas' x.
Proof.
  intros Hp (va & f & Hva & Hf & Hx). exists va, f. repeat split; [|done..].
  apply list_elem_of_In. rewrite <- Hp. by apply list_elem_of_In.
Qed.

Lemma sorted_features_elem (s : gset string) (x : string) :
  x ∈ sorted_features s <-> x ∈ s.
Proof.
  unfold sorted_features. rewrite merge_sort_Permutation. apply elem_of_elements.
Qed.

Lemma sorted_features_sorted (s : gset string) :
  StronglySorted String.le (sorted_features s).
Proof. apply StronglySorted_merge_sort; apply _. Qed.

Lemma sorted_features_nodup (s : gset string) : NoDup (sorted_features s).
Proof.
  unfold sorted_features. rewrite merge_sort_Permutation. apply NoDup_elements.
Qed.

(** C8: the sorted list of feature names that gives the matrix its
    columns is the same for every order of the videos.  It is sorted, has
    no duplicates, and holds exactly the feature names the videos of the
    run produced.  The header row of [generate_csv_assessment_results] is
    the five fixed columns followed by the detection columns, the score
    columns and the explanation columns of the names of that list, in its
    order, and is the same for every order of the videos as well. *)
Theorem C8_feature_columns_permutation_invariant (a a' : brand_assessment) :
  video_assessments a ≡ₚ video_assessments a' ->
  let features_list := sorted_features (collect_features_set a) in
  features_list = sorted_features (collect_features_set a')
  /\ hd [] (generate_csv_assessment_results a)
     = hd [] (generate_csv_assessment_results a')
  /\ generate_csv_assessment_results a !! 0%nat
     = Some ([CStr "Video Name"; CStr "Video URI"; CStr "Overall Score";
              CStr "Passed Features"; CStr "Total Features"]
             ++ map (fun feature_name => CStr (feature_name +:+ " - Detected"))
                    features_list
             ++ map (fun feature_name => CStr (feature_name +:+ " - Score"))
                    features_list
             ++ map (fun feature_name => CStr (feature_name +:+ " - Explanation"))
                    features_list)
  /\ StronglySorted String.le features_list
  /\ NoDup features_list
  /\ forall x, x ∈ features_list <-> observed (video_assessments a) x.
Proof.
  intros Hp features_list. unfold features_list.
  assert (collect_features_set a = collect_features_set a') as Hset.
  { apply set_eq. intros x. rewrite !collect_features_set_spec.
    split; apply observed_permutation; [done | by symmetry]. }
  split; [by rewrite Hset|]. split.
  { unfold generate_csv_assessment_results. simpl. by rewrite Hset. }
  split.
  { unfold generate_csv_assessment_results, csv_header. simpl.
    by rewrite <- !app_assoc. }
  split; [apply sorted_features_sorted|]. split; [apply sorted_features_nodup|].
  intros x. by rewrite sorted_features_elem, collect_features_set_spec.
Qed.

(** Two videos with overlapping features, in both orders. *)
Lemma C8_feature_columns_witness :
  let first :=
    VideoAssessment "ad.mp4" "gs://abcd-assets/Acme/videos/ad.mp4"
      [Sample.yes "Supers"; Sample.no "Dynamic Start"] 1 50 in
  let second :=
    VideoAssessment "long.mp4" "gs://abcd-assets/Acme/videos/long.mp4"
      [Sample.no "Quick Pacing"; Sample.yes "Dynamic Start"] 1 50 in
  sorted_features (collect_features_set (BrandAssessment "Acme" [first; second]))
  = ["Dynamic Start"; "Quick Pacing"; "Supers"]
  /\ sorted_features (collect_features_set (BrandAssessment "Acme" [first; second]))
     = sorted_features (collect_features_set (BrandAssessment "Acme" [second; first]))
  /\ generate_csv_assessment_results (BrandAssessment "Acme" [second; first]) !! 0%nat
     = Some [CStr "Video Name"; CStr "Video URI"; CStr "Overall Score";
             CStr "Passed Features"; CStr "Total Features";
             CStr "Dynamic Start - Detected"; CStr "Quick Pacing - Detected";
             CStr "Supers - Detected";
             CStr "Dynamic Start - Score"; CStr "Quick Pacing - Score";
             CStr "Supers - Score";
             CStr "Dynamic Start - Explanation"; CStr "Quick Pacing - Explanation";
             CStr "Supers - Explanation"].
Proof.
  intros first second. split; [by vm_compute|].
  destruct (C8_feature_columns_permutation_invariant
              (BrandAssessment "Acme" [first; second])
              (BrandAssessment "Acme" [second; first])) as (Hsame & Hhd & _).
  { simpl. apply perm_swap. }
  split; [exact Hsame|]. by vm_compute.
Defined.

(** ** The rows of the matrix (C7) *)

Lemma find_over_app {A} (p : A -> bool) (l1 l2 : list A) :
  List.find p (l1 ++ l2)
  = match List.find p l1 with Some x => Some x | None => List.find p l2 end.
Proof.
  induction l1 as [|x l1 IH]; simpl; [done|]. by destruct (p x).
Qed.

Lemma last_named_cons n f fs :
  last_named n (f :: fs)
  = match last_named n fs with
    | Some g => Some g
    | None => if String.eqb (feature f) n then Some f else None
    end.
Proof.
  unfold last_named. simpl. rewrite find_over_app.
  destruct (List.find _ (rev fs)); [done|]. simpl.
  by destruct (String.eqb (feature f) n).
Qed.

Lemma last_named_none n fs :
  (forall f, In f fs -> feature f <> n) -> last_named n fs = None.
Proof.
  intros Hno. unfold last_named.
  destruct (List.find _ (rev fs)) as [f|] eqn:E; [|done].
  apply List.find_some in E as [Hin Heq].
  apply String.eqb_eq in Heq. apply in_rev in Hin. by destruct (Hno f Hin).
Qed.

Lemma feature_dictionaries_from fs (d : gmap string bool) (e : gmap string string) n :
  fst (fold_left add_feature_entries fs (d, e)) !! n
  = match last_named n fs with Some f => Some (feature_detected f) | None => d !! n end
  /\ snd (fold_left add_feature_entries fs (d, e)) !! n
     = match last_named n fs with
       | Some f => Some (llm_explanation_of (llm_details f))
       | None => e !! n
       end.
Proof.
  revert d e. induction fs as [|f fs IH]; intros d e; [done|].
  cbn [fold_left]. unfold add_feature_entries at 2 4. cbn [fst snd].
  destruct (IH (<[feature f := feature_detected f]> d)
               (<[feature f := llm_explanation_of (llm_details f)]> e)) as [Hd He].
  rewrite Hd, He, last_named_cons.
  destruct (last_named n fs); [done|].
  destruct (String.eqb_spec (feature f) n) as [->|Hne].
  - by rewrite !lookup_insert_eq.
  - by rewrite !lookup_insert_ne.
Qed.

Lemma feature_dictionaries_lookup (va : video_assessment) n :
  default false (fst (feature_dictionaries (features va)) !! n) = detected_in va n
  /\ default EmptyString (snd (feature_dictionaries (features va)) !! n)
     = explanation_in va n.
Proof.
  unfold feature_dictionaries, detected_in, explanation_in.
  destruct (feature_dictionaries_from (features va) ∅ ∅ n) as [-> ->].
  destruct (last_named n (features va)); [done|]. by rewrite !lookup_empty.
Qed.

(** The row of the code in closed form: the leading cells, then all the
    flags, then all the numbers, then all the explanations. *)
Lemma csv_row_blocks (fl : list string) (va : video_assessment) :
  csv_row fl va
  = leading_cells va
    ++ map (fun n => CStr (if detected_in va n then "Yes" else "No")) fl
    ++ map (fun n => CInt (if detected_in va n then 1 else 0)) fl
    ++ map (fun n => CStr (clean_explanation (explanation_in va n))) fl.
Proof.
  unfold csv_row, leading_cells.
  destruct (feature_dictionaries (features va)) as [fd fe] eqn:E.
  rewrite <- !app_assoc. f_equal. f_equal; [|f_equal];
    apply map_ext; intros n;
    pose proof (feature_dictionaries_lookup va n) as [Hd He];
    rewrite E in Hd, He; simpl in Hd, He; by rewrite ?Hd, ?He.
Qed.

Lemma lookup_map {A B} (f : A -> B) (l : list A) (i : nat) :
  map f l !! i = f <$> l !! i.
Proof.
  revert i. induction l as [|x l IH]; intros [|i]; simpl; auto.
Qed.

(** The three cells of the feature at position [i] of [fl]. *)
Lemma csv_row_cells (fl : list string) (va : video_assessment) (i : nat) (n : string) :
  fl !! i = Some n ->
  csv_row fl va !! (5 + i)%nat
  = Some (CStr (if detected_in va n then "Yes" else "No"))
  /\ csv_row fl va !! (5 + length fl + i)%nat
     = Some (CInt (if detected_in va n then 1 else 0))
  /\ csv_row fl va !! (5 + 2 * length fl + i)%nat
     = Some (CStr (clean_explanation (explanation_in va n))).
Proof.
  intros Hi. pose proof (lookup_lt_Some _ _ _ Hi) as Hlt.
  rewrite csv_row_blocks. unfold leading_cells.
  split; [|split].
  - rewrite lookup_app_r by (simpl; lia).
    rewrite lookup_app_l by (rewrite length_map; simpl; lia).
    replace (5 + i - length _)%nat with i by (simpl; lia).
    by rewrite lookup_map, Hi.
  - rewrite lookup_app_r by (simpl; lia).
    rewrite lookup_app_r by (rewrite length_map; simpl; lia).
    rewrite lookup_app_l by (rewrite !length_map; simpl; lia).
    rewrite length_map.
    replace (5 + length fl + i - _ - length fl)%nat with i by (simpl; lia).
    by rewrite lookup_map, Hi.
  - rewrite lookup_app_r by (simpl; lia).
    rewrite lookup_app_r by (rewrite length_map; simpl; lia).
    rewrite lookup_app_r by (rewrite !length_map; simpl; lia).
    rewrite !length_map.
    replace (5 + 2 * length fl + i - _ - length fl - length fl)%nat with i
      by (simpl; lia).
    by rewrite lookup_map, Hi.
Qed.

(** C7, as the code has it: a row of the matrix is the five leading cells
    (name, uri, score rounded to two decimals, passed count, number of
    features) followed by three blocks, each in the order of the sorted
    feature names: the flags, then the numbers, then the explanations.
    The feature at position [i] of [n] has its flag in column [5 + i], its
    number (1 if detected, else 0) in column [5 + n + i] and its
    explanation in column [5 + 2n + i]; for a feature name the video did
    not produce they are No, 0 and the empty string. *)
Theorem C7_row_layout (a : brand_assessment) (va : video_assessment) :
  In va (video_assessments a) ->
  let fl := sorted_features (collect_features_set a) in
  let row := csv_row fl va in
  In row (tl (generate_csv_assessment_results a))
  /\ length row = (5 + 3 * length fl)%nat
  /\ take 5 row = leading_cells va
  /\ (forall i n,
        fl !! i = Some n ->
        row !! (5 + i)%nat = Some (CStr (if detected_in va n then "Yes" else "No"))
        /\ row !! (5 + length fl + i)%nat
           = Some (CInt (if detected_in va n then 1 else 0))
        /\ row !! (5 + 2 * length fl + i)%nat
           = Some (CStr (clean_explanation (explanation_in va n))))
  /\ (forall i n,
        fl !! i = Some n ->
        (forall f, In f (features va) -> feature f <> n) ->
        row !! (5 + i)%nat = Some (CStr "No")
        /\ row !! (5 + length fl + i)%nat = Some (CInt 0)
        /\ row !! (5 + 2 * length fl + i)%nat = Some (CStr EmptyString)).
Proof.
  intros Hin fl row.
  split. { unfold generate_csv_assessment_results. simpl. by apply in_map. }
  split. { unfold row. rewrite csv_row_blocks. rewrite !length_app, !length_map.
           simpl. lia. }
  split. { unfold row. by rewrite csv_row_blocks. }
  split. { intros i n Hi. by apply csv_row_cells. }
  intros i n Hi Hno.
  destruct (csv_row_cells fl va i n Hi) as (Hflag & Hnum & Hexp).
  unfold row. rewrite Hflag, Hnum, Hexp.
  unfold detected_in, explanation_in. by rewrite (last_named_none _ _ Hno).
Qed.

(** Two videos; the second did not produce the feature of the first. *)
Lemma C7_row_layout_witness :
  let first :=
    VideoAssessment "ad.mp4" "gs://abcd-assets/Acme/videos/ad.mp4"
      [Sample.yes "Supers"; Sample.no "Dynamic Start"] 1 50 in
  let second :=
    VideoAssessment "long.mp4" "gs://abcd-assets/Acme/videos/long.mp4"
      [Sample.yes "Dynamic Start"] 1 100 in
  let a := BrandAssessment "Acme" [first; second] in
  let fl := sorted_features (collect_features_set a) in
  fl = ["Dynamic Start"; "Supers"]
  /\ csv_row fl second
     = [CStr "long.mp4"; CStr "gs://abcd-assets/Acme/videos/long.mp4";
        CNum (10000 # 100); CInt 1; CInt 1;
        CStr "Yes"; CStr "No"; CInt 1; CInt 0; CStr ""; CStr ""]
  /\ csv_row fl second !! 6%nat = Some (CStr "No")
  /\ csv_row fl second !! 8%nat = Some (CInt 0)
  /\ csv_row fl second !! 10%nat = Some (CStr EmptyString).
Proof.
  intros first second a fl.
  assert (fl = ["Dynamic Start"; "Supers"]) as Hfl by (by vm_compute).
  split; [exact Hfl|]. split; [by vm_compute|].
  assert (In second (video_assessments a)) as Hin by (simpl; auto).
  destruct (C7_row_layout a second Hin) as (_ & _ & _ & _ & Habsent).
  specialize (Habsent 1%nat "Supers").
  fold fl in Habsent. rewrite Hfl in Habsent.
  apply Habsent; [reflexivity|].
  intros f [<-|[]]. discriminate.
Defined.

(** C7 as stated fails for two or more features: the code does not put
    the three cells of a feature next to each other. *)
Lemma C7_cells_are_grouped_by_kind :
  let va :=
    VideoAssessment "ad.mp4" "gs://abcd-assets/Acme/videos/ad.mp4"
      [Sample.yes "Supers"; Sample.no "Dynamic Start"] 1 50 in
  let a := BrandAssessment "Acme" [va] in
  let fl := sorted_features (collect_features_set a) in
  generate_csv_assessment_results a
  = [[CStr "Video Name"; CStr "Video URI"; CStr "Overall Score";
      CStr "Passed Features"; CStr "Total Features";
      CStr "Dynamic Start - Detected"; CStr "Supers - Detected";
      CStr "Dynamic Start - Score"; CStr "Supers - Score";
      CStr "Dynamic Start - Explanation"; CStr "Supers - Explanation"];
     [CStr "ad.mp4"; CStr "gs://abcd-assets/Acme/videos/ad.mp4";
      CNum (5000 # 100); CInt 1; CInt 2;
      CStr "No"; CStr "Yes"; CInt 0; CInt 1; CStr ""; CStr ""]]
  /\ csv_row_feature_by_feature fl va
     = [CStr "ad.mp4"; CStr "gs://abcd-assets/Acme/videos/ad.mp4";
        CNum (5000 # 100); CInt 1; CInt 2;
        CStr "No"; CInt 0; CStr ""; CStr "Yes"; CInt 1; CStr ""]
  /\ csv_row fl va <> csv_row_feature_by_feature fl va.
Proof.
  split; [by vm_compute|]. split; [by vm_compute|]. by vm_compute.
Qed.

(** * More properties of the two files *)

(** ** Splitting and joining *)

Lemma split_nonempty (c : ascii) (s : string) : Py.split c s <> [].
Proof.
  destruct s as [|x s]; simpl; [done|].
  destruct (Ascii.eqb x c); [done|]. by destruct (Py.split c s).
Qed.

Lemma split_length (c : ascii) (s : string) :
  length (Py.split c s) = S (occurrences c s).
Proof.
  induction s as [|x s IH]; simpl; [done|].
  destruct (Ascii.eqb x c); simpl; [by rewrite IH|].
  pose proof (split_nonempty c s). by destruct (Py.split c s).
Qed.

Lemma occurrences_app (c : ascii) (a b : string) :
  occurrences c (a +:+ b) = (occurrences c a + occurrences c b)%nat.
Proof.
  induction a as [|x a IH]; [done|].
  rewrite string_app_cons. simpl. rewrite IH. lia.
Qed.

Lemma split_without (c : ascii) (s : string) :
  occurrences c s = 0%nat -> Py.split c s = [s].
Proof.
  induction s as [|x s IH]; simpl; [done|].
  destruct (Ascii.eqb x c); [discriminate|]. simpl. intros H0. by rewrite IH.
Qed.

Lemma split_app (c : ascii) (a b : string) :
  Py.split c (a +:+ String c b) = Py.split c a ++ Py.split c b.
Proof.
  induction a as [|x a IH].
  - rewrite string_app_nil. simpl. by rewrite Ascii.eqb_refl.
  - rewrite string_app_cons. simpl. rewrite IH.
    destruct (Ascii.eqb x c); [done|].
    pose proof (split_nonempty c a). by destruct (Py.split c a).
Qed.

Lemma split_parts_without (c : ascii) (s : string) :
  Forall (fun p => occurrences c p = 0%nat) (Py.split c s).
Proof.
  induction s as [|x s IH]; simpl; [by repeat constructor|].
  destruct (Ascii.eqb x c) eqn:E; [by constructor|].
  pose proof (split_nonempty c s).
  destruct (Py.split c s) as [|w ws]; [done|].
  apply Forall_cons in IH as [Hw Hws]. constructor; [|done]. simpl. by rewrite E.
Qed.

Lemma join_with_cons (c : ascii) (p : string) (ps : list string) :
  ps <> [] -> join_with c (p :: ps) = p +:+ String c (join_with c ps).
Proof. by destruct ps. Qed.

Lemma join_split (c : ascii) (s : string) : join_with c (Py.split c s) = s.
Proof.
  induction s as [|x s IH]; simpl; [done|].
  pose proof (split_nonempty c s) as Hne.
  destruct (Ascii.eqb_spec x c) as [->|Hx].
  - by rewrite join_with_cons, IH.
  - destruct (Py.split c s) as [|w ws]; [done|].
    destruct ws as [|w' ws].
    + simpl in *. by rewrite IH.
    + rewrite join_with_cons by done. rewrite join_with_cons in IH by done.
      by rewrite string_app_cons, IH.
Qed.

Lemma split_hd_prefix (c : ascii) (s : string) :
  exists rest, s = hd EmptyString (Py.split c s) +:+ rest.
Proof.
  pose proof (join_split c s) as Hj. pose proof (split_nonempty c s) as Hne.
  destruct (Py.split c s) as [|p [|p' ps]]; [done| |].
  - exists EmptyString. simpl in *. subst p. clear. induction s; [done|].
    by rewrite string_app_cons, <- IHs.
  - rewrite join_with_cons in Hj by done. simpl. eauto.
Qed.

Lemma split_hd_then_sep (c : ascii) (s : string) :
  s = hd EmptyString (Py.split c s)
  \/ exists rest, s = hd EmptyString (Py.split c s) +:+ String c rest.
Proof.
  pose proof (join_split c s) as Hj. pose proof (split_nonempty c s) as Hne.
  destruct (Py.split c s) as [|p [|p' ps]]; [done| |].
  - left. by simpl in *.
  - right. rewrite join_with_cons in Hj by done. simpl. eauto.
Qed.

Lemma split_hd_without (c : ascii) (s : string) :
  occurrences c (hd EmptyString (Py.split c s)) = 0%nat.
Proof.
  pose proof (split_parts_without c s) as Hall.
  destruct (Py.split c s); [done|]. by apply Forall_cons in Hall as [? _].
Qed.

Lemma occurrences_prefix_le (c : ascii) (a rest : string) :
  (occurrences c a <= occurrences c (a +:+ rest))%nat.
Proof. rewrite occurrences_app. lia. Qed.

Ltac count_occurrences :=
  repeat first [ progress rewrite !occurrences_app in *
               | progress simpl in * ].

(** ** File names and formats *)

(** X1: [get_file_name_from_gcs_url] gives a pair exactly for the names with
    two slashes.  The second name is what follows the second slash and has
    no slash; the first is its part before the first dot: it has no dot,
    and the second name is the first alone or the first, a dot and the
    rest. *)
Theorem file_names_of_a_resolved_name (gcs_url : string) :
  ((exists a b, get_file_name_from_gcs_url gcs_url = VPair a b)
   <-> occurrences "/" gcs_url = 2%nat)
  /\ forall a b,
       get_file_name_from_gcs_url gcs_url = VPair a b ->
       (exists p0 p1, gcs_url = p0 +:+ String "/" (p1 +:+ String "/" b))
       /\ occurrences "/" b = 0%nat
       /\ occurrences "." a = 0%nat
       /\ (b = a \/ exists rest, b = a +:+ String "." rest)
       /\ occurrences "/" a = 0%nat
       /\ String.prefix a b = true.
Proof.
  pose proof (split_length "/" gcs_url) as Hlen.
  pose proof (join_split "/" gcs_url) as Hjoin.
  pose proof (split_parts_without "/" gcs_url) as Hparts.
  unfold get_file_name_from_gcs_url.
  destruct (Py.split "/" gcs_url) as [|p0 [|p1 [|p2 [|p3 ps]]]]; simpl in Hlen.
  1,2,3,5: split; [split; [intros (a & b & Hab); discriminate | lia]
                  | intros a b Hab; discriminate].
  split; [split; [lia | eauto]|].
  intros a b [= <- <-].
  apply Forall_cons in Hparts as [_ Hparts].
  apply Forall_cons in Hparts as [_ Hparts].
  apply Forall_cons in Hparts as [Hp2 _].
  destruct (split_hd_prefix "." p2) as (rest & Hrest).
  split; [exists p0, p1; by rewrite <- Hjoin|]. split; [done|].
  split; [apply split_hd_without|].
  split; [apply split_hd_then_sep|]. split.
  - pose proof (occurrences_prefix_le "/" (hd EmptyString (Py.split "." p2)) rest).
    rewrite <- Hrest in *. lia.
  - rewrite Hrest at 2. apply prefix_app.
Qed.

Lemma file_names_witness :
  get_file_name_from_gcs_url "Acme/videos/my.ad.mp4" = VPair "my" "my.ad.mp4"
  /\ occurrences "." "my" = 0%nat
  /\ ("my.ad.mp4" = "my" \/ exists rest, "my.ad.mp4" = "my" +:+ String "." rest).
Proof.
  destruct (proj2 (file_names_of_a_resolved_name "Acme/videos/my.ad.mp4")
              "my" "my.ad.mp4" eq_refl) as (_ & _ & Hdot & Hstem & _).
  split; [reflexivity|]. by split.
Defined.

Lemma format_of_one_dot (file_name_with_format : string) :
  occurrences "." file_name_with_format = 1%nat ->
  hd EmptyString (Py.split "." file_name_with_format)
  +:+ String "." (get_video_format file_name_with_format)
  = file_name_with_format
  /\ occurrences "." (get_video_format file_name_with_format) = 0%nat.
Proof.
  pose proof (split_length "." file_name_with_format) as Hlen.
  pose proof (join_split "." file_name_with_format) as Hjoin.
  pose proof (split_parts_without "." file_name_with_format) as Hparts.
  unfold get_video_format.
  destruct (Py.split "." file_name_with_format) as [|p0 [|p1 [|p2 ps]]];
    simpl in Hlen; intros H1; try lia.
  simpl in *. split; [done|].
  apply Forall_cons in Hparts as [_ Hparts]. by apply Forall_cons in Hparts as [? _].
Qed.

(** X2: The stem and the format of a file name with exactly one dot put it
    together again; a file name with no dot or with several has the empty
    format. *)
Theorem stem_and_format_round_trip (file_name_with_format : string) :
  (occurrences "." file_name_with_format = 1%nat ->
   hd EmptyString (Py.split "." file_name_with_format)
   +:+ String "." (get_video_format file_name_with_format)
   = file_name_with_format
   /\ occurrences "." (get_video_format file_name_with_format) = 0%nat)
  /\ (occurrences "." file_name_with_format <> 1%nat ->
      get_video_format file_name_with_format = EmptyString).
Proof.
  split; [apply format_of_one_dot|].
  pose proof (split_length "." file_name_with_format) as Hlen.
  unfold get_video_format.
  destruct (Py.split "." file_name_with_format) as [|p0 [|p1 [|p2 ps]]];
    simpl in Hlen; intros H1; try lia; done.
Qed.

Lemma stem_and_format_witness :
  ("ad" +:+ String "." (get_video_format "ad.mp4") = "ad.mp4"
   /\ occurrences "." (get_video_format "ad.mp4") = 0%nat)
  /\ get_video_format "my.ad.mp4" = EmptyString
  /\ get_video_format "README" = EmptyString.
Proof.
  split; [exact (proj1 (stem_and_format_round_trip "ad.mp4") eq_refl)|].
  split; [apply (proj2 (stem_and_format_round_trip "my.ad.mp4")); by vm_compute|].
  apply (proj2 (stem_and_format_round_trip "README")). by vm_compute.
Defined.

(** ** The uri of a preview clip *)

(** X3: [get_n_secs_video_uri_from_uri] by the dots and slashes of its
    argument: without exactly one dot it gives the empty string; with one
    dot and other than five slashes before it, it reads a variable that
    no branch assigned; else it gives a uri. *)
Theorem n_secs_uri_cases (video_uri new_name_part : string) :
  (occurrences "." video_uri <> 1%nat ->
   get_n_secs_video_uri_from_uri video_uri new_name_part = Uri EmptyString)
  /\ (occurrences "." video_uri = 1%nat ->
      occurrences "/" (hd EmptyString (Py.split "." video_uri)) <> 5%nat ->
      get_n_secs_video_uri_from_uri video_uri new_name_part = UnboundLocalError)
  /\ (occurrences "." video_uri = 1%nat ->
      occurrences "/" (hd EmptyString (Py.split "." video_uri)) = 5%nat ->
      exists s, get_n_secs_video_uri_from_uri video_uri new_name_part = Uri s
                /\ occurrences "." s
                   = S (occurrences "." new_name_part)).
Proof.
  pose proof (split_length "." video_uri) as Hlen.
  pose proof (split_parts_without "." video_uri) as Hdots.
  unfold get_n_secs_video_uri_from_uri.
  destruct (Py.split "." video_uri) as [|p0 [|fmt [|p2 ps]]]; simpl in Hlen.
  1,2,4: repeat split; intros; try lia; done.
  apply Forall_cons in Hdots as [Hp0 Hdots]. apply Forall_cons in Hdots as [Hfmt _].
  simpl hd.
  pose proof (split_length "/" p0) as Hlen0.
  pose proof (join_split "/" p0) as Hjoin0.
  split; [intros; lia|].
  destruct (Py.split "/" p0) as [|q0 [|q1 [|q2 [|q3 [|q4 [|q5 [|q6 qs]]]]]]];
    simpl in Hlen0; (split; [intros _ H5|intros _ H5]); try lia; try done.
  eexists. split; [reflexivity|].
  simpl in Hjoin0. rewrite <- Hjoin0 in Hp0.
  count_occurrences. lia.
Qed.

Lemma n_secs_uri_witness :
  get_n_secs_video_uri_from_uri "gs://abcd-assets/Acme/videos/ad.mp4" "1st_5_secs"
  = Uri "gs://abcd-assets/Acme/videos/ad_1st_5_secs.mp4"
  /\ get_n_secs_video_uri_from_uri "Acme/videos/ad.mp4" "1st_5_secs"
     = UnboundLocalError
  /\ get_n_secs_video_uri_from_uri "gs://my.bucket/Acme/videos/ad.mp4" "1st_5_secs"
     = Uri EmptyString.
Proof.
  split; [reflexivity|]. split.
  - apply (proj1 (proj2 (n_secs_uri_cases "Acme/videos/ad.mp4" "1st_5_secs")));
      by vm_compute.
  - apply (proj1 (n_secs_uri_cases "gs://my.bucket/Acme/videos/ad.mp4" "1st_5_secs")).
    by vm_compute.
Defined.

Lemma split_join (c : ascii) (parts : list string) :
  parts <> [] ->
  Forall (fun p => occurrences c p = 0%nat) parts ->
  Py.split c (join_with c parts) = parts.
Proof.
  induction parts as [|p ps IH]; [done|]. intros _ Hall.
  apply Forall_cons in Hall as [Hp Hps].
  destruct ps as [|p' ps]; [by apply split_without|].
  rewrite join_with_cons by done. rewrite split_app, split_without by done.
  by rewrite IH.
Qed.

Ltac normalize_strings :=
  repeat first [ progress rewrite !string_app_assoc
               | progress rewrite !string_app_cons
               | progress rewrite !string_app_nil ].

(** X4: For a video directly in the videos folder of a brand, with one dot in
    its file name and no dot or slash in the names of the brand and of
    the bucket, [get_n_secs_video_uri_from_uri] of the uri that the
    assessment pass builds is the uri of the preview clip that
    [trim_videos] creates. *)
Theorem n_secs_uri_is_the_preview `{Config} (brand : string) (video : blob)
    (file : string) :
  occurrences "/" brand = 0%nat -> occurrences "." brand = 0%nat ->
  occurrences "/" BUCKET_NAME = 0%nat -> occurrences "." BUCKET_NAME = 0%nat ->
  occurrences "/" file = 0%nat -> occurrences "." file = 1%nat ->
  name video = (brand +:+ "/videos") +:+ "/" +:+ file ->
  exists stem path,
    resolve video = Some (stem, file)
    /\ preview_path (brand +:+ "/videos") video = Some path
    /\ get_n_secs_video_uri_from_uri
         ("gs://" +:+ BUCKET_NAME +:+ "/" +:+ name video) "1st_5_secs"
       = Uri ("gs://" +:+ BUCKET_NAME +:+ "/" +:+ path).
Proof.
  intros Hb1 Hb2 Hk1 Hk2 Hf1 Hf2 Hname.
  destruct (format_of_one_dot file Hf2) as [Hfile Hext].
  set (stem := hd EmptyString (Py.split "." file)) in *.
  set (ext := get_video_format file) in *.
  assert (occurrences "." stem = 0%nat) as Hs2 by apply split_hd_without.
  assert (occurrences "/" stem = 0%nat /\ occurrences "/" ext = 0%nat) as [Hs1 He1].
  { rewrite <- Hfile in Hf1. count_occurrences. lia. }
  assert (Py.split "/" (name video) = [brand; "videos"; file]) as Hsplit.
  { rewrite Hname.
    replace ((brand +:+ "/videos") +:+ "/" +:+ file)
      with (join_with "/" [brand; "videos"; file])
      by (simpl; by normalize_strings).
    apply split_join; [done|]. by repeat constructor. }
  assert (resolve video = Some (stem, file)) as Hres.
  { unfold resolve, get_file_name_from_gcs_url. by rewrite Hsplit. }
  exists stem, ((brand +:+ "/videos") +:+ "/" +:+ video_name_1st_5_secs_of stem file).
  split; [done|]. split; [unfold preview_path; by rewrite Hres|].
  unfold get_n_secs_video_uri_from_uri.
  replace ("gs://" +:+ BUCKET_NAME +:+ "/" +:+ name video)
    with (join_with "."
            [join_with "/" ["gs:"; ""; BUCKET_NAME; brand; "videos"; stem]; ext]).
  2:{ rewrite Hname, <- Hfile. simpl. by normalize_strings. }
  rewrite split_join; [|done|].
  2:{ repeat constructor; [|done]. simpl. count_occurrences. lia. }
  rewrite split_join; [|done|by repeat constructor].
  f_equal. unfold video_name_1st_5_secs_of. fold ext. by normalize_strings.
Qed.

Lemma n_secs_uri_is_the_preview_witness :
  let video := Blob "Acme/videos/ad.mp4" 4000000 in
  preview_path "Acme/videos" video = Some "Acme/videos/ad_1st_5_secs.mp4"
  /\ exists stem path,
       resolve video = Some (stem, "ad.mp4")
       /\ preview_path "Acme/videos" video = Some path
       /\ get_n_secs_video_uri_from_uri
            ("gs://" +:+ @BUCKET_NAME Sample.config +:+ "/" +:+ name video) "1st_5_secs"
          = Uri ("gs://" +:+ @BUCKET_NAME Sample.config +:+ "/" +:+ path).
Proof.
  split; [reflexivity|].
  by apply (@n_secs_uri_is_the_preview Sample.config "Acme"
              (Blob "Acme/videos/ad.mp4" 4000000) "ad.mp4").
Defined.

(** ** The trimming pass as a whole *)

Lemma insert_blob_In (b x : blob) (bs : list blob) :
  In x (insert_blob b bs) <-> x = b \/ In x bs.
Proof.
  destruct (insert_blob_split b bs) as (l1 & l2 & -> & ->).
  rewrite !in_app_iff. simpl. intuition.
Qed.

Section TrimPassAsAWhole.
Context `{Config}.
Variables lp folder : string.

(** The objects of the bucket before and after the loop. *)
Lemma trim_loop_objects (l : list blob) :
  forall w r w',
    trim_loop lp folder l w = (r, w') ->
    (forall b, In b (bucket w) -> In b (bucket w'))
    /\ (forall b, In b (bucket w') ->
          In b (bucket w)
          \/ exists video, In video l /\ skipped folder video = false
                           /\ preview_path folder video = Some (name b)).
Proof.
  induction l as [|video l IH]; intros w r w' Hrun.
  - rewrite trim_loop_nil in Hrun. injection Hrun as <- <-. split; auto.
  - rewrite trim_loop_cons in Hrun.
    destruct (trim_body_step lp folder video w)
      as [Hs|Hs Hr|a b path md Hs Hr Hp Hl|a b path sz Hs Hr Hp Hl Hsave Hcut
         |a b path e Hs Hr Hp Hl Hsave|a b path e Hs Hr Hp Hl Hsave Hcut].
    + apply IH in Hrun as [Hkeep Hnew]. split; [done|].
      intros b Hb. destruct (Hnew b Hb) as [?|(v & Hv & ?)]; [by left|].
      right. exists v. split; [by right | done].
    + injection Hrun as <- <-. split; auto.
    + apply IH in Hrun as [Hkeep Hnew]. simpl in *. split; [done|].
      intros b0 Hb. destruct (Hnew b0 Hb) as [?|(v & Hv & ?)]; [by left|].
      right. exists v. split; [by right | done].
    + apply IH in Hrun as [Hkeep Hnew]. simpl in *. split.
      * intros b0 Hb. apply Hkeep, insert_blob_In. by right.
      * intros b0 Hb. destruct (Hnew b0 Hb) as [Hin|(v & Hv & ?)].
        -- apply insert_blob_In in Hin as [->|Hin]; [|by left].
           right. exists video. split; [by left | done].
        -- right. exists v. split; [by right | done].
    + injection Hrun as <- <-. split; auto.
    + injection Hrun as <- <-. split; auto.
Qed.

(** After a loop that ends normally every video of the listing that is
    not skipped has its preview clip in the bucket. *)
Lemma trim_loop_completes (l : list blob) :
  forall w w',
    trim_loop lp folder l w = (Ok tt, w') ->
    forall video, In video l -> skipped folder video = false ->
    exists path md, preview_path folder video = Some path
                    /\ lookup_blob path (bucket w') = Some md.
Proof.
  induction l as [|video l IH]; intros w w' Hrun v Hin Hsv; [destruct Hin|].
  rewrite trim_loop_cons in Hrun.
  assert (forall w1 path,
            trim_loop lp folder l w1 = (Ok tt, w') ->
            In path (map name (bucket w1)) ->
            exists md, lookup_blob path (bucket w') = Some md) as Hstays.
  { intros w1 path Hrun1 Hpath.
    destruct (trim_loop_grows lp folder l _ _ _ Hrun1) as (Hsub & _).
    destruct (lookup_blob path (bucket w')) as [md|] eqn:E; [eauto|].
    apply lookup_blob_None in E. destruct E. by apply Hsub. }
  destruct (trim_body_step lp folder video w)
    as [Hs|Hs Hr|a b path md Hs Hr Hp Hl|a b path sz Hs Hr Hp Hl Hsave Hcut
       |a b path e Hs Hr Hp Hl Hsave|a b path e Hs Hr Hp Hl Hsave Hcut];
    try discriminate.
  - destruct Hin as [->|Hin]; [congruence | by eapply IH].
  - destruct Hin as [->|Hin]; [|by eapply IH].
    exists path. destruct (Hstays _ path Hrun) as (md' & Hmd'); [|eauto].
    simpl. apply lookup_blob_Some in Hl as [Hin <-]. by apply in_map.
  - destruct Hin as [->|Hin]; [|by eapply IH].
    exists path. destruct (Hstays _ path Hrun) as (md' & Hmd'); [|eauto].
    simpl. apply insert_blob_names. by left.
Qed.

End TrimPassAsAWhole.

(** X5: [trim_videos] ends normally when every candidate trims well: its
    name resolves and the disk and the video library do their work on
    it.  When it ends normally the name of every candidate resolves.
    When it raises, the exception is the [ValueError] of a candidate
    whose name does not resolve, or what the disk or the video library
    raised on a candidate for which the bucket still has no preview clip:
    run in sequence, the guarded upload is never what raises. *)
Theorem trim_videos_outcome `{Config} (brand : string) (w : world) :
  ((forall video, In video (candidates brand (bucket w)) ->
                  trims_well "abcd_videos" video = true) ->
   exists w', trim_videos brand w = (Ok tt, w'))
  /\ (forall w', trim_videos brand w = (Ok tt, w') ->
      forall video, In video (candidates brand (bucket w)) -> is_Some (resolve video))
  /\ (forall e w', trim_videos brand w = (Raise e, w') ->
      exists video,
        In video (candidates brand (bucket w))
        /\ ((resolve video = None /\ e = ValueError)
            \/ exists a b,
                 resolve video = Some (a, b)
                 /\ lookup_blob
                      ((brand +:+ "/videos") +:+ "/" +:+ video_name_1st_5_secs_of a b)
                      (bucket w') = None
                 /\ (write_local_file ("abcd_videos" +:+ "/" +:+ b) = Raise e
                     \/ write_subclip ("abcd_videos" +:+ "/" +:+ b)
                          ("abcd_videos" +:+ "/" +:+ video_name_1st_5_secs_of a b)
                          0 5
                        = Raise e))).
Proof.
  split; [apply trim_videos_ok|]. split.
  - intros w'. apply trim_videos_normal_resolves.
  - intros e w'. rewrite trim_videos_loop. intros Hrun.
    apply trim_loop_raises in Hrun as (video & Hin & Hs & Hcase).
    exists video. split; [by apply not_skipped_candidate | done].
Qed.

Lemma trim_videos_outcome_witness :
  (exists w', @trim_videos Sample.config "Acme" (Sample.world_of Sample.mixed_bucket)
              = (Ok tt, w'))
  /\ fst (@trim_videos Sample.config "Acme" (Sample.world_of Sample.nested_bucket))
     = Raise ValueError
  /\ fst (@trim_videos Sample.config "Acme" (Sample.world_of Sample.dotted_bucket))
     = Raise ValueError
  /\ fst (@trim_videos Sample.config "Acme" (Sample.world_of Sample.short_bucket))
     = Raise OSError
  /\ fst (@trim_videos Sample.config "Acme"
            (Sample.world_of [Blob "Acme/videos-old/" 0]))
     = Raise IsADirectoryError.
Proof.
  split; [|by repeat split].
  apply (proj1 (@trim_videos_outcome Sample.config "Acme"
                  (Sample.world_of Sample.mixed_bucket))).
  intros video Hin. vm_compute in Hin.
  destruct Hin as [<-|[<-|[]]]; reflexivity.
Defined.

(** X6: [trim_videos] deletes and replaces nothing: every object is still in
    the bucket afterwards, every new object sits at the preview path of a
    candidate, and distinct names stay distinct.  When the pass ends
    normally every candidate has its preview clip in the bucket. *)
Theorem trim_videos_keeps_and_completes `{Config} (brand : string) (w : world)
    (r : result unit) (w' : world) :
  trim_videos brand w = (r, w') ->
  (forall b, In b (bucket w) -> In b (bucket w'))
  /\ (forall b, In b (bucket w') ->
        In b (bucket w)
        \/ exists video, In video (candidates brand (bucket w))
                         /\ preview_path (brand +:+ "/videos") video = Some (name b))
  /\ (NoDup (map name (bucket w)) -> NoDup (map name (bucket w')))
  /\ (r = Ok tt ->
      forall video, In video (candidates brand (bucket w)) ->
      exists path md, preview_path (brand +:+ "/videos") video = Some path
                      /\ lookup_blob path (bucket w') = Some md).
Proof.
  intros Hrun.
  destruct (trim_videos_candidates _ _ _ _ Hrun) as [_ Hnd].
  rewrite trim_videos_over_candidates in Hrun.
  destruct (trim_loop_objects _ _ _ _ _ _ Hrun) as [Hkeep Hnew].
  split; [done|]. split.
  { intros b Hb. destruct (Hnew b Hb) as [?|(v & Hv & _ & Hp)]; eauto. }
  split; [done|].
  intros -> video Hin.
  eapply trim_loop_completes; eauto.
  unfold candidates in Hin. apply List.filter_In in Hin as [_ Hs].
  by apply negb_true_iff in Hs.
Qed.

Lemma trim_videos_keeps_witness :
  let w := Sample.world_of Sample.mixed_bucket in
  let w' := snd (@trim_videos Sample.config "Acme" w) in
  map name (bucket w')
  = ["Acme/videos/"; "Acme/videos/ad.mp4"; "Acme/videos/ad_1st_5_secs.mp4";
     "Acme/videos/long.mp4"; "Acme/videos/long_1st_5_secs.mp4"]
  /\ (forall b, In b (bucket w) -> In b (bucket w'))
  /\ forall video, In video (candidates "Acme" (bucket w)) ->
     exists path md, preview_path "Acme/videos" video = Some path
                     /\ lookup_blob path (bucket w') = Some md.
Proof.
  intros w w'. split; [by vm_compute|].
  destruct (@trim_videos_keeps_and_completes Sample.config "Acme" w (Ok tt) w')
    as (Hkeep & _ & _ & Hdone); [by vm_compute|].
  split; [exact Hkeep | by apply Hdone].
Defined.

Lemma string_length_app (a b : string) :
  String.length (a +:+ b) = (String.length a + String.length b)%nat.
Proof.
  induction a as [|x a IH]; [done|]. rewrite string_app_cons. simpl. by rewrite IH.
Qed.

Lemma string_app_cancel_r (c a b : string) : a +:+ c = b +:+ c -> a = b.
Proof.
  revert b. induction a as [|x a IH]; intros [|y b] E.
  - done.
  - apply (f_equal String.length) in E.
    rewrite string_app_nil, string_app_cons in E. simpl in E.
    rewrite string_length_app in E. lia.
  - apply (f_equal String.length) in E.
    rewrite string_app_nil, string_app_cons in E. simpl in E.
    rewrite string_length_app in E. lia.
  - rewrite !string_app_cons in E. injection E as -> E. f_equal. by apply IH.
Qed.

Lemma resolve_stem (video : blob) (a b : string) :
  resolve video = Some (a, b) -> a = hd EmptyString (Py.split "." b).
Proof.
  unfold resolve, get_file_name_from_gcs_url.
  destruct (Py.split "/" (name video)) as [|p0 [|p1 [|p2 [|p3 ps]]]]; try discriminate.
  by intros [= <- <-].
Qed.

(** The clip name of a file name with one dot. *)
Lemma clip_name_of_one_dot (b : string) :
  occurrences "." b = 1%nat ->
  exists stem ext,
    b = stem +:+ "." +:+ ext
    /\ occurrences "." stem = 0%nat /\ occurrences "." ext = 0%nat
    /\ clip_name_of b = stem +:+ "_1st_5_secs." +:+ ext.
Proof.
  intros H1. destruct (format_of_one_dot b H1) as [Hb Hext].
  exists (hd EmptyString (Py.split "." b)), (get_video_format b).
  split; [by rewrite <- Hb at 1|]. split; [apply split_hd_without|]. by split.
Qed.

(** X7: the name of the preview clip, by the dots of the file name.  A
    file name with one dot, [stem.ext], has the clip [stem_1st_5_secs.ext],
    and two such file names with the same clip name are the same.  A file
    name with no dot or with several has a clip name that ends in a dot,
    with an empty extension, made of the part before the first dot only:
    all file names with that first part share it.  The preview path of
    a video is its folder and this name. *)
Theorem preview_names_by_dots (b : string) :
  (occurrences "." b = 1%nat ->
   exists stem ext,
     b = stem +:+ "." +:+ ext
     /\ occurrences "." stem = 0%nat /\ occurrences "." ext = 0%nat
     /\ clip_name_of b = stem +:+ "_1st_5_secs." +:+ ext)
  /\ (forall b', occurrences "." b = 1%nat -> occurrences "." b' = 1%nat ->
                 clip_name_of b = clip_name_of b' -> b = b')
  /\ (occurrences "." b <> 1%nat ->
      clip_name_of b = hd EmptyString (Py.split "." b) +:+ "_1st_5_secs.")
  /\ (forall folder video a,
        resolve video = Some (a, b) ->
        preview_path folder video = Some (folder +:+ "/" +:+ clip_name_of b)).
Proof.
  split; [apply clip_name_of_one_dot|]. split; [|split].
  - intros b' H1 H1' Heq.
    destruct (clip_name_of_one_dot b H1) as (s1 & e1 & -> & Hs1 & He1 & Hc1).
    destruct (clip_name_of_one_dot b' H1') as (s2 & e2 & -> & Hs2 & He2 & Hc2).
    rewrite Hc1, Hc2 in Heq.
    assert (forall s e, occurrences "." s = 0%nat -> occurrences "." e = 0%nat ->
              Py.split "." (s +:+ "_1st_5_secs." +:+ e) = [s +:+ "_1st_5_secs"; e])
      as Hsplit.
    { intros s e Hs He.
      replace (s +:+ "_1st_5_secs." +:+ e) with ((s +:+ "_1st_5_secs") +:+ String "." e)
        by by normalize_strings.
      rewrite split_app, !split_without; [done|done|].
      rewrite occurrences_app, Hs. reflexivity. }
    apply (f_equal (Py.split ".")) in Heq.
    rewrite !Hsplit in Heq by done. injection Heq as Hs He.
    apply string_app_cancel_r in Hs. by subst.
  - intros Hne. unfold clip_name_of, video_name_1st_5_secs_of.
    pose proof (split_length "." b) as Hlen. unfold get_video_format.
    destruct (Py.split "." b) as [|p0 [|p1 [|p2 ps]]]; simpl in Hlen; try done.
    lia.
  - intros folder video a Hr. unfold preview_path, clip_name_of. rewrite Hr.
    by rewrite (resolve_stem _ _ _ Hr).
Qed.

Lemma preview_names_witness :
  clip_name_of "ad.mp4" = "ad_1st_5_secs.mp4"
  /\ clip_name_of "spot.de.mp4" = "spot_1st_5_secs."
  /\ clip_name_of "spot.fr.mp4" = "spot_1st_5_secs."
  /\ clip_name_of "README" = "README_1st_5_secs."
  /\ preview_path "Acme/videos" (Blob "Acme/videos/ad.mp4" 4000000)
     = Some "Acme/videos/ad_1st_5_secs.mp4".
Proof.
  destruct (preview_names_by_dots "ad.mp4") as (_ & _ & _ & Hpath).
  destruct (preview_names_by_dots "spot.de.mp4") as (_ & _ & Hde & _).
  destruct (preview_names_by_dots "spot.fr.mp4") as (_ & _ & Hfr & _).
  destruct (preview_names_by_dots "README") as (_ & _ & Hnone & _).
  split; [reflexivity|]. split; [by apply Hde|]. split; [by apply Hfr|].
  split; [by apply Hnone|].
  by apply (Hpath "Acme/videos" (Blob "Acme/videos/ad.mp4" 4000000) "ad").
Defined.

(** ** The assessment pass as a whole *)

Section AssessmentPassAsAWhole.
Context `{Config} `{Detectors}.

Lemma assessment_body_brand ua ul brand c folder video acc w acc' w' :
  assessment_body ua ul brand c folder video acc w = (Ok acc', w') ->
  brand_name acc' = brand_name acc.
Proof.
  unfold assessment_body.
  destruct (skipped folder video); [by intros [= <- _]|].
  unfold bind at 1, lift at 1.
  destruct (Py.unpack2 _) as [[fn fnf]|e]; [|discriminate].
  destruct (String.eqb fn "" || String.eqb fnf "").
  { unfold bind, print, emit, ret. by intros [= <- _]. }
  unfold bind at 1, get_blob at 1.
  destruct (lookup_blob (name video) (bucket w)) as [md|]; [|discriminate].
  destruct (ul && over_size_limit (size md)).
  { unfold bind, print, emit, ret. by intros [= <- _]. }
  unfold assess_video, bind, print, emit, lift, ret. simpl.
  destruct (score_video _ _ _) as [va|e]; [|discriminate].
  destruct STORE_ASSESSMENT_RESULTS_LOCALLY; simpl; by intros [= <- _].
Qed.

Lemma assessment_loop_outcome ua ul brand c folder (l : list blob) :
  forall acc w r w',
    (forall b, In b l -> In b (bucket w)) ->
    for_fold l (assessment_body ua ul brand c folder) acc w = (r, w') ->
    bucket w' = bucket w
    /\ match r with
       | Ok acc' =>
           brand_name acc' = brand_name acc
           /\ (length (video_assessments acc')
               <= length (video_assessments acc) + length l)%nat
       | Raise e => e = ValueError
       end.
Proof.
  induction l as [|video l IH]; intros acc w r w' Hsub Hrun; simpl in Hrun.
  - injection Hrun as <- <-. split; [done|]. split; [done | lia].
  - unfold bind in Hrun.
    destruct (assessment_body_outcome ua ul brand c folder video acc w)
      as [(acc1 & w1 & Hok & Hb)|[Hraise _]].
    + apply lookup_blob_In, Hsub. by left.
    + rewrite Hok in Hrun.
      apply IH in Hrun as [Hb' Hr].
      2:{ intros b Hin. rewrite Hb. apply Hsub. by right. }
      split; [congruence|]. destruct r as [acc'|e]; [|done].
      destruct Hr as [Hn Hlen].
      pose proof (assessment_body_brand _ _ _ _ _ _ _ _ _ _ Hok) as Hn1.
      split; [congruence|].
      apply assessment_body_appends in Hok as [Hsame|(va & _ & Happ)].
      * rewrite Hsame in Hlen. simpl. lia.
      * rewrite Happ, length_app in Hlen. simpl in *. lia.
    + rewrite Hraise in Hrun. by injection Hrun as <- <-.
Qed.

End AssessmentPassAsAWhole.

(** X8: [execute_abcd_assessment_for_videos] never changes the bucket.  It
    returns a report under the brand's name with at most one entry for
    each object listed, and then the name of every candidate resolves;
    or it raises [ValueError], and nothing else, and then some
    candidate's name does not resolve. *)
Theorem assessment_pass_outcome `{Config} `{Detectors}
    (brand : string) (c : criteria) (ua ul : bool) (w : world) :
  let run := execute_abcd_assessment_for_videos brand c ua ul w in
  bucket (snd run) = bucket w
  /\ match fst run with
     | Ok a =>
         brand_name a = brand
         /\ (length (video_assessments a) <= length (listing brand (bucket w)))%nat
         /\ forall video, In video (candidates brand (bucket w)) ->
                          is_Some (resolve video)
     | Raise e =>
         e = ValueError
         /\ exists video, In video (candidates brand (bucket w))
                          /\ resolve video = None
     end.
Proof.
  intros run. unfold run. rewrite execute_assessment_loop.
  assert (forall b, In b (listing brand (bucket w)) -> In b (bucket w)) as Hsub.
  { intros b Hb. unfold listing in Hb. by apply List.filter_In in Hb as [Hb _]. }
  destruct (for_fold _ _ _ w) as [r w'] eqn:Hrun.
  destruct (assessment_loop_outcome _ _ _ _ _ _ _ _ _ _ Hsub Hrun) as [Hb Hr].
  split; [done|]. simpl.
  destruct (decide (Forall (fun video => is_Some (resolve video))
                      (candidates brand (bucket w)))) as [Hall|Hnot].
  - rewrite Forall_forall in Hall.
    destruct r as [a|e]; [destruct Hr as [Hn Hlen]; repeat split; try done|].
    + intros video Hin. by apply Hall, list_elem_of_In.
    + exfalso.
      assert (exists a w1, for_fold (listing brand (bucket w))
                (assessment_body ua ul brand c (brand +:+ "/videos"))
                (BrandAssessment brand []) w = (Ok a, w1)) as (a & w1 & Hok);
        [|congruence].
      clear Hrun Hr Hb. generalize (BrandAssessment brand []) as acc.
      assert (forall video, In video (listing brand (bucket w)) ->
                skipped (brand +:+ "/videos") video = false ->
                is_Some (resolve video)) as Hres.
      { intros video Hin Hs. apply Hall, list_elem_of_In. unfold candidates.
        apply List.filter_In. split; [done | by rewrite Hs]. }
      revert Hsub Hres. generalize (listing brand (bucket w)) as l.
      assert (forall (l : list blob) w0,
                (forall b, In b l -> In b (bucket w0)) ->
                (forall video, In video l ->
                   skipped (brand +:+ "/videos") video = false ->
                   is_Some (resolve video)) ->
                forall acc, exists a w1,
                  for_fold l (assessment_body ua ul brand c (brand +:+ "/videos"))
                    acc w0 = (Ok a, w1)) as Hgen; [|by intros; apply Hgen].
      induction l as [|video l IH]; intros w0 Hsub Hres acc; simpl; [by eexists _, _|].
      unfold bind.
      destruct (assessment_body_outcome ua ul brand c (brand +:+ "/videos")
                  video acc w0) as [(acc1 & w1 & Hok & Hb1)|(_ & Hs & Hr)].
      * apply lookup_blob_In, Hsub. by left.
      * rewrite Hok. apply IH.
        -- intros b Hin. rewrite Hb1. apply Hsub. by right.
        -- intros v Hin. apply Hres. by right.
      * destruct (Hres video) as [x Hx]; [by left | done | congruence].
  - apply not_Forall_Exists in Hnot; [|apply _].
    apply Exists_exists in Hnot as (video & Hin%list_elem_of_In & Hnone).
    assert (resolve video = None) as Hr0.
    { simpl in Hnone. destruct (resolve video); [by destruct Hnone|done]. }
    destruct r as [a|e]; [|split; [done | eauto]].
    exfalso. unfold candidates in Hin. apply List.filter_In in Hin as [Hin Hs].
    apply negb_true_iff in Hs.
    destruct (assessment_loop_unresolved ua ul brand c (brand +:+ "/videos")
                (listing brand (bucket w)) video Hin Hs Hr0
                (BrandAssessment brand []) w Hsub) as (w1 & Hraise).
    congruence.
Qed.

(** ** File names without a stem *)

Lemma split_hd_empty (c : ascii) (s : string) :
  hd EmptyString (Py.split c s) = EmptyString
  <-> s = EmptyString \/ exists rest, s = String c rest.
Proof.
  destruct s as [|x s]; simpl; [by split; [left|]|].
  destruct (Ascii.eqb_spec x c) as [->|Hx]; simpl.
  - split; [right; eauto | done].
  - pose proof (split_nonempty c s).
    destruct (Py.split c s) as [|p ps]; [done|]. simpl.
    split; [discriminate|]. intros [?|(rest & [= ? _])]; done.
Qed.

(** X9: The guard of the assessment pass fires exactly for the candidates
    whose file name is empty or begins with a dot: the pass prints that
    the name was not resolved and adds no assessment.  The trimming pass
    has no such guard: its turn for the same video goes on to look for
    the clip [_1st_5_secs.] with the format, and when there is none and
    the disk and the video library do their work it downloads the video
    and uploads that clip. *)
Theorem stemless_video_is_trimmed_but_not_assessed `{Config} `{Detectors}
    (ua ul : bool) (brand : string) (c : criteria) (lp folder : string)
    (video : blob) (a b : string) (acc : brand_assessment) (w : world) :
  skipped folder video = false ->
  resolve video = Some (a, b) ->
  let clip := "_1st_5_secs." +:+ get_video_format b in
  (String.eqb a "" || String.eqb b "" = true
   <-> b = EmptyString \/ exists rest, b = String "." rest)
  /\ (String.eqb a "" || String.eqb b "" = true ->
      assessment_body ua ul brand c folder video acc w
      = (Ok acc, World (bucket w) (trace w ++ [Print (MsgNotResolved (name video))]))
      /\ trim_videos_body lp folder video w
         = trim_unless_present lp folder video b clip
             (lookup_blob (folder +:+ "/" +:+ clip) (bucket w)) w
      /\ forall clip_size,
           lookup_blob (folder +:+ "/" +:+ clip) (bucket w) = None ->
           write_local_file (lp +:+ "/" +:+ b) = Ok tt ->
           write_subclip (lp +:+ "/" +:+ b) (lp +:+ "/" +:+ clip) 0 5 = Ok clip_size ->
           trim_videos_body lp folder video w
           = (Ok tt,
              World (insert_blob (Blob (folder +:+ "/" +:+ clip) clip_size) (bucket w))
                    (trace w ++ creation_trace lp folder video EmptyString b))).
Proof.
  intros Hs Hr clip. pose proof (resolve_stem _ _ _ Hr) as Ha.
  assert (String.eqb a "" || String.eqb b "" = true
          <-> b = EmptyString \/ exists rest, b = String "." rest) as Hguard.
  { rewrite orb_true_iff, !String.eqb_eq, Ha, split_hd_empty. split; [|tauto].
    intros [Hx| ->]; [exact Hx | by left]. }
  split; [exact Hguard|]. intros Hg.
  assert (a = EmptyString) as ->.
  { rewrite Ha. apply split_hd_empty. by apply Hguard. }
  split; [|split].
  - unfold assessment_body. rewrite Hs. unfold bind at 1, lift at 1.
    rewrite (unpack_resolved _ _ _ Hr). by destruct (String.eqb b "").
  - by rewrite (trim_body_resolved _ _ _ _ _ _ Hs Hr).
  - intros clip_size Hl Hsave Hcut.
    erewrite (trim_body_miss lp folder video "" b); eauto.
    unfold preview_path. by rewrite Hr.
Qed.

Lemma stemless_video_witness :
  let video := Blob "Acme/videos/.mp4" 1000000 in
  let w := Sample.world_of [Blob "Acme/videos/" 0; video] in
  resolve video = Some ("", ".mp4")
  /\ @assessment_body Sample.config Sample.detectors false true "Acme" Sample.acme
       "Acme/videos" video (BrandAssessment "Acme" []) w
     = (Ok (BrandAssessment "Acme" []),
        World (bucket w) [Print (MsgNotResolved "Acme/videos/.mp4")])
  /\ map name (bucket (snd (@trim_videos_body Sample.config "abcd_videos"
                              "Acme/videos" video w)))
     = ["Acme/videos/"; "Acme/videos/.mp4"; "Acme/videos/_1st_5_secs.mp4"].
Proof.
  intros video w. split; [reflexivity|].
  destruct (@stemless_video_is_trimmed_but_not_assessed Sample.config
              Sample.detectors false true "Acme" Sample.acme "abcd_videos"
              "Acme/videos" video "" ".mp4" (BrandAssessment "Acme" []) w
              eq_refl eq_refl) as [_ Hboth].
  destruct (Hboth eq_refl) as (Hassess & _ & Htrim).
  split; [exact Hassess|]. by rewrite (Htrim 350000 eq_refl eq_refl eq_refl).
Defined.

(** ** Scores and bands of the pipeline *)

Lemma well_scored_percentage (va : video_assessment) :
  well_scored va ->
  (0 <= score va)%Q /\ (score va <= 100)%Q
  /\ ((score va == 100)%Q
      <-> passed_features_count va = Z.of_nat (length (features va)))
  /\ ((score va == 0)%Q <-> passed_features_count va = 0).
Proof.
  intros (Hcount & Hle & Hpos & Hscore).
  assert (0 <= passed_features_count va) as Hp0 by lia.
  revert Hle Hpos Hscore.
  generalize (Z.of_nat (length (features va))) as t.
  generalize dependent (passed_features_count va).
  intros p _ Hp0 t Hle Hpos Hscore.
  destruct t as [|t|t]; try lia.
  assert (score va == (100 * p) # t)%Q as Hq.
  { rewrite Hscore. unfold Qeq, Qdiv, Qmult, Qinv, inject_Z. simpl. lia. }
  rewrite !Hq. unfold Qle, Qeq. simpl. repeat split; intros; nia.
Qed.

Lemma filter_keeps_all {A} (P : A -> bool) (l : list A) :
  length (List.filter P l) = length l <-> Forall (fun x => P x = true) l.
Proof.
  induction l as [|x l IH]; simpl; [by split|].
  pose proof (List.filter_length_le P l) as Hle.
  rewrite Forall_cons. destruct (P x); simpl.
  - rewrite <- IH. split; [intros [= E]; by split | intros [_ E]; by rewrite E].
  - split; [lia | by intros [? _]].
Qed.

Lemma filter_keeps_none {A} (P : A -> bool) (l : list A) :
  length (List.filter P l) = 0%nat <-> Forall (fun x => P x = false) l.
Proof.
  induction l as [|x l IH]; simpl; [by split|].
  rewrite Forall_cons. destruct (P x); simpl.
  - split; [discriminate | by intros [? _]].
  - rewrite <- IH. tauto.
Qed.

(** X10: The score that [score_video] gives is a percentage: between 0 and
    100, 100 exactly when every feature is detected and 0 exactly when
    none is. *)
Theorem score_is_a_percentage (file uri : string) (fs : list feature_result)
    (va : video_assessment) :
  score_video file uri fs = Ok va ->
  (0 <= score va)%Q /\ (score va <= 100)%Q
  /\ ((score va == 100)%Q
      <-> Forall (fun f => feature_detected f = true) fs)
  /\ ((score va == 0)%Q
      <-> Forall (fun f => feature_detected f = false) fs).
Proof.
  intros Hs.
  assert (features va = fs) as Hf.
  { unfold score_video in Hs. destruct (Py.truediv _ _); [|discriminate].
    by injection Hs as <-. }
  pose proof (score_video_well_scored _ _ _ _ Hs) as Hw.
  destruct (well_scored_percentage va Hw) as (H0 & H100 & Hall & Hnone).
  destruct Hw as (Hcount & _). rewrite Hf in *.
  split; [done|]. split; [done|]. split.
  - rewrite Hall, Hcount, <- filter_keeps_all. lia.
  - rewrite Hnone, Hcount, <- filter_keeps_none. lia.
Qed.

Lemma score_is_a_percentage_witness :
  exists va,
    score_video "ad.mp4" "gs://abcd-assets/Acme/videos/ad.mp4"
      [Sample.yes "Supers"; Sample.no "Dynamic Start"; Sample.yes "Quick Pacing"]
    = Ok va
    /\ (0 <= score va)%Q /\ (score va <= 100)%Q.
Proof.
  eexists. split; [reflexivity|].
  match goal with
  | |- (0 <= score ?va)%Q /\ _ =>
      destruct (score_is_a_percentage "ad.mp4" "gs://abcd-assets/Acme/videos/ad.mp4"
                  [Sample.yes "Supers"; Sample.no "Dynamic Start";
                   Sample.yes "Quick Pacing"] va eq_refl) as (H0 & H100 & _)
  end.
  by split.
Defined.

Lemma bands_by_count_on_23 (va : video_assessment) (p : Z) :
  0 <= p <= 23 ->
  score va = (inject_Z (p * 100) / inject_Z 23)%Q ->
  print_abcd_assetssments_band va
  = (if 19 <=? p then Excellent else if 15 <=? p then MightImprove else NeedsReview)
  /\ format_assessment_results_band va = print_abcd_assetssments_band va.
Proof.
  intros Hp Hscore.
  unfold format_assessment_results_band, print_abcd_assetssments_band.
  rewrite Hscore.
  assert (p = 0 \/ p = 1 \/ p = 2 \/ p = 3 \/ p = 4 \/ p = 5 \/ p = 6 \/ p = 7
          \/ p = 8 \/ p = 9 \/ p = 10 \/ p = 11 \/ p = 12 \/ p = 13 \/ p = 14
          \/ p = 15 \/ p = 16 \/ p = 17 \/ p = 18 \/ p = 19 \/ p = 20 \/ p = 21
          \/ p = 22 \/ p = 23) as Hcases by lia.
  repeat (destruct Hcases as [->|Hcases]; [by vm_compute|]).
  subst p. by vm_compute.
Qed.

(** X11: For the 23 features of the pipeline the bands are ranges of the
    number of detected features: 19 or more is excellent, 15 to 18 might
    improve, 14 or fewer needs review, on the console and in the digest
    alike. *)
Theorem bands_by_detected_count `{Detectors}
    (ua : bool) (brand : string) (c : criteria) (vn vnf uri : string) :
  exists va,
    score_video vnf uri (detect_features ua brand c vn uri) = Ok va
    /\ 0 <= passed_features_count va <= 23
    /\ print_abcd_assetssments_band va
       = (if 19 <=? passed_features_count va then Excellent
          else if 15 <=? passed_features_count va then MightImprove
          else NeedsReview)
    /\ format_assessment_results_band va = print_abcd_assetssments_band va.
Proof.
  pose proof (detect_features_length ua brand c vn uri) as Hlen.
  pose proof (count_passed_bounds (detect_features ua brand c vn uri)) as Hp.
  rewrite Hlen in Hp.
  unfold score_video, Py.truediv. rewrite Hlen. simpl.
  eexists. split; [reflexivity|]. simpl. split; [lia|].
  by apply (bands_by_count_on_23 _ (count_passed (detect_features ua brand c vn uri))).
Qed.

(** ** The detector as a whole *)

(** X12: When [execute_abcd_detector] returns a report, the bucket still holds
    every object it held, and every candidate has its preview clip. *)
Theorem returned_report_has_previews `{Config} `{Detectors}
    (brand : string) (c : criteria) (ua ul : bool) (w : world)
    (a : brand_assessment) (w' : world) :
  execute_abcd_detector brand c ua ul w = (Ok a, w') ->
  brand_name a = brand
  /\ (forall b, In b (bucket w) -> In b (bucket w'))
  /\ forall video, In video (candidates brand (bucket w)) ->
     exists path md, preview_path (brand +:+ "/videos") video = Some path
                     /\ lookup_blob path (bucket w') = Some md.
Proof.
  rewrite execute_abcd_detector_steps.
  assert (bucket (after_annotations ua brand w) = bucket w) as Hb0.
  { unfold after_annotations. by destruct ua. }
  destruct (trim_videos brand (after_annotations ua brand w)) as [[[]|e] w1] eqn:Htrim;
    [|discriminate].
  rewrite execute_assessment_loop.
  destruct (for_fold _ _ _ w1) as [[a1|e] w2] eqn:Hrun; [|discriminate].
  assert (forall b, In b (listing brand (bucket w1)) -> In b (bucket w1)) as Hsub.
  { intros b Hb. unfold listing in Hb. by apply List.filter_In in Hb as [Hb _]. }
  destruct (assessment_loop_outcome _ _ _ _ _ _ _ _ _ _ Hsub Hrun) as [Hb2 [Hn _]].
  destruct (Nat.eqb _ 0); [discriminate|].
  destruct (print_abcd_assetssments_ok a1 brand w2) as (w3 & Hprint & Hb3).
  rewrite Hprint. intros [= <- <-].
  rewrite trim_videos_over_candidates, Hb0 in Htrim.
  destruct (trim_loop_objects _ _ _ _ _ _ Htrim) as [Hkeep _].
  rewrite Hb0 in Hkeep.
  split; [done|]. split.
  - intros b Hb. rewrite Hb3, Hb2. by apply Hkeep.
  - intros video Hin. rewrite Hb3, Hb2.
    eapply trim_loop_completes; eauto.
    unfold candidates in Hin. apply List.filter_In in Hin as [_ Hs].
    by apply negb_true_iff in Hs.
Qed.

Lemma returned_report_witness :
  let w := Sample.world_of Sample.mixed_bucket in
  exists a w',
    @execute_abcd_detector Sample.config Sample.detectors "Acme" Sample.acme
      false true w = (Ok a, w')
    /\ map video_name (video_assessments a) = ["ad.mp4"]
    /\ forall video, In video (candidates "Acme" (bucket w)) ->
       exists path md, preview_path "Acme/videos" video = Some path
                       /\ lookup_blob path (bucket w') = Some md.
Proof.
  intros w. eexists _, _. split; [by vm_compute|]. split; [reflexivity|].
  eapply (@returned_report_has_previews Sample.config Sample.detectors
            "Acme" Sample.acme false true w). by vm_compute.
Defined.

(** ** The matrix as a whole *)

(** X13: The matrix is rectangular: a header and one row for each video, all
    of five cells and three for each feature name. *)
Theorem csv_is_rectangular (a : brand_assessment) :
  let width := (5 + 3 * length (sorted_features (collect_features_set a)))%nat in
  length (generate_csv_assessment_results a) = S (length (video_assessments a))
  /\ Forall (fun row => length row = width) (generate_csv_assessment_results a).
Proof.
  unfold generate_csv_assessment_results. simpl. rewrite length_map.
  split; [done|]. constructor.
  - unfold csv_header. rewrite !length_app, !length_map. simpl. lia.
  - apply Forall_forall. intros row Hrow.
    apply list_elem_of_In, in_map_iff in Hrow as (va & <- & _).
    rewrite csv_row_blocks, !length_app, !length_map. simpl. lia.
Qed.

(** ** Explanations in the matrix *)

Lemma occurrences_replace_other (c old : ascii) (new s : string) :
  c <> old ->
  occurrences c (Py.replace old new s)
  = (occurrences c s + occurrences old s * occurrences c new)%nat.
Proof.
  intros Hne. induction s as [|x s IH]; simpl; [done|].
  destruct (Ascii.eqb_spec x old) as [->|Hx].
  - rewrite occurrences_app, IH.
    destruct (Ascii.eqb_spec old c) as [->|_]; [done | lia].
  - simpl. rewrite IH. lia.
Qed.

Lemma occurrences_replace_same (old : ascii) (new s : string) :
  occurrences old (Py.replace old new s)
  = (occurrences old s * occurrences old new)%nat.
Proof.
  induction s as [|x s IH]; simpl; [done|].
  destruct (Ascii.eqb_spec x old) as [->|Hx].
  - rewrite occurrences_app, IH. lia.
  - simpl. destruct (Ascii.eqb_spec x old); [done|]. rewrite IH. lia.
Qed.

(** X14: A cleaned explanation has no newline, and twice the quote characters
    of the explanation. *)
Theorem cleaned_explanation_fits_a_row (explanation : string) :
  occurrences newline (clean_explanation explanation) = 0%nat
  /\ occurrences double_quote (clean_explanation explanation)
     = (2 * occurrences double_quote explanation)%nat.
Proof.
  unfold clean_explanation. split.
  - rewrite occurrences_replace_other by done.
    rewrite occurrences_replace_same. simpl. lia.
  - rewrite occurrences_replace_same.
    rewrite occurrences_replace_other by done. simpl. lia.
Qed.

(** ** The flags of a row and the passed count *)

Lemma last_named_own (fs : list feature_result) (f : feature_result) :
  NoDup (map feature fs) -> In f fs -> last_named (feature f) fs = Some f.
Proof.
  induction fs as [|g fs IH]; intros Hnd Hin; [destruct Hin|].
  simpl in Hnd. apply NoDup_cons in Hnd as [Hg Hnd].
  rewrite last_named_cons. destruct Hin as [->|Hin].
  - rewrite last_named_none; [by rewrite String.eqb_refl|].
    intros h Hh Heq. apply Hg. rewrite <- Heq. apply list_elem_of_In. by apply in_map.
  - by rewrite IH.
Qed.

Lemma last_named_in (n : string) (fs : list feature_result) (f : feature_result) :
  last_named n fs = Some f -> In f fs /\ feature f = n.
Proof.
  unfold last_named. intros Hf. apply List.find_some in Hf as [Hin Heq].
  split; [by apply in_rev | by apply String.eqb_eq].
Qed.

Lemma yes_flags_count (d : string -> bool) (fl : list string) :
  length (List.filter is_yes
            (map (fun n => CStr (if d n then "Yes" else "No")) fl))
  = length (List.filter d fl).
Proof.
  induction fl as [|n fl IH]; simpl; [done|].
  destruct (d n); simpl; by rewrite IH.
Qed.

Lemma filter_length_ext {A} (p q : A -> bool) (l : list A) :
  (forall x, In x l -> p x = q x) ->
  length (List.filter p l) = length (List.filter q l).
Proof.
  induction l as [|x l IH]; intros Hext; simpl; [done|].
  rewrite (Hext x) by (by left). destruct (q x); simpl; rewrite IH; auto.
  - intros y Hy. apply Hext. by right.
  - intros y Hy. apply Hext. by right.
Qed.

Lemma filter_map_length {A B} (g : A -> B) (p : B -> bool) (l : list A) :
  length (List.filter p (map g l)) = length (List.filter (fun x => p (g x)) l).
Proof.
  induction l as [|x l IH]; simpl; [done|]. destruct (p (g x)); simpl; by rewrite IH.
Qed.

(** X15: For a video whose features have distinct names the flags of its row
    that say Yes are as many as its detected features: the flags agree
    with the passed count of a well scored video.  *)
Theorem yes_flags_are_the_passed_count (a : brand_assessment) (va : video_assessment) :
  In va (video_assessments a) ->
  NoDup (map feature (features va)) ->
  let fl := sorted_features (collect_features_set a) in
  Z.of_nat (length (List.filter is_yes (flag_cells (length fl) (csv_row fl va))))
  = count_passed (features va).
Proof.
  intros Hin Hnd fl. rewrite count_passed_filter. f_equal.
  assert (flag_cells (length fl) (csv_row fl va)
          = map (fun n => CStr (if detected_in va n then "Yes" else "No")) fl) as ->.
  { unfold flag_cells. rewrite csv_row_blocks. unfold leading_cells.
    change (drop 5 ([?c0; ?c1; ?c2; ?c3; ?c4] ++ ?rest)) with rest.
    rewrite take_app_length'; [done | by rewrite length_map]. }
  rewrite yes_flags_count.
  transitivity (length (List.filter (detected_in va) (map feature (features va)))).
  - apply Permutation_length, NoDup_Permutation.
    + apply NoDup_ListNoDup, List.NoDup_filter, NoDup_ListNoDup, sorted_features_nodup.
    + apply NoDup_ListNoDup, List.NoDup_filter, NoDup_ListNoDup, Hnd.
    + intros n. rewrite !list_elem_of_In, !List.filter_In.
      split; intros [Hn Hd]; (split; [|done]).
      * unfold detected_in in Hd.
        destruct (last_named n (features va)) as [f|] eqn:Hf; [|discriminate].
        apply last_named_in in Hf as [Hf <-]. by apply in_map.
      * apply list_elem_of_In, sorted_features_elem, collect_features_set_spec.
        apply in_map_iff in Hn as (f & <- & Hf). by exists va, f.
  - rewrite filter_map_length. apply filter_length_ext.
    intros f Hf. unfold detected_in. by rewrite last_named_own.
Qed.

Lemma yes_flags_witness :
  let first :=
    VideoAssessment "ad.mp4" "gs://abcd-assets/Acme/videos/ad.mp4"
      [Sample.yes "Supers"; Sample.no "Dynamic Start"; Sample.yes "Quick Pacing"]
      2 (200 # 3) in
  let second :=
    VideoAssessment "long.mp4" "gs://abcd-assets/Acme/videos/long.mp4"
      [Sample.yes "Overall Pacing"] 1 100 in
  let a := BrandAssessment "Acme" [first; second] in
  let fl := sorted_features (collect_features_set a) in
  flag_cells (length fl) (csv_row fl first)
  = [CStr "No"; CStr "No"; CStr "Yes"; CStr "Yes"]
  /\ Z.of_nat (length (List.filter is_yes (flag_cells (length fl) (csv_row fl first))))
     = count_passed (features first).
Proof.
  intros first second a fl. split; [by vm_compute|].
  apply (yes_flags_are_the_passed_count a first); [by left|].
  apply (bool_decide_unpack _). by vm_compute.
Defined.

(** ** The console and the digest *)

Lemma for_each_prints {A} (l : list A) (msg : A -> message) (w : world) :
  for_each l (fun x => print (msg x)) w
  = (Ok tt, World (bucket w) (trace w ++ map (fun x => Print (msg x)) l)).
Proof.
  unfold for_each. revert w. induction l as [|x l IH]; intros w; simpl.
  - rewrite app_nil_r. by destruct w.
  - unfold bind, print, emit at 1. simpl. rewrite IH. simpl.
    by rewrite <- app_assoc.
Qed.

Section ConsoleAndDigest.
Context `{Config}.

Lemma print_video_assessment_trace (brand : string) (va : video_assessment) w :
  print_video_assessment brand va w
  = (Ok tt, World (bucket w) (trace w ++ video_console_trace brand va)).
Proof.
  unfold print_video_assessment, video_console_trace, bind, print, emit. simpl.
  rewrite (for_each_prints (features va)
             (fun f => MsgFeature (feature_detected f) (feature f))). simpl.
  by rewrite <- !app_assoc.
Qed.

Lemma print_videos_trace (brand : string) (vas : list video_assessment) w :
  for_each vas (print_video_assessment brand) w
  = (Ok tt, World (bucket w)
                  (trace w ++ concat (map (video_console_trace brand) vas))).
Proof.
  unfold for_each. revert w. induction vas as [|va vas IH]; intros w; simpl.
  - rewrite app_nil_r. by destruct w.
  - unfold bind. rewrite print_video_assessment_trace, IH. simpl.
    by rewrite <- app_assoc.
Qed.

Lemma print_abcd_assetssments_trace (a : brand_assessment) (brand : string) w :
  print_abcd_assetssments a brand w
  = (Ok tt, World (bucket w) (trace w ++ console_trace a brand)).
Proof.
  unfold print_abcd_assetssments, console_trace, bind, print, emit. simpl.
  rewrite print_videos_trace. simpl. by rewrite <- app_assoc.
Qed.

Lemma digest_of_video_console (brand : string) (va : video_assessment) :
  format_assessment_results_band va = print_abcd_assetssments_band va ->
  omap digest_line_of (video_console_trace brand va) = format_video_assessment va.
Proof.
  intros Hband. unfold video_console_trace, format_video_assessment.
  rewrite omap_app. simpl. rewrite Hband. do 4 f_equal.
  induction (features va) as [|f fs IH]; [done|]. simpl. f_equal. exact IH.
Qed.

Lemma digest_of_videos_console (brand : string) (vas : list video_assessment) :
  (forall va, In va vas ->
     format_assessment_results_band va = print_abcd_assetssments_band va) ->
  omap digest_line_of (concat (map (video_console_trace brand) vas))
  = concat (map format_video_assessment vas).
Proof.
  induction vas as [|va vas IH]; intros Hbands; [done|].
  change (concat (map (video_console_trace brand) (va :: vas)))
    with (video_console_trace brand va
          ++ concat (map (video_console_trace brand) vas)).
  change (concat (map format_video_assessment (va :: vas)))
    with (format_video_assessment va ++ concat (map format_video_assessment vas)).
  rewrite omap_app, digest_of_video_console, IH; [done| |].
  - intros v Hv. apply Hbands. by right.
  - apply Hbands. by left.
Qed.

End ConsoleAndDigest.

(** X16: [print_abcd_assetssments] never fails and leaves the bucket alone.
    Apart from one [player] line for each video it prints, line for line,
    what the digest of [format_assessment_results] shows, provided no
    score is rounded across a threshold. *)
Theorem console_shows_the_digest `{Config} (a : brand_assessment) (brand : string)
    (w : world) :
  exists tr,
    print_abcd_assetssments a brand w = (Ok tt, World (bucket w) (trace w ++ tr))
    /\ ((forall va, In va (video_assessments a) ->
           format_assessment_results_band va = print_abcd_assetssments_band va) ->
        omap digest_line_of tr = format_assessment_results a).
Proof.
  exists (console_trace a brand). split; [apply print_abcd_assetssments_trace|].
  intros Hbands. unfold console_trace, format_assessment_results.
  change (omap digest_line_of (Print (MsgHeading (brand_name a)) :: ?l))
    with (DHeading (brand_name a) :: omap digest_line_of l).
  f_equal. by apply digest_of_videos_console.
Qed.

Lemma console_shows_the_digest_witness :
  let va :=
    VideoAssessment "ad.mp4" "gs://abcd-assets/Acme/videos/ad.mp4"
      [Sample.yes "Supers"; Sample.no "Dynamic Start"] 1 50 in
  let a := BrandAssessment "Acme" [va] in
  format_assessment_results a
  = [DHeading "Acme"; DAssetName "ad.mp4"; DVideoScore (5000 # 100) 1 2;
     DAssetResult NeedsReview; DEvaluatedFeatures;
     DFeature true "Supers"; DFeature false "Dynamic Start"]
  /\ exists tr,
       @print_abcd_assetssments Sample.config a "Acme" (Sample.world_of [])
       = (Ok tt, World [] tr)
       /\ omap digest_line_of tr = format_assessment_results a.
Proof.
  intros va a. split; [by vm_compute|].
  destruct (@console_shows_the_digest Sample.config a "Acme" (Sample.world_of []))
    as (tr & Hrun & Hsame).
  exists tr. split; [exact Hrun|].
  apply Hsame. intros v [<-|[]]. by vm_compute.
Defined.

(** ** Uploads *)

Lemma last_Forall {A} (P : A -> Prop) (l : list A) (d : A) :
  l <> [] -> Forall P l -> P (List.last l d).
Proof.
  induction l as [|x l IH]; [done|]. intros _ Hall.
  apply Forall_cons in Hall as [Hx Hl].
  destruct l as [|y l]; [exact Hx|]. by apply IH.
Qed.

Lemma basename_without_slash (file_path : string) :
  occurrences "/" (basename file_path) = 0%nat.
Proof.
  unfold basename.
  apply (last_Forall (fun p => occurrences "/" p = 0%nat));
    [apply split_nonempty | apply split_parts_without].
Qed.

Lemma get_file_name_three_parts (p0 p1 b : string) :
  occurrences "/" p0 = 0%nat -> occurrences "/" p1 = 0%nat ->
  occurrences "/" b = 0%nat ->
  get_file_name_from_gcs_url (p0 +:+ String "/" (p1 +:+ String "/" b))
  = VPair (hd EmptyString (Py.split "." b)) b.
Proof.
  intros H0 H1 Hb. unfold get_file_name_from_gcs_url.
  rewrite !split_app, !split_without by done. reflexivity.
Qed.

Lemma file_name_pair_iff (gcs_url : string) :
  (exists a b, get_file_name_from_gcs_url gcs_url = VPair a b)
  <-> occurrences "/" gcs_url = 2%nat.
Proof.
  pose proof (split_length "/" gcs_url) as Hlen.
  unfold get_file_name_from_gcs_url.
  destruct (Py.split "/" gcs_url) as [|p0 [|p1 [|p2 [|p3 ps]]]]; simpl in Hlen.
  1,2,3,5: split; [intros (a & b & Hab); discriminate | lia].
  split; [lia | eauto].
Qed.

Lemma lookup_replace_same (path : string) (sz : Z) (bs : list blob) :
  is_Some (lookup_blob path bs) ->
  lookup_blob path
    (map (fun b => if String.eqb (name b) path then Blob path sz else b) bs)
  = Some (Blob path sz).
Proof.
  unfold lookup_blob. induction bs as [|b bs IH]; simpl; [by intros [? ?]|].
  destruct (String.eqb (name b) path) eqn:E; simpl.
  - by rewrite String.eqb_refl.
  - by rewrite E.
Qed.

Lemma lookup_replace_other (path p : string) (sz : Z) (bs : list blob) :
  p <> path ->
  lookup_blob p
    (map (fun b => if String.eqb (name b) path then Blob path sz else b) bs)
  = lookup_blob p bs.
Proof.
  intros Hp. unfold lookup_blob. induction bs as [|b bs IH]; simpl; [done|].
  destruct (String.eqb_spec (name b) path) as [E|E]; simpl; [|by rewrite IH].
  destruct (String.eqb_spec path p) as [E'|_]; [by destruct Hp|].
  destruct (String.eqb_spec (name b) p) as [E'|_]; [destruct Hp; congruence|].
  exact IH.
Qed.

Lemma names_replace (path : string) (sz : Z) (bs : list blob) :
  map name (map (fun b => if String.eqb (name b) path then Blob path sz else b) bs)
  = map name bs.
Proof.
  induction bs as [|b bs IH]; simpl; [done|]. rewrite IH. f_equal.
  by destruct (String.eqb_spec (name b) path).
Qed.

Lemma lookup_insert_same (b : blob) (bs : list blob) :
  lookup_blob (name b) bs = None ->
  lookup_blob (name b) (insert_blob b bs) = Some b.
Proof.
  unfold lookup_blob. induction bs as [|x bs IH]; simpl.
  - by rewrite String.eqb_refl.
  - destruct (String.eqb (name x) (name b)) eqn:E; [discriminate|]. intros Hn.
    destruct (String.leb (name b) (name x)); simpl.
    + by rewrite String.eqb_refl.
    + rewrite E. by apply IH.
Qed.

Lemma lookup_insert_other (p : string) (b : blob) (bs : list blob) :
  p <> name b -> lookup_blob p (insert_blob b bs) = lookup_blob p bs.
Proof.
  intros Hp. unfold lookup_blob. induction bs as [|x bs IH]; simpl.
  - by destruct (String.eqb_spec (name b) p) as [E|_]; [destruct Hp|].
  - destruct (String.leb (name b) (name x)); simpl.
    + by destruct (String.eqb_spec (name b) p) as [E|_]; [destruct Hp|].
    + by rewrite IH.
Qed.

Lemma upload_file_spec `{LocalFiles}
    (file_path brand folder : string) (w : world) :
  let brand_folder := brand +:+ "/" +:+ folder +:+ "/" in
  let dest := brand_folder +:+ basename file_path in
  exists w',
    upload_file_to_bucket file_path brand folder w = (Ok tt, w')
    /\ lookup_blob dest (bucket w') = Some (Blob dest (file_size file_path))
    /\ (forall p, p <> dest -> lookup_blob p (bucket w') = lookup_blob p (bucket w))
    /\ (NoDup (map name (bucket w)) -> NoDup (map name (bucket w')))
    /\ trace w' = trace w ++ [Upload dest file_path;
                              Print (MsgUploaded (basename file_path) brand_folder)].
Proof.
  intros brand_folder dest. eexists. split; [reflexivity|]. simpl.
  fold brand_folder. fold dest.
  destruct (lookup_blob dest (bucket w)) as [b0|] eqn:E.
  - split; [by apply lookup_replace_same; rewrite E|].
    split; [intros p Hp; by apply lookup_replace_other|].
    split; [by rewrite names_replace|]. by rewrite <- app_assoc.
  - split; [by apply (lookup_insert_same (Blob dest _))|].
    split; [intros p Hp; by apply lookup_insert_other|].
    split; [|by rewrite <- app_assoc].
    apply insert_blob_nodup. by apply lookup_blob_None.
Qed.

(** X17: [upload_file_to_bucket] never raises.  Afterwards the object
    [brand/folder/basename] holds the file, whether or not there was such
    an object before; every other name holds what it held; names stay
    distinct; and the trace has grown by the upload and its message. *)
Theorem upload_file_stores_one_object `{LocalFiles}
    (file_path brand folder : string) (w : world) :
  let brand_folder := brand +:+ "/" +:+ folder +:+ "/" in
  let dest := brand_folder +:+ basename file_path in
  exists w',
    upload_file_to_bucket file_path brand folder w = (Ok tt, w')
    /\ lookup_blob dest (bucket w') = Some (Blob dest (file_size file_path))
    /\ (forall p, p <> dest -> lookup_blob p (bucket w') = lookup_blob p (bucket w))
    /\ (NoDup (map name (bucket w)) -> NoDup (map name (bucket w')))
    /\ trace w' = trace w ++ [Upload dest file_path;
                              Print (MsgUploaded (basename file_path) brand_folder)].
Proof. apply upload_file_spec. Qed.

Lemma upload_file_witness :
  exists w',
    upload_file_to_bucket (H := files_of_4mb) "/tmp/clips/ad.mp4" "Acme" "videos"
      (Sample.world_of Sample.small_bucket) = (Ok tt, w')
    /\ lookup_blob "Acme/videos/ad.mp4" (bucket w')
       = Some (Blob "Acme/videos/ad.mp4" 4000000)
    /\ lookup_blob "Acme/videos/" (bucket w') = Some (Blob "Acme/videos/" 0)
    /\ NoDup (map name (bucket w')).
Proof.
  destruct (upload_file_stores_one_object (H := files_of_4mb) "/tmp/clips/ad.mp4"
              "Acme" "videos" (Sample.world_of Sample.small_bucket))
    as (w' & Hrun & Hlook & Hother & Hnd & _).
  exists w'. split; [exact Hrun|]. split; [exact Hlook|]. split.
  - by rewrite (Hother "Acme/videos/").
  - apply Hnd. apply (bool_decide_unpack _). by vm_compute.
Defined.

(** X18: An uploaded video lands in the listing of its brand, and its name
    resolves exactly when the brand name has no slash: with a slash in the
    brand name every uploaded file is one of the names the two passes
    cannot unpack. *)
Theorem uploaded_video_resolves `{LocalFiles} (file_path brand : string) (w : world) :
  let dest := (brand +:+ "/" +:+ "videos" +:+ "/") +:+ basename file_path in
  let uploaded := Blob dest (file_size file_path) in
  In uploaded
     (listing brand (bucket (snd (upload_file_to_bucket file_path brand "videos" w))))
  /\ (occurrences "/" brand = 0%nat ->
      resolve uploaded
      = Some (hd EmptyString (Py.split "." (basename file_path)), basename file_path))
  /\ (occurrences "/" brand <> 0%nat -> resolve uploaded = None).
Proof.
  intros dest uploaded.
  pose proof (basename_without_slash file_path) as Hbase.
  assert (dest = brand +:+ String "/" ("videos" +:+ String "/" (basename file_path)))
    as Hdest.
  { unfold dest. by normalize_strings. }
  split; [|split].
  - destruct (upload_file_spec file_path brand "videos" w)
      as (w' & Hrun & Hlook & _).
    rewrite Hrun. simpl.
    apply lookup_blob_Some in Hlook as [Hin _].
    unfold listing. apply List.filter_In. split; [exact Hin|].
    simpl. rewrite Hdest.
    replace (brand +:+ String "/" ("videos" +:+ String "/" (basename file_path)))
      with ((brand +:+ "/videos") +:+ String "/" (basename file_path))
      by by normalize_strings.
    apply prefix_app.
  - intros Hb. unfold resolve, uploaded. simpl. rewrite Hdest.
    by rewrite get_file_name_three_parts.
  - intros Hb. unfold resolve, uploaded. simpl.
    destruct (get_file_name_from_gcs_url dest) as [a b|s] eqn:E; [|done].
    exfalso. assert (occurrences "/" dest = 2%nat) as H2.
    { apply file_name_pair_iff. eauto. }
    rewrite Hdest in H2. count_occurrences. lia.
Qed.

Lemma uploaded_video_witness :
  resolve (Blob "Acme/videos/ad.mp4" 4000000) = Some ("ad", "ad.mp4")
  /\ resolve (Blob "Acme/EU/videos/ad.mp4" 4000000) = None.
Proof.
  destruct (uploaded_video_resolves (H := files_of_4mb) "/tmp/clips/ad.mp4" "Acme"
              (Sample.world_of Sample.small_bucket)) as (_ & Hyes & _).
  destruct (uploaded_video_resolves (H := files_of_4mb) "/tmp/clips/ad.mp4" "Acme/EU"
              (Sample.world_of Sample.small_bucket)) as (_ & _ & Hno).
  split; [by apply Hyes | by apply Hno].
Defined.

(** ** The size gate and the report *)

Lemma filtered_images_sublist {A B} (R : A -> B -> Prop) (P Q : A -> bool)
    (l : list A) :
  (forall a b b', R a b -> R a b' -> b = b') ->
  (forall a, P a = true -> Q a = true) ->
  forall xs ys,
    Forall2 R (List.filter P l) xs -> Forall2 R (List.filter Q l) ys ->
    sublist xs ys.
Proof.
  intros Hfun HPQ. induction l as [|a l IH]; simpl; intros xs ys Hxs Hys.
  - apply Forall2_nil_inv_l in Hxs as ->. apply sublist_nil_l.
  - destruct (P a) eqn:EP, (Q a) eqn:EQ.
    + apply Forall2_cons_inv_l in Hxs as (x & xs' & Hx & Hxs & ->).
      apply Forall2_cons_inv_l in Hys as (y & ys' & Hy & Hys & ->).
      rewrite (Hfun _ _ _ Hx Hy). apply sublist_skip. by apply IH.
    + apply HPQ in EP. congruence.
    + apply Forall2_cons_inv_l in Hys as (y & ys' & Hy & Hys & ->).
      apply sublist_cons. by apply IH.
    + by apply IH.
Qed.

Lemma filtered_images_equal {A B} (R : A -> B -> Prop) (P Q : A -> bool)
    (l : list A) :
  (forall a b b', R a b -> R a b' -> b = b') ->
  (forall a, In a l -> P a = Q a) ->
  forall xs ys,
    Forall2 R (List.filter P l) xs -> Forall2 R (List.filter Q l) ys -> xs = ys.
Proof.
  intros Hfun HPQ xs ys Hxs Hys.
  rewrite (List.filter_ext_in P Q l HPQ) in Hxs.
  revert ys Hys. induction Hxs as [|a x l' xs' Hx _ IH]; intros ys Hys.
  - by apply Forall2_nil_inv_l in Hys as ->.
  - apply Forall2_cons_inv_l in Hys as (y & ys' & Hy & Hys & ->).
    by rewrite (Hfun _ _ _ Hx Hy), (IH _ Hys).
Qed.

Lemma assessment_of_functional `{Config} `{Detectors} ua brand c video va va' :
  assessment_of ua brand c video va -> assessment_of ua brand c video va' ->
  va = va'.
Proof.
  intros (fn & fnf & Hres & Hva) (fn' & fnf' & Hres' & Hva').
  rewrite Hres in Hres'. injection Hres' as <- <-. simpl in *. congruence.
Qed.

Lemma passes_gates_with_llms (video : blob) `{Config} :
  passes_gates true video = true -> passes_gates false video = true.
Proof.
  unfold passes_gates. destruct (resolve video) as [[fn fnf]|]; [|done].
  simpl. rewrite andb_true_r. by intros [? _]%andb_true_iff.
Qed.

(** X19: Over the same bucket, [use_llms] only takes entries away: the report
    of [execute_abcd_assessment_for_videos] with the flag on is the report
    with the flag off without the videos over the size limit, in the same
    order and with the same assessments, and the two reports are the same
    when no candidate is over the limit. *)
Theorem llm_report_is_part_of_the_plain_report `{Config} `{Detectors}
    (brand : string) (c : criteria) (ua : bool) (w : world) :
  NoDup (map name (bucket w)) ->
  (forall video, In video (candidates brand (bucket w)) -> is_Some (resolve video)) ->
  exists with_llms without_llms w1 w2,
    execute_abcd_assessment_for_videos brand c ua true w
    = (Ok (BrandAssessment brand with_llms), w1)
    /\ execute_abcd_assessment_for_videos brand c ua false w
       = (Ok (BrandAssessment brand without_llms), w2)
    /\ sublist with_llms without_llms
    /\ ((forall video, In video (candidates brand (bucket w)) ->
                       over_size_limit (size video) = false) ->
        with_llms = without_llms).
Proof.
  intros Hnd Hres.
  destruct (assessment_run_spec ua true brand c w Hnd Hres) as (vt & w1 & Ht & _ & Hvt).
  destruct (assessment_run_spec ua false brand c w Hnd Hres) as (vf & w2 & Hf & _ & Hvf).
  exists vt, vf, w1, w2. split; [done|]. split; [done|]. split.
  - eapply filtered_images_sublist; [| |exact Hvt|exact Hvf].
    + intros a b b'. apply assessment_of_functional.
    + intros a. apply passes_gates_with_llms.
  - intros Hsmall.
    eapply filtered_images_equal; [| |exact Hvt|exact Hvf].
    + intros a b b'. apply assessment_of_functional.
    + intros a Hin. unfold passes_gates.
      destruct (resolve a) as [[fn fnf]|]; [|done].
      by rewrite (Hsmall a Hin).
Qed.

Lemma llm_report_witness :
  exists with_llms without_llms w1 w2,
    execute_abcd_assessment_for_videos (H := Sample.config) (H0 := Sample.detectors)
      "Acme" Sample.acme true true (Sample.world_of Sample.mixed_bucket)
    = (Ok (BrandAssessment "Acme" with_llms), w1)
    /\ execute_abcd_assessment_for_videos (H := Sample.config) (H0 := Sample.detectors)
         "Acme" Sample.acme true false (Sample.world_of Sample.mixed_bucket)
       = (Ok (BrandAssessment "Acme" without_llms), w2)
    /\ sublist with_llms without_llms.
Proof.
  destruct (llm_report_is_part_of_the_plain_report (H := Sample.config)
              (H0 := Sample.detectors) "Acme" Sample.acme true
              (Sample.world_of Sample.mixed_bucket))
    as (vt & vf & w1 & w2 & Ht & Hf & Hsub & _).
  - apply (bool_decide_unpack _). by vm_compute.
  - intros video Hin. vm_compute in Hin.
    repeat (destruct Hin as [<-|Hin]; [by eexists|]). destruct Hin.
  - by exists vt, vf, w1, w2.
Defined.

(** ** The fields of the endpoint *)

(** X20: A comma-separated field gives one entry more than it has commas, for
    any way of stripping the entries; so the list is never empty, and a
    field without a comma, the empty field included, gives the one entry
    that is the whole field stripped. *)
Theorem split_and_strip_entries (strip : string -> string) (field : string) :
  length (split_and_strip strip field) = S (occurrences "," field)
  /\ (occurrences "," field = 0%nat -> split_and_strip strip field = [strip field]).
Proof.
  unfold split_and_strip. split.
  - by rewrite length_map, split_length.
  - intros H0. by rewrite split_without.
Qed.

Lemma split_and_strip_witness :
  length (split_and_strip id "Acme, Acme Corp") = 2%nat
  /\ split_and_strip id "" = [""].
Proof.
  destruct (split_and_strip_entries id "Acme, Acme Corp") as [Hlen _].
  destruct (split_and_strip_entries id "") as [_ Hone].
  split; [exact Hlen | by apply Hone].
Defined.

(** ** Uploading, then assessing *)

Lemma upload_objects (path local_path : string) (sz : Z) (w : world) (b : blob) :
  In b (bucket (snd (upload path local_path sz w))) ->
  b = Blob path sz \/ In b (bucket w).
Proof.
  unfold upload. simpl. destruct (lookup_blob path (bucket w)).
  - rewrite in_map_iff. intros (x & <- & Hx).
    destruct (String.eqb (name x) path); auto.
  - destruct (insert_blob_split (Blob path sz) (bucket w)) as (l1 & l2 & E & ->).
    rewrite E, !in_app_iff. simpl. intuition auto.
Qed.

Lemma candidates_In (brand : string) (objects : list blob) (b : blob) :
  In b (candidates brand objects)
  <-> In b objects
      /\ String.prefix (brand +:+ "/videos") (name b) = true
      /\ skipped (brand +:+ "/videos") b = false.
Proof.
  unfold candidates, listing. rewrite !List.filter_In, negb_true_iff. tauto.
Qed.

Section UploadsKeepTheBucketSound.
Context `{Config} `{LocalFiles}.

(** A bucket with distinct names whose candidates all trim well stays so
    when a file on which the disk and the video library do their work is
    uploaded for a brand without a slash in its name. *)
Lemma upload_file_keeps_sound (file brand : string) (w : world) :
  occurrences "/" brand = 0%nat ->
  NoDup (map name (bucket w)) ->
  (forall video, In video (candidates brand (bucket w)) ->
                 trims_well "abcd_videos" video = true) ->
  library_works "abcd_videos" (hd EmptyString (Py.split "." (basename file)))
    (basename file) = true ->
  exists w',
    upload_file_to_bucket file brand "videos" w = (Ok tt, w')
    /\ NoDup (map name (bucket w'))
    /\ (forall video, In video (candidates brand (bucket w')) ->
                      trims_well "abcd_videos" video = true)
    /\ In ((brand +:+ "/" +:+ "videos" +:+ "/") +:+ basename file)
          (map name (bucket w'))
    /\ (forall p, In p (map name (bucket w)) -> In p (map name (bucket w'))).
Proof.
  intros Hbrand Hnd Hres Hworks.
  destruct (upload_file_spec file brand "videos" w)
    as (w' & Hrun & Hlook & Hother & Hnd' & _).
  exists w'. split; [exact Hrun|]. split; [by apply Hnd'|].
  set (dest := (brand +:+ "/" +:+ "videos" +:+ "/") +:+ basename file) in *.
  split; [|split].
  - intros video [Hin [Hpre Hskip]]%candidates_In.
    assert (bucket w' = bucket (snd (upload dest file (file_size file) w))) as Hb.
    { unfold upload_file_to_bucket in Hrun. fold dest in Hrun.
      unfold bind, print, emit in Hrun. simpl in Hrun. by injection Hrun as <-. }
    rewrite Hb in Hin. apply upload_objects in Hin as [->|Hin].
    + unfold trims_well, resolve. simpl.
      replace dest
        with (brand +:+ String "/" ("videos" +:+ String "/" (basename file)))
        by (unfold dest; by normalize_strings).
      rewrite get_file_name_three_parts; [done|done|done|].
      apply basename_without_slash.
    + apply Hres, candidates_In. by repeat split.
  - apply lookup_blob_Some in Hlook as [Hin _]. by apply (in_map name) in Hin.
  - intros p Hp. destruct (decide (p = dest)) as [->|Hne].
    + apply lookup_blob_Some in Hlook as [Hin _]. by apply (in_map name) in Hin.
    + destruct (lookup_blob p (bucket w')) as [b|] eqn:E.
      * apply lookup_blob_Some in E as [Hin <-]. by apply in_map.
      * rewrite (Hother p Hne) in E. by apply lookup_blob_None in E.
Qed.

Lemma upload_files_keep_sound (brand : string) (files : list string) :
  occurrences "/" brand = 0%nat ->
  (forall file, In file files ->
     library_works "abcd_videos" (hd EmptyString (Py.split "." (basename file)))
       (basename file) = true) ->
  forall w,
    NoDup (map name (bucket w)) ->
    (forall video, In video (candidates brand (bucket w)) ->
                   trims_well "abcd_videos" video = true) ->
    exists w',
      for_each files (fun file => upload_file_to_bucket file brand "videos") w
      = (Ok tt, w')
      /\ NoDup (map name (bucket w'))
      /\ (forall video, In video (candidates brand (bucket w')) ->
                        trims_well "abcd_videos" video = true)
      /\ (forall file, In file files ->
            In ((brand +:+ "/" +:+ "videos" +:+ "/") +:+ basename file)
               (map name (bucket w')))
      /\ (forall p, In p (map name (bucket w)) -> In p (map name (bucket w'))).
Proof.
  intros Hbrand. unfold for_each.
  induction files as [|file files IH]; intros Hworks w Hnd Hres; simpl.
  - exists w. by repeat split.
  - destruct (upload_file_keeps_sound file brand w Hbrand Hnd Hres)
      as (w1 & Hrun & Hnd1 & Hres1 & Hin1 & Hkeep1).
    { apply Hworks. by left. }
    destruct (IH (fun f Hf => Hworks f (or_intror Hf)) w1 Hnd1 Hres1)
      as (w2 & Hrun2 & Hnd2 & Hres2 & Hin2 & Hkeep2).
    exists w2. unfold bind. rewrite Hrun, Hrun2.
    split; [done|]. split; [done|]. split; [done|]. split; [|by auto].
    intros f [<-|Hf]; [by apply Hkeep2 | by apply Hin2].
Qed.

End UploadsKeepTheBucketSound.

(** X21: the first half of the endpoint, for a brand without a slash in
    its name, a bucket with distinct names whose candidates trim well,
    and files on which the disk and the video library do their work:
    whatever the fields, every upload succeeds, every file is an object
    of the bucket the detector works on, the trimming pass ends normally
    and the run ends with a report that is not empty or with
    [SystemExit].  A candidate of that bucket that passes the gates has
    its assessment in the report. *)
Theorem uploaded_files_are_assessed `{Config} `{Detectors} `{LocalFiles}
    (strip : string -> string)
    (brand variations products categories call_to_actions : string)
    (ua ul : bool) (files : list string) (w : world) :
  occurrences "/" brand = 0%nat ->
  NoDup (map name (bucket w)) ->
  (forall video, In video (candidates brand (bucket w)) ->
                 trims_well "abcd_videos" video = true) ->
  (forall file, In file files ->
     library_works "abcd_videos" (hd EmptyString (Py.split "." (basename file)))
       (basename file) = true) ->
  exists w1 r w2,
    for_each files (fun file => upload_file_to_bucket file brand "videos") w
    = (Ok tt, w1)
    /\ upload_and_detect strip brand variations products categories call_to_actions
         ua ul files w = (r, w2)
    /\ (forall file, In file files ->
          In ((brand +:+ "/" +:+ "videos" +:+ "/") +:+ basename file)
             (map name (bucket w1)))
    /\ (r = Raise SystemExit
        \/ exists vas, vas <> [] /\ r = Ok (BrandAssessment brand vas))
    /\ (forall video,
          In video (candidates brand (bucket w1)) -> passes_gates ul video = true ->
          exists vas va,
            r = Ok (BrandAssessment brand vas) /\ In va vas
            /\ video_name va = snd (default (EmptyString, EmptyString) (resolve video))
            /\ video_uri va = "gs://" +:+ BUCKET_NAME +:+ "/" +:+ name video).
Proof.
  intros Hbrand Hnd Hres Hworks.
  destruct (upload_files_keep_sound brand files Hbrand Hworks w Hnd Hres)
    as (w1 & Hup & Hnd1 & Hres1 & Hin1 & _).
  set (c := Criteria (split_and_strip strip variations) (split_and_strip strip products)
              (split_and_strip strip categories)
              (split_and_strip strip call_to_actions)).
  assert (bucket (after_annotations ua brand w1) = bucket w1) as Hb0.
  { unfold after_annotations. by destruct ua. }
  destruct (trim_videos_ok brand (after_annotations ua brand w1)) as (wt & Htrim).
  { by rewrite Hb0. }
  destruct (detector_run_spec ua ul brand c w1 wt Hnd1 Htrim)
    as (vas & w2 & Hall & Hrun & _).
  exists w1, (match vas with [] => Raise SystemExit
                        | _ :: _ => Ok (BrandAssessment brand vas) end), w2.
  split; [exact Hup|]. split.
  { unfold upload_and_detect, bind. rewrite Hup. exact Hrun. }
  split; [exact Hin1|]. split.
  { destruct vas as [|va vas]; [by left|]. right. by exists (va :: vas). }
  intros video Hcand Hpass.
  assert (In video (List.filter (passes_gates ul) (candidates brand (bucket w1))))
    as Hin by (apply List.filter_In; by split).
  apply list_elem_of_In, list_elem_of_lookup in Hin as [i Hi].
  destruct (Forall2_lookup_l _ _ _ _ _ Hall Hi) as (va & Hva & fn & fnf & Hr & Hscore).
  exists vas, va.
  assert (In va vas) as Hinva.
  { apply list_elem_of_In, list_elem_of_lookup. by exists i. }
  split; [by destruct vas|]. split; [exact Hinva|].
  rewrite Hr. simpl in *.
  destruct (score_detected_ok ua brand c fn fnf
              ("gs://" +:+ BUCKET_NAME +:+ "/" +:+ name video))
    as (va' & Hva' & _ & Hn & Hu).
  rewrite Hva' in Hscore. injection Hscore as <-. by split.
Qed.

Lemma uploaded_files_witness :
  exists w1 r w2,
    for_each ["/tmp/clips/new.mp4"]
      (fun file => upload_file_to_bucket (H := files_of_4mb) file "Acme" "videos")
      (Sample.world_of Sample.small_bucket) = (Ok tt, w1)
    /\ upload_and_detect (H := Sample.config) (H0 := Sample.detectors)
         (H1 := files_of_4mb) id "Acme" "Acme, Acme Corp" "Rocket" "toys" "buy now"
         true true ["/tmp/clips/new.mp4"] (Sample.world_of Sample.small_bucket)
       = (r, w2)
    /\ In "Acme/videos/new.mp4" (map name (bucket w1))
    /\ (r = Raise SystemExit
        \/ exists vas, vas <> [] /\ r = Ok (BrandAssessment "Acme" vas)).
Proof.
  destruct (uploaded_files_are_assessed (H := Sample.config) (H0 := Sample.detectors)
              (H1 := files_of_4mb) id "Acme" "Acme, Acme Corp" "Rocket" "toys"
              "buy now" true true ["/tmp/clips/new.mp4"]
              (Sample.world_of Sample.small_bucket))
    as (w1 & r & w2 & Hup & Hrun & Hin & Hr & _).
  - reflexivity.
  - apply (bool_decide_unpack _). by vm_compute.
  - intros video Hin. vm_compute in Hin.
    repeat (destruct Hin as [<-|Hin]; [reflexivity|]). destruct Hin.
  - intros file [<-|[]]. reflexivity.
  - exists w1, r, w2. split; [exact Hup|]. split; [exact Hrun|].
    split; [|exact Hr]. apply (Hin "/tmp/clips/new.mp4"). by left.
Defined.
